(** * Teams/ChatGPT login bot: a shallow embedding of
      [teams_chatgpt_bot_captcha.py] and the properties of its specification.

    The Python module is a sequential program over an environment: files,
    a process table, a wall clock, signals, a log, and remote-controlled
    browsers.  It is embedded as functions in a state-and-exception monad
    over an explicit record of that environment and of the three objects
    the program creates ([TeamsBot], [BotStats], [ProcessManager]).
    Unbounded [while] loops take a fuel argument. *)

From Stdlib Require Import ZArith String Ascii List Bool Lia.
From stdpp Require Import base option list gmap strings pretty.

Set Warnings "-register-all".

Local Open Scope string_scope.
Local Open Scope Z_scope.

(** ** Values *)

(** What [json.load] yields and [json.dump] accepts.  A string in
    [datetime.isoformat] form is [VTime t], with [t] the instant in
    microseconds; every other string is a [VStr].  A float is held exactly, in
    millionths ([timedelta.total_seconds()] is a multiple of one millionth). *)
Inductive value :=
  | VNull
  | VBool (b : bool)
  | VInt (n : Z)
  | VFloat (millionths : Z)
  | VStr (s : string)
  | VTime (t : Z)
  | VList (l : list value)
  | VDict (d : list (string * value)).

(** Python truth value: [bool(v)]. *)
Definition truthy (v : value) : bool :=
  match v with
  | VNull => false
  | VBool b => b
  | VInt n => negb (n =? 0)
  | VFloat x => negb (x =? 0)
  | VStr s => negb (String.eqb s "")
  | VTime _ => true
  | VList l => match l with [] => false | _ => true end
  | VDict d => match d with [] => false | _ => true end
  end.

(** [d.get(k)] is [None] for an absent key, and [None] is falsy. *)
Definition truthy_get (d : gmap string value) (k : string) : bool :=
  match d !! k with Some v => truthy v | None => false end.

(** ** Exceptions *)

Inductive exn_class :=
  | TimeoutException | NoSuchElementException | WebDriverException
  | OSError | PermissionError
  | ValueError | JSONDecodeError | TypeError | KeyError
  | NoSuchProcess | ZombieProcess | AccessDenied
  | KeyboardInterrupt.

Record exn := Exn { exn_cls : exn_class; exn_msg : string }.

(** The classes named in the module's [except] clauses. *)
Inductive handler := HException | HTimeoutException | HNoSuchProcess | HKeyboardInterrupt.

(** [isinstance(e, h)]: [KeyboardInterrupt] derives from [BaseException]
    only; [ZombieProcess] derives from [NoSuchProcess]. *)
Definition catches (h : handler) (c : exn_class) : bool :=
  match h, c with
  | HException, KeyboardInterrupt => false
  | HException, _ => true
  | HTimeoutException, TimeoutException => true
  | HNoSuchProcess, (NoSuchProcess | ZombieProcess) => true
  | HKeyboardInterrupt, KeyboardInterrupt => true
  | _, _ => false
  end.

(** ** Results *)

(** A run that does not come back: the fuel of a [while] loop ran out (the
    loop is still going), or the process was killed by a signal under its
    default disposition. *)
Inductive halt := OutOfFuel | Killed.

Inductive res (A : Type) :=
  | Val (a : A)
  | Exc (e : exn)
  | Halt (h : halt).
Arguments Val {A} a.
Arguments Exc {A} e.
Arguments Halt {A} h.

(** ** The environment *)

(** A file holds a JSON object or any other text. *)
Inductive fcontent :=
  | Json (d : gmap string value)
  | Text (s : string).

Inductive signum := SIGINT | SIGTERM.

Definition signal_number (s : signum) : Z :=
  match s with SIGINT => 2 | SIGTERM => 15 end.

Inductive disposition := SigDefault | SigHandler.

(** The errors [psutil] raises when a process is inspected. *)
Inductive psutil_error := PNoSuchProcess | PZombieProcess | PAccessDenied.

(** A process of the table [psutil] reads: its command line, or the error
    reading it raises. *)
Record process := Process { cmdline : psutil_error + list string }.

(** A page element, as far as the module's locators look at it. *)
Record element := Element {
  tag : string;
  attrs : list (string * string);
  classes : list string;
  text : string;
  displayed : bool;
  enabled : bool
}.

(** The locators of the module. *)
Inductive locator :=
  | ById (id : string)                      (* (By.ID, id) *)
  | CssTagAttrSub (t a sub : string)        (* (By.CSS_SELECTOR, "t[a*='sub']") *)
  | CssTagClass (t c : string)              (* (By.CSS_SELECTOR, "t.c") *)
  | CssAttrEq (a v : string)                (* (By.CSS_SELECTOR, "[a='v']") *)
  | XpButtonText (sub : string)             (* (By.XPATH, "//button[contains(text(), 'sub')]") *)
  | XpButtonType (ty : string).             (* (By.XPATH, "//button[@type='ty']") *)

Record chrome_options := ChromeOptions {
  arguments : list string;
  experimental_options : list (string * value)
}.

(** The commands sent to a browser session. *)
Inductive call :=
  | CChrome (o : chrome_options)
  | CSetPageLoadTimeout (secs : Z)
  | CImplicitlyWait (secs : Z)
  | CGet (url : string)
  | CFindElements (l : locator)
  | CFindElement (l : locator)
  | CUntilPresence (timeout : Z) (l : locator)
  | CUntilClickable (timeout : Z) (l : locator)
  | CClear (e : element)
  | CSendKeys (e : element) (keys : value)
  | CClick (e : element)
  | CQuit.

(** The errors a browser command raises: Selenium's, or the operating
    system's when the driver process cannot be reached. *)
Inductive browser_error := ENoSuchElement | ETimeout | EWebDriver | EConnection.

(** How the browser answers a command: with the page it shows when the
    command completes, or with an error and its message. *)
Inductive reaction :=
  | Shows (page : list element)
  | Breaks (c : browser_error) (msg : string).

Inductive level := INFO | WARNING | ERROR.

Definition browser_exn (c : browser_error) (msg : string) : exn :=
  Exn match c with
      | ENoSuchElement => NoSuchElementException
      | ETimeout => TimeoutException
      | EWebDriver => WebDriverException
      | EConnection => OSError
      end msg.

Definition psutil_exn (c : psutil_error) : exn :=
  match c with
  | PNoSuchProcess => Exn NoSuchProcess "process no longer exists"
  | PZombieProcess => Exn ZombieProcess "PID still exists but it's a zombie"
  | PAccessDenied => Exn AccessDenied "access denied"
  end.

Record world := World {
  fs : gmap string fcontent;          (* the files of the working directory *)
  unreadable : gset string;           (* paths [open(_, 'r')] refuses *)
  unwritable : gset string;           (* paths [open(_, 'w')] and [os.remove] refuse *)
  procs : gmap Z process;             (* the live processes *)
  os_pid : Z;                         (* [os.getpid()] *)
  clock : Z;                          (* wall clock, microseconds *)
  inbox : list (Z * signum);          (* signals on their way: arrival time, signal *)
  sigint : disposition;
  sigterm : disposition;
  logs : list (level * string);
  stdout : list string;
  env : nat -> reaction;              (* the browser's answer to the n-th command *)
  trace : list (nat * call);          (* the commands sent so far: session, command *)
  sessions : nat                      (* browser sessions created so far *)
}.

(** The objects: one [TeamsBot] with its [BotStats] and [ProcessManager]. *)
Record bot := Bot {
  config : gmap string value;
  teams_driver : option nat;
  chatgpt_driver : option nat;
  is_running : bool;
  processed_messages : gset string;
  stats : gmap string value;           (* self.stats.stats *)
  pm_running : bool;                   (* self.process_manager.running *)
  last_health_check : Z;
  health_check_interval : Z;
  max_retries : value;
  retry_delay : value
}.

Record state := State { w : world; b : bot }.

(** Field updates. *)
Definition set_fs (v : gmap string fcontent) (x : world) : world :=
  World v (unreadable x) (unwritable x) (procs x) (os_pid x) (clock x) (inbox x)
        (sigint x) (sigterm x) (logs x) (stdout x) (env x) (trace x) (sessions x).
Definition set_clock (v : Z) (x : world) : world :=
  World (fs x) (unreadable x) (unwritable x) (procs x) (os_pid x) v (inbox x)
        (sigint x) (sigterm x) (logs x) (stdout x) (env x) (trace x) (sessions x).
Definition set_inbox (v : list (Z * signum)) (x : world) : world :=
  World (fs x) (unreadable x) (unwritable x) (procs x) (os_pid x) (clock x) v
        (sigint x) (sigterm x) (logs x) (stdout x) (env x) (trace x) (sessions x).
Definition set_sigint (v : disposition) (x : world) : world :=
  World (fs x) (unreadable x) (unwritable x) (procs x) (os_pid x) (clock x) (inbox x)
        v (sigterm x) (logs x) (stdout x) (env x) (trace x) (sessions x).
Definition set_sigterm (v : disposition) (x : world) : world :=
  World (fs x) (unreadable x) (unwritable x) (procs x) (os_pid x) (clock x) (inbox x)
        (sigint x) v (logs x) (stdout x) (env x) (trace x) (sessions x).
Definition set_logs (v : list (level * string)) (x : world) : world :=
  World (fs x) (unreadable x) (unwritable x) (procs x) (os_pid x) (clock x) (inbox x)
        (sigint x) (sigterm x) v (stdout x) (env x) (trace x) (sessions x).
Definition set_stdout (v : list string) (x : world) : world :=
  World (fs x) (unreadable x) (unwritable x) (procs x) (os_pid x) (clock x) (inbox x)
        (sigint x) (sigterm x) (logs x) v (env x) (trace x) (sessions x).
Definition set_trace (v : list (nat * call)) (x : world) : world :=
  World (fs x) (unreadable x) (unwritable x) (procs x) (os_pid x) (clock x) (inbox x)
        (sigint x) (sigterm x) (logs x) (stdout x) (env x) v (sessions x).
Definition set_sessions (v : nat) (x : world) : world :=
  World (fs x) (unreadable x) (unwritable x) (procs x) (os_pid x) (clock x) (inbox x)
        (sigint x) (sigterm x) (logs x) (stdout x) (env x) (trace x) v.

Definition set_teams_driver (v : option nat) (x : bot) : bot :=
  Bot (config x) v (chatgpt_driver x) (is_running x) (processed_messages x) (stats x)
      (pm_running x) (last_health_check x) (health_check_interval x) (max_retries x)
      (retry_delay x).
Definition set_chatgpt_driver (v : option nat) (x : bot) : bot :=
  Bot (config x) (teams_driver x) v (is_running x) (processed_messages x) (stats x)
      (pm_running x) (last_health_check x) (health_check_interval x) (max_retries x)
      (retry_delay x).
Definition set_is_running (v : bool) (x : bot) : bot :=
  Bot (config x) (teams_driver x) (chatgpt_driver x) v (processed_messages x) (stats x)
      (pm_running x) (last_health_check x) (health_check_interval x) (max_retries x)
      (retry_delay x).
Definition set_stats (v : gmap string value) (x : bot) : bot :=
  Bot (config x) (teams_driver x) (chatgpt_driver x) (is_running x) (processed_messages x) v
      (pm_running x) (last_health_check x) (health_check_interval x) (max_retries x)
      (retry_delay x).
Definition set_pm_running (v : bool) (x : bot) : bot :=
  Bot (config x) (teams_driver x) (chatgpt_driver x) (is_running x) (processed_messages x)
      (stats x) v (last_health_check x) (health_check_interval x) (max_retries x)
      (retry_delay x).

(** ** The monad *)

Definition M (A : Type) : Type := state -> res A * state.

#[export] Instance M_ret : MRet M := fun A a s => (Val a, s).
#[export] Instance M_bind : MBind M := fun A B f m s =>
  match m s with
  | (Val a, s') => f a s'
  | (Exc e, s') => (Exc e, s')
  | (Halt h, s') => (Halt h, s')
  end.

Definition raise {A} (e : exn) : M A := fun s => (Exc e, s).
Definition halted {A} (h : halt) : M A := fun s => (Halt h, s).
Definition gets {A} (f : state -> A) : M A := fun s => (Val (f s), s).
Definition upd_w (f : world -> world) : M unit := fun s => (Val tt, State (f (w s)) (b s)).
Definition upd_b (f : bot -> bot) : M unit := fun s => (Val tt, State (w s) (f (b s))).
Definition lift {A} (r : exn + A) : M A :=
  match r with inl e => raise e | inr a => mret a end.

(** [try: body except h1 as e: k1 e except h2 as e: k2 e ...]: the first
    clause whose class the exception is an instance of handles it. *)
Fixpoint select_clause {A} (cs : list (handler * (exn -> M A))) (e : exn) : option (M A) :=
  match cs with
  | [] => None
  | (h, k) :: cs' => if catches h (exn_cls e) then Some (k e) else select_clause cs' e
  end.

Definition try_except {A} (body : M A) (cs : list (handler * (exn -> M A))) : M A :=
  fun s =>
    match body s with
    | (Exc e, s') =>
        match select_clause cs e with
        | Some k => k s'
        | None => (Exc e, s')
        end
    | r => r
    end.

(** [try: body finally: fin]: [fin] runs whether [body] returned or raised;
    what [fin] raises replaces the outcome of [body]. *)
Definition try_finally {A} (body : M A) (fin : M unit) : M A :=
  fun s =>
    match body s with
    | (Halt h, s') => (Halt h, s')
    | (r, s') =>
        match fin s' with
        | (Val _, s'') => (r, s'')
        | (Exc e, s'') => (Exc e, s'')
        | (Halt h, s'') => (Halt h, s'')
        end
    end.

(** ** Library calls *)

(** The module's file names. *)
Definition CONFIG_FILE := "bot_config.json".
Definition LOG_FILE := "bot.log".
Definition STATS_FILE := "bot_stats.json".
Definition PID_FILE := "bot.pid".

Definition log (l : level) (msg : string) : M unit :=
  upd_w (fun x => set_logs (logs x ++ [(l, msg)]) x).
Definition logger_info := log INFO.
Definition logger_warning := log WARNING.
Definition logger_error := log ERROR.

Definition print (msg : string) : M unit :=
  upd_w (fun x => set_stdout (stdout x ++ [msg]) x).

(** [datetime.now()], in microseconds. *)
Definition datetime_now : M Z := gets (fun s => clock (w s)).

Definition os_path_exists (p : string) : M bool :=
  gets (fun s => bool_decide (is_Some (fs (w s) !! p))).

Definition permission_denied (p : string) : exn :=
  Exn PermissionError ("[Errno 13] Permission denied: '" +:+ p +:+ "'").
Definition no_such_file (p : string) : exn :=
  Exn OSError ("[Errno 2] No such file or directory: '" +:+ p +:+ "'").

(** [open(p, 'r')] and reading the whole file. *)
Definition open_read (p : string) : M fcontent :=
  s ← gets id;
  match fs (w s) !! p with
  | None => raise (no_such_file p)
  | Some c => if bool_decide (p ∈ unreadable (w s)) then raise (permission_denied p)
              else mret c
  end.

(** [open(p, 'w')] and writing the whole file. *)
Definition open_write (p : string) (c : fcontent) : M unit :=
  s ← gets id;
  if bool_decide (p ∈ unwritable (w s)) then raise (permission_denied p)
  else upd_w (fun x => set_fs (<[p := c]> (fs x)) x).

Definition os_remove (p : string) : M unit :=
  s ← gets id;
  match fs (w s) !! p with
  | None => raise (no_such_file p)
  | Some _ => if bool_decide (p ∈ unwritable (w s)) then raise (permission_denied p)
              else upd_w (fun x => set_fs (delete p (fs x)) x)
  end.

(** [json.load(f)]: text that is not a JSON object does not load as one. *)
Definition json_load (c : fcontent) : M (gmap string value) :=
  match c with
  | Json d => mret d
  | Text _ => raise (Exn JSONDecodeError "Expecting value: line 1 column 1 (char 0)")
  end.

(** ** Strings *)

(** [sub in s]. *)
Fixpoint contains (sub s : string) : bool :=
  String.prefix sub s ||
  match s with
  | EmptyString => false
  | String _ s' => contains sub s'
  end.

(** The ASCII characters [str.isspace] accepts. *)
Definition is_space (c : ascii) : bool :=
  let n := nat_of_ascii c in
  ((9 <=? n) && (n <=? 13) || (28 <=? n) && (n <=? 32))%nat.

Fixpoint lstrip (s : string) : string :=
  match s with
  | EmptyString => EmptyString
  | String c s' => if is_space c then lstrip s' else s
  end.

(** [s.strip()]. *)
Definition strip (s : string) : string :=
  String.rev (lstrip (String.rev (lstrip s))).

Definition digit (c : ascii) : option Z :=
  let n := nat_of_ascii c in
  if ((48 <=? n) && (n <=? 57))%nat then Some (Z.of_nat n - 48) else None.

(** Decimal digits, single underscores allowed between two digits. *)
Fixpoint parse_digits (acc : Z) (after_digit : bool) (s : string) : option Z :=
  match s with
  | EmptyString => if after_digit then Some acc else None
  | String c s' =>
      match digit c with
      | Some d => parse_digits (10 * acc + d) true s'
      | None =>
          if Ascii.eqb c "_" && after_digit then
            match s' with
            | EmptyString => None
            | _ => parse_digits acc false s'
            end
          else None
      end
  end.

(** [int(s)] on a [str]: surrounding whitespace, an optional sign, digits. *)
Definition int_of_string (s : string) : exn + Z :=
  let bad := Exn ValueError ("invalid literal for int() with base 10: '" +:+ s +:+ "'") in
  let body := strip s in
  let r :=
    match body with
    | String "+" r => parse_digits 0 false r
    | String "-" r => Z.opp <$> parse_digits 0 false r
    | _ => parse_digits 0 false body
    end in
  match r with Some n => inr n | None => inl bad end.

(** [f.read()] of a file: the text of a JSON object opens with a brace. *)
Definition file_text (c : fcontent) : string :=
  match c with
  | Text s => s
  | Json _ => "{}"
  end.

(** ** Time and signals *)

(** The handler [ProcessManager.setup_signal_handlers] defines. *)
Definition signal_handler (signum : signum) : M unit :=
  logger_info ("Received signal " +:+ pretty (signal_number signum) +:+ ", shutting down...") ;;
  upd_b (set_pm_running false).

(** Delivery of one signal: the installed handler runs; under the default
    disposition SIGINT raises [KeyboardInterrupt] and SIGTERM ends the
    process. *)
Definition deliver (sg : signum) : M unit :=
  s ← gets id;
  match (match sg with SIGINT => sigint (w s) | SIGTERM => sigterm (w s) end), sg with
  | SigHandler, _ => signal_handler sg
  | SigDefault, SIGINT => raise (Exn KeyboardInterrupt "")
  | SigDefault, SIGTERM => halted Killed
  end.

Fixpoint deliver_all (l : list signum) : M unit :=
  match l with
  | [] => mret tt
  | sg :: l' => deliver sg ;; deliver_all l'
  end.

(** The process sleeps for [us] microseconds: the clock advances, and the
    signals that arrive by then are delivered.  Signals are delivered at
    sleeps only: one that arrives during another call waits in the inbox
    for the next sleep. *)
Definition sleep (us : Z) : M unit :=
  s ← gets id;
  let t := clock (w s) + Z.max 0 us in
  let due := filter (fun p => p.1 <= t) (inbox (w s)) in
  let later := filter (fun p => ¬ (p.1 <= t)) (inbox (w s)) in
  upd_w (fun x => set_inbox later (set_clock t x)) ;;
  deliver_all (snd <$> due).

(** [time.sleep(secs)]. *)
Definition time_sleep (secs : Z) : M unit := sleep (secs * 1000000).

(** [await asyncio.sleep(delay)]. *)
Definition asyncio_sleep (delay : value) : M unit :=
  match delay with
  | VInt n => sleep (n * 1000000)
  | VFloat x => sleep x
  | VBool b => sleep (if b then 1000000 else 0)
  | _ => raise (Exn TypeError "'<=' not supported between instances of this type and 'int'")
  end.

(** ** Browser sessions *)

Fixpoint attr (a : string) (l : list (string * string)) : option string :=
  match l with
  | [] => None
  | (k, v) :: l' => if String.eqb k a then Some v else attr a l'
  end.

Definition attr_is (a v : string) (e : element) : bool :=
  match attr a (attrs e) with Some x => String.eqb x v | None => false end.

Definition attr_contains (a sub : string) (e : element) : bool :=
  match attr a (attrs e) with Some x => contains sub x | None => false end.

Definition matches (l : locator) (e : element) : bool :=
  match l with
  | ById i => attr_is "id" i e
  | CssTagAttrSub t a sub => String.eqb (tag e) t && attr_contains a sub e
  | CssTagClass t c => String.eqb (tag e) t && existsb (String.eqb c) (classes e)
  | CssAttrEq a v => attr_is a v e
  | XpButtonText sub => String.eqb (tag e) "button" && contains sub (text e)
  | XpButtonType ty => String.eqb (tag e) "button" && attr_is "type" ty e
  end.

Definition select (l : locator) (page : list element) : list element :=
  List.filter (matches l) page.

(** A command goes to session [h]; the environment answers it. *)
Definition send (h : nat) (c : call) : M reaction :=
  s ← gets id;
  upd_w (fun x => set_trace (trace x ++ [(h, c)]) x) ;;
  mret (env (w s) (length (trace (w s)))).

(** Commands that return nothing. *)
Definition command (h : nat) (c : call) : M unit :=
  r ← send h c;
  match r with
  | Shows _ => mret tt
  | Breaks c msg => raise (browser_exn c msg)
  end.

(** [webdriver.Chrome(options=o)]. *)
Definition webdriver_Chrome (o : chrome_options) : M nat :=
  h ← gets (fun s => sessions (w s));
  command h (CChrome o) ;;
  upd_w (set_sessions (S h)) ;;
  mret h.

Definition timeout_exn : exn := Exn TimeoutException "Message: ".
Definition no_such_element : exn :=
  Exn NoSuchElementException "Message: no such element: Unable to locate element".

(** [driver.find_elements(by, l)]. *)
Definition find_elements (h : nat) (l : locator) : M (list element) :=
  r ← send h (CFindElements l);
  match r with
  | Shows page => mret (select l page)
  | Breaks c msg => raise (browser_exn c msg)
  end.

(** [driver.find_element(by, l)]. *)
Definition find_element (h : nat) (l : locator) : M element :=
  r ← send h (CFindElement l);
  match r with
  | Shows page =>
      match select l page with
      | e :: _ => mret e
      | [] => raise no_such_element
      end
  | Breaks c msg => raise (browser_exn c msg)
  end.

(** [WebDriverWait(driver, secs).until(EC.presence_of_element_located(l))]:
    the page answered is the one at the first match or, failing one, at the
    end of the wait.  [until] ignores [NoSuchElementException]. *)
Definition until_presence (h : nat) (secs : Z) (l : locator) : M element :=
  r ← send h (CUntilPresence secs l);
  match r with
  | Shows page =>
      match select l page with
      | e :: _ => mret e
      | [] => raise timeout_exn
      end
  | Breaks ENoSuchElement _ => raise timeout_exn
  | Breaks c msg => raise (browser_exn c msg)
  end.

(** [WebDriverWait(driver, secs).until(EC.element_to_be_clickable(l))]. *)
Definition until_clickable (h : nat) (secs : Z) (l : locator) : M element :=
  r ← send h (CUntilClickable secs l);
  match r with
  | Shows page =>
      match select l page with
      | e :: _ => if displayed e && enabled e then mret e else raise timeout_exn
      | [] => raise timeout_exn
      end
  | Breaks ENoSuchElement _ => raise timeout_exn
  | Breaks c msg => raise (browser_exn c msg)
  end.

(** ** class BotStats *)

(** [v + 1]. *)
Definition py_add_one (v : value) : exn + value :=
  match v with
  | VInt n => inr (VInt (n + 1))
  | VBool b => inr (VInt ((if b then 1 else 0) + 1))
  | VFloat x => inr (VFloat (x + 1000000))
  | _ => inl (Exn TypeError "unsupported operand type(s) for +")
  end.

(** [datetime.fromisoformat(v)]. *)
Definition fromisoformat (v : value) : exn + Z :=
  match v with
  | VTime t => inr t
  | VStr s => inl (Exn ValueError ("Invalid isoformat string: '" +:+ s +:+ "'"))
  | _ => inl (Exn TypeError "fromisoformat: argument must be str")
  end.

(** [d[k]]. *)
Definition getitem (d : gmap string value) (k : string) : exn + value :=
  match d !! k with
  | Some v => inr v
  | None => inl (Exn KeyError ("'" +:+ k +:+ "'"))
  end.

(** [d.get(k, default)]. *)
Definition get (d : gmap string value) (k : string) (default : value) : value :=
  match d !! k with Some v => v | None => default end.

Module BotStats.

Definition load_stats : M unit :=
  try_except
    (ex ← os_path_exists STATS_FILE;
     if ex : bool then
       f ← open_read STATS_FILE;
       d ← json_load f;
       upd_b (fun x => set_stats (d ∪ stats x) x)
     else mret tt)
    [(HException, fun e => logger_warning ("Could not load stats: " +:+ exn_msg e))].

Definition init : M unit :=
  now ← datetime_now;
  upd_b (set_stats (list_to_map
    [("start_time", VTime now);
     ("messages_processed", VInt 0);
     ("responses_sent", VInt 0);
     ("errors", VInt 0);
     ("last_activity", VNull);
     ("uptime", VInt 0)])) ;;
  load_stats.

Definition save_stats : M unit :=
  try_except
    (now ← datetime_now;
     d ← gets (fun s => stats (b s));
     st ← lift (getitem d "start_time");
     t0 ← lift (fromisoformat st);
     upd_b (fun x => set_stats (<["uptime" := VFloat (now - t0)]> (stats x)) x) ;;
     d' ← gets (fun s => stats (b s));
     open_write STATS_FILE (Json d'))
    [(HException, fun e => logger_warning ("Could not save stats: " +:+ exn_msg e))].

Definition increment (key : string) : M unit :=
  d ← gets (fun s => stats (b s));
  v ← lift (py_add_one (get d key (VInt 0)));
  upd_b (fun x => set_stats (<[key := v]> (stats x)) x) ;;
  now ← datetime_now;
  upd_b (fun x => set_stats (<["last_activity" := VTime now]> (stats x)) x) ;;
  save_stats.

End BotStats.

(** ** class NetworkChecker *)

(** The network as a connection attempt finds it at a clock reading:
    whether the connection is made, and how long the attempt takes (in
    microseconds, at most the five seconds of its timeout). *)
Definition network := Z -> bool * Z.

(** [socket.create_connection(("8.8.8.8", 53), timeout=5)]: the attempt
    takes its time and returns, or raises an [OSError]. *)
Definition socket_create_connection (net : network) : M unit :=
  now ← datetime_now;
  let '(ok, took) := net now in
  upd_w (set_clock (now + Z.min 5000000 (Z.max 0 took))) ;;
  if ok : bool then mret tt
  else raise (Exn OSError "[Errno 101] Network is unreachable").

(** [isinstance(e, OSError)]. *)
Definition is_OSError (c : exn_class) : bool :=
  match c with
  | OSError | PermissionError => true
  | _ => false
  end.

(** [try: body except OSError as e: k e]. *)
Definition try_except_OSError {A} (body : M A) (k : exn -> M A) : M A :=
  fun s =>
    match body s with
    | (Exc e, s') => if is_OSError (exn_cls e) then k e s' else (Exc e, s')
    | r => r
    end.

Module NetworkChecker.

Definition is_connected (net : network) : M bool :=
  try_except_OSError
    (socket_create_connection net ;; mret true)
    (fun _ => mret false).

(** The [while] loop of [wait_for_network]; the value is what the method
    returns. *)
Fixpoint poll (net : network) (fuel : nat) (start_time timeout : Z) : M bool :=
  match fuel with
  | O => halted OutOfFuel
  | S fuel' =>
      now ← datetime_now;
      if bool_decide (now - start_time < timeout * 1000000) then
        connected ← is_connected net;
        if connected : bool then
          logger_info "Network connection established" ;;
          mret true
        else
          time_sleep 5 ;;
          poll net fuel' start_time timeout
      else
        logger_error "Network connection timeout" ;;
        mret false
  end.

Definition wait_for_network (net : network) (fuel : nat) (timeout : Z) : M bool :=
  logger_info "Waiting for network connection..." ;;
  start_time ← datetime_now;
  poll net fuel start_time timeout.

End NetworkChecker.

(** ** class ProcessManager *)

(** [psutil.Process(pid)]. *)
Definition psutil_Process (pid : Z) : M process :=
  if pid <? 0 then raise (Exn ValueError "pid must be a positive integer")
  else
    s ← gets id;
    match procs (w s) !! pid with
    | Some p => mret p
    | None => raise (Exn NoSuchProcess "process PID not found")
    end.

Module ProcessManager.

Definition setup_signal_handlers : M unit :=
  upd_w (set_sigint SigHandler) ;;
  upd_w (set_sigterm SigHandler).

Definition write_pid : M unit :=
  try_except
    (pid ← gets (fun s => os_pid (w s));
     open_write PID_FILE (Text (pretty pid)))
    [(HException, fun e => logger_warning ("Could not write PID file: " +:+ exn_msg e))].

Definition init : M unit :=
  upd_b (set_pm_running true) ;;
  setup_signal_handlers ;;
  write_pid.

Definition cleanup_pid : M unit :=
  try_except
    (ex ← os_path_exists PID_FILE;
     if ex : bool then os_remove PID_FILE else mret tt)
    [(HException, fun e => logger_warning ("Could not remove PID file: " +:+ exn_msg e))].

(** The value is what the method returns; the inner blocks yield [true]
    where the method says [return True] and [false] where control falls
    through to the final [return False]. *)
Definition is_already_running : M bool :=
  try_except
    (ex ← os_path_exists PID_FILE;
     if ex : bool then
       f ← open_read PID_FILE;
       pid ← lift (int_of_string (strip (file_text f)));
       try_except
         (process ← psutil_Process pid;
          cl ← lift (sum_map psutil_exn id (cmdline process));
          mret (contains "teams_chatgpt_bot" (String.concat " " cl)))
         [(HNoSuchProcess, fun _ => mret false)]
     else mret false)
    [(HException, fun e =>
        logger_warning ("Could not check if already running: " +:+ exn_msg e) ;;
        mret false)].

End ProcessManager.

(** ** class TeamsBot *)

Definition nonempty {A} (l : list A) : bool :=
  match l with [] => false | _ => true end.

(** [element.send_keys(v)]: [None] cannot be typed. *)
Definition send_keys (h : nat) (e : element) (v : value) : M unit :=
  match v with
  | VNull => raise (Exn TypeError "'NoneType' object is not iterable")
  | _ => command h (CSendKeys e v)
  end.

Module TeamsBot.

Definition init (cfg : gmap string value) : M unit :=
  upd_b (fun x => Bot cfg None None false ∅ (stats x) (pm_running x)
                      (last_health_check x) (health_check_interval x)
                      (max_retries x) (retry_delay x)) ;;
  BotStats.init ;;
  ProcessManager.init ;;
  now ← datetime_now;
  upd_b (fun x => Bot (config x) (teams_driver x) (chatgpt_driver x) (is_running x)
                      (processed_messages x) (stats x) (pm_running x)
                      now (5 * 60 * 1000000)
                      (get cfg "max_retries" (VInt 3))
                      (get cfg "retry_delay" (VInt 30))).

Definition recaptcha_frame := CssTagAttrSub "iframe" "src" "recaptcha".
Definition hcaptcha_frame := CssTagAttrSub "iframe" "src" "hcaptcha".
Definition recaptcha_div := CssTagClass "div" "g-recaptcha".

(** The condition of the [if] is the three-way [or] of the source line,
    whose continuation backslashes are read as line breaks. *)
Definition detect_captcha (driver : nat) : M bool :=
  try_except
    (l1 ← find_elements driver recaptcha_frame;
     found ←
       (if nonempty l1 then mret true
        else
          l2 ← find_elements driver hcaptcha_frame;
          if nonempty l2 then mret true
          else
            l3 ← find_elements driver recaptcha_div;
            mret (nonempty l3));
     if found : bool then
       logger_warning "⚠️ Captcha detected – please solve it manually in the browser!" ;;
       mret true
     else mret false)
    [(HException, fun _ => mret false)].

(** [while self.detect_captcha(driver): time.sleep(5)]. *)
Fixpoint captcha_wait (fuel : nat) (driver : nat) : M unit :=
  match fuel with
  | O => halted OutOfFuel
  | S fuel' =>
      c ← detect_captcha driver;
      if c : bool then time_sleep 5 ;; captcha_wait fuel' driver
      else mret tt
  end.

Definition setup_driver : M nat :=
  cfg ← gets (fun s => config (b s));
  let headless :=
    if truthy (get cfg "headless" (VBool false))
    then ["--headless"; "--no-sandbox"; "--disable-dev-shm-usage"; "--disable-gpu"]
    else [] in
  let chrome_options :=
    ChromeOptions
      (headless ++ ["--disable-blink-features=AutomationControlled"])
      [("excludeSwitches", VList [VStr "enable-automation"]);
       ("useAutomationExtension", VBool false)] in
  driver ← webdriver_Chrome chrome_options;
  command driver (CSetPageLoadTimeout 30) ;;
  command driver (CImplicitlyWait 10) ;;
  mret driver.

Definition teams_marker := CssAttrEq "data-tid" "app-bar-chat".

(** The statements of [login_to_teams]'s [try] block from the page load
    up to the last wait. *)
Definition teams_steps (fuel : nat) (driver : nat) : M unit :=
  command driver (CGet "https://teams.microsoft.com") ;;
  c ← detect_captcha driver;
  (if c : bool then captcha_wait fuel driver else mret tt) ;;
  email_input ← until_presence driver 15 (ById "i0116");
  command driver (CClear email_input) ;;
  cfg ← gets (fun s => config (b s));
  email ← lift (getitem cfg "teams_email");
  send_keys driver email_input email ;;
  next ← find_element driver (ById "idSIButton9");
  command driver (CClick next) ;;
  password_input ← until_presence driver 15 (ById "i0118");
  command driver (CClear password_input) ;;
  password ← lift (getitem cfg "teams_password");
  send_keys driver password_input password ;;
  submit ← find_element driver (ById "idSIButton9");
  command driver (CClick submit) ;;
  try_except
    (stay_signed_in ← until_clickable driver 5 (ById "idSIButton9");
     command driver (CClick stay_signed_in))
    [(HTimeoutException, fun _ => mret tt)].

Definition login_to_teams (fuel : nat) : M bool :=
  try_except
    (logger_info "Starte Teams-Login..." ;;
     driver ← setup_driver;
     upd_b (set_teams_driver (Some driver)) ;;
     teams_steps fuel driver ;;
     until_presence driver 30 teams_marker ;;
     logger_info "Successfully logged into Teams" ;;
     mret true)
    [(HException, fun e =>
        logger_error ("Teams login error: " +:+ exn_msg e) ;;
        mret false)].

Definition chatgpt_marker := CssTagAttrSub "textarea" "placeholder" "Message".

(** The statements of [login_to_chatgpt]'s [try] block from the page load
    up to the last wait. *)
Definition chatgpt_steps (fuel : nat) (driver : nat) : M unit :=
  command driver (CGet "https://chat.openai.com") ;;
  c ← detect_captcha driver;
  (if c : bool then captcha_wait fuel driver else mret tt) ;;
  login_button ← until_clickable driver 10 (XpButtonText "Log in");
  command driver (CClick login_button) ;;
  email_input ← until_presence driver 15 (ById "username");
  command driver (CClear email_input) ;;
  cfg ← gets (fun s => config (b s));
  email ← lift (getitem cfg "chatgpt_email");
  send_keys driver email_input email ;;
  continue_button ← find_element driver (XpButtonType "submit");
  command driver (CClick continue_button) ;;
  password_input ← until_presence driver 15 (ById "password");
  command driver (CClear password_input) ;;
  password ← lift (getitem cfg "chatgpt_password");
  send_keys driver password_input password ;;
  continue_button ← find_element driver (XpButtonType "submit");
  command driver (CClick continue_button).

Definition login_to_chatgpt (fuel : nat) : M bool :=
  try_except
    (logger_info "Starte ChatGPT-Login..." ;;
     driver ← setup_driver;
     upd_b (set_chatgpt_driver (Some driver)) ;;
     chatgpt_steps fuel driver ;;
     until_presence driver 30 chatgpt_marker ;;
     logger_info "Successfully logged into ChatGPT" ;;
     mret true)
    [(HException, fun e =>
        logger_error ("ChatGPT login error: " +:+ exn_msg e) ;;
        mret false)].

(** [while self.is_running: await asyncio.sleep(...)]. *)
Fixpoint idle_loop (fuel : nat) : M unit :=
  match fuel with
  | O => halted OutOfFuel
  | S fuel' =>
      running ← gets (fun s => is_running (b s));
      if running : bool then
        cfg ← gets (fun s => config (b s));
        asyncio_sleep (get cfg "check_interval" (VInt 10)) ;;
        idle_loop fuel'
      else mret tt
  end.

Definition start (fuel : nat) : M unit :=
  logger_info "Starting Teams-ChatGPT Bot..." ;;
  teams_login ← login_to_teams fuel;
  if negb teams_login then logger_error "Failed to login to Teams"
  else
    chatgpt_login ← login_to_chatgpt fuel;
    if negb chatgpt_login then logger_error "Failed to login to ChatGPT"
    else
      logger_info "Bot successfully started and ready!" ;;
      upd_b (set_is_running true) ;;
      idle_loop fuel.

Definition stop : M unit :=
  logger_info "Stopping bot..." ;;
  upd_b (set_is_running false) ;;
  td ← gets (fun s => teams_driver (b s));
  match td with Some driver => command driver CQuit | None => mret tt end ;;
  cd ← gets (fun s => chatgpt_driver (b s));
  match cd with Some driver => command driver CQuit | None => mret tt end ;;
  logger_info "Bot stopped".

End TeamsBot.

(** ** Module level *)

Definition default_config : gmap string value :=
  list_to_map
    [("teams_email", VStr "");
     ("teams_password", VStr "");
     ("chatgpt_email", VStr "");
     ("chatgpt_password", VStr "");
     ("bot_trigger", VStr "@bot");
     ("check_interval", VInt 10);
     ("headless", VBool false);
     ("max_retries", VInt 3);
     ("retry_delay", VInt 30)].

Definition load_config : M (gmap string value) :=
  ex ← os_path_exists CONFIG_FILE;
  if ex : bool then
    f ← open_read CONFIG_FILE;
    json_load f
  else
    let config := default_config in
    open_write CONFIG_FILE (Json config) ;;
    print ("Konfigurationsdatei '" +:+ CONFIG_FILE +:+ "' erstellt. Bitte ausfüllen!") ;;
    mret config.

Definition credential_fields : list string :=
  ["teams_email"; "teams_password"; "chatgpt_email"; "chatgpt_password"].

(** [[f for f in credential_fields if not config.get(f)]]. *)
Definition missing_fields (cfg : gmap string value) : list string :=
  List.filter (fun f => negb (truthy_get cfg f)) credential_fields.

(** The [try ... except ... finally] statement of [main]. *)
Definition run_bot (fuel : nat) : M unit :=
  try_finally
    (try_except (TeamsBot.start fuel)
       [(HKeyboardInterrupt, fun _ => logger_info "Bot interrupted by user");
        (HException, fun e => logger_error ("Bot crashed: " +:+ exn_msg e))])
    TeamsBot.stop.

Definition main (fuel : nat) : M unit :=
  cfg ← load_config;
  let missing := missing_fields cfg in
  if nonempty missing then
    print ("Bitte folgende Felder in " +:+ CONFIG_FILE +:+ " ausfüllen: "
           +:+ String.concat ", " missing)
  else
    TeamsBot.init cfg ;;
    run_bot fuel.

(** * The vocabulary of the properties *)

(** ** Startup *)

(** Empty in Python's sense ([not v]): the empty string, and likewise
    [None], zero, [False], an empty list or object. *)
Definition is_empty (v : value) : Prop := truthy v = false.

(** A field of the configuration is empty or absent. *)
Definition empty_or_absent (cfg : gmap string value) (f : string) : Prop :=
  cfg !! f = None \/ exists v, cfg !! f = Some v /\ is_empty v.

Definition missing_message (missing : list string) : string :=
  "Bitte folgende Felder in bot_config.json ausfüllen: " +:+ String.concat ", " missing.

Definition created_message : string :=
  "Konfigurationsdatei 'bot_config.json' erstellt. Bitte ausfüllen!".

(** ** Commands and answers *)

(** The state after a command was sent. *)
Definition sent (h : nat) (c : call) (s : state) : state :=
  State (set_trace (trace (w s) ++ [(h, c)]) (w s)) (b s).

(** The environment's answer to the [i]-th command from now. *)
Definition answer (s : state) (i : nat) : reaction :=
  env (w s) (length (trace (w s)) + i)%nat.

(** ** CAPTCHA markers *)

Definition captcha_warning : string :=
  "⚠️ Captcha detected – please solve it manually in the browser!".

(** The three marker patterns, in the words of the specification. *)
Definition recaptcha_frame_in (page : list element) : Prop :=
  exists e src, In e page /\ tag e = "iframe" /\ attr "src" (attrs e) = Some src
                /\ contains "recaptcha" src = true.
Definition hcaptcha_frame_in (page : list element) : Prop :=
  exists e src, In e page /\ tag e = "iframe" /\ attr "src" (attrs e) = Some src
                /\ contains "hcaptcha" src = true.
Definition recaptcha_div_in (page : list element) : Prop :=
  exists e, In e page /\ tag e = "div" /\ In "g-recaptcha" (classes e).

Definition marker_present (page : list element) : Prop :=
  recaptcha_frame_in page \/ hcaptcha_frame_in page \/ recaptcha_div_in page.

(** One of the queries [detect_captcha] makes raises: the first, or the
    second after the first found nothing, or the third after the first two
    found nothing. *)
Definition inspection_fails (s : state) : Prop :=
  (exists c msg, answer s 0 = Breaks c msg)
  \/ (exists p c msg, answer s 0 = Shows p /\ select TeamsBot.recaptcha_frame p = []
                      /\ answer s 1 = Breaks c msg)
  \/ (exists p q c msg, answer s 0 = Shows p /\ select TeamsBot.recaptcha_frame p = []
                        /\ answer s 1 = Shows q /\ select TeamsBot.hcaptcha_frame q = []
                        /\ answer s 2 = Breaks c msg).

(** What [detect_captcha] returns and how many queries it makes, read off
    the environment's next answers. *)
Definition detect_outcome (s : state) : bool * nat :=
  match answer s 0 with
  | Breaks _ _ => (false, 1%nat)
  | Shows p =>
      if nonempty (select TeamsBot.recaptcha_frame p) then (true, 1%nat)
      else
        match answer s 1 with
        | Breaks _ _ => (false, 2%nat)
        | Shows q =>
            if nonempty (select TeamsBot.hcaptcha_frame q) then (true, 2%nat)
            else
              match answer s 2 with
              | Breaks _ _ => (false, 3%nat)
              | Shows r => (nonempty (select TeamsBot.recaptcha_div r), 3%nat)
              end
        end
  end.

Definition captcha_queries (driver : nat) : list (nat * call) :=
  [(driver, CFindElements TeamsBot.recaptcha_frame);
   (driver, CFindElements TeamsBot.hcaptcha_frame);
   (driver, CFindElements TeamsBot.recaptcha_div)].

(** The state [detect_captcha] leaves: the queries are on the trace, and
    the warning is logged when the answer is positive. *)
Definition detected (driver : nat) (o : bool * nat) (s : state) : state :=
  let x := set_trace (trace (w s) ++ take o.2 (captcha_queries driver)) (w s) in
  State (if o.1 then set_logs (logs x ++ [(WARNING, captcha_warning)]) x else x) (b s).

(** ** The PID file *)

Definition bot_marker : string := "teams_chatgpt_bot".

(** The PID file exists and can be read, its content is an integer, a live
    process has that PID, and the command line of that process contains the
    marker. *)
Definition pid_file_names_bot (s : state) : Prop :=
  exists (c : fcontent) (pid : Z) (p : process) (cl : list string),
    fs (w s) !! PID_FILE = Some c
    /\ (PID_FILE ∉ unreadable (w s))
    /\ int_of_string (strip (file_text c)) = inr pid
    /\ procs (w s) !! pid = Some p
    /\ 0 <= pid
    /\ cmdline p = inr cl
    /\ contains bot_marker (String.concat " " cl) = true.

(** ** Counters *)

(** The integer a key counts: an absent key counts zero; a value that is
    not an integer is no counter. *)
Definition counter_value (d : gmap string value) (k : string) : option Z :=
  match d !! k with
  | None => Some 0
  | Some (VInt n) => Some n
  | Some _ => None
  end.

(** The keys of the record that are no counters. *)
Definition reserved_keys : list string := ["start_time"; "last_activity"; "uptime"].

(** The record after [increment key] at clock reading [now], in a record
    whose counter [key] stood at [n] and whose start time is [t0]. *)
Definition incremented (d : gmap string value) (key : string) (n now t0 : Z) :
    gmap string value :=
  <["uptime" := VFloat (now - t0)]>
    (<["last_activity" := VTime now]> (<[key := VInt (n + 1)]> d)).

(** Time passes. *)
Definition elapse (dt : Z) (s : state) : state :=
  State (set_clock (clock (w s) + dt) (w s)) (b s).

(** ** Frames *)

(** [m] never changes the component [f] of the state. *)
Definition keeps {X A} (f : state -> X) (m : M A) : Prop :=
  forall s, f (m s).2 = f s.

(** Components of the state, by what can change them. *)
Definition not_on_logs {X} (f : state -> X) : Prop :=
  forall s l, f (State (set_logs l (w s)) (b s)) = f s.
Definition not_on_trace {X} (f : state -> X) : Prop :=
  forall s t, f (State (set_trace t (w s)) (b s)) = f s.
Definition not_on_sessions {X} (f : state -> X) : Prop :=
  forall s n, f (State (set_sessions n (w s)) (b s)) = f s.
Definition not_on_time {X} (f : state -> X) : Prop :=
  forall s t i, f (State (set_inbox i (set_clock t (w s))) (b s)) = f s.
Definition not_on_pm_running {X} (f : state -> X) : Prop :=
  forall s r, f (State (w s) (set_pm_running r (b s))) = f s.

(** ** The two logins *)

Inductive site := Teams | ChatGPT.

Definition login (st : site) : nat -> M bool :=
  match st with
  | Teams => TeamsBot.login_to_teams
  | ChatGPT => TeamsBot.login_to_chatgpt
  end.

Definition site_name (st : site) : string :=
  match st with Teams => "Teams" | ChatGPT => "ChatGPT" end.

Definition marker (st : site) : locator :=
  match st with Teams => TeamsBot.teams_marker | ChatGPT => TeamsBot.chatgpt_marker end.

Definition set_driver (st : site) : option nat -> bot -> bot :=
  match st with Teams => set_teams_driver | ChatGPT => set_chatgpt_driver end.

Definition driver_of (st : site) : bot -> option nat :=
  match st with Teams => teams_driver | ChatGPT => chatgpt_driver end.

Definition steps (st : site) : nat -> nat -> M unit :=
  match st with Teams => TeamsBot.teams_steps | ChatGPT => TeamsBot.chatgpt_steps end.

(** A login's [try] block up to its last wait; it yields the session. *)
Definition before_last_wait (st : site) (fuel : nat) : M nat :=
  logger_info ("Starte " +:+ site_name st +:+ "-Login...") ;;
  driver ← TeamsBot.setup_driver;
  upd_b (set_driver st (Some driver)) ;;
  steps st fuel driver ;;
  mret driver.

(** The last wait and what follows it. *)
Definition last_wait (st : site) (driver : nat) : M bool :=
  until_presence driver 30 (marker st) ;;
  logger_info ("Successfully logged into " +:+ site_name st) ;;
  mret true.

Definition login_handler (st : site) : list (handler * (exn -> M bool)) :=
  [(HException, fun e =>
      logger_error (site_name st +:+ " login error: " +:+ exn_msg e) ;; mret false)].

Definition login_error (st : site) (e : exn) : level * string :=
  (ERROR, site_name st +:+ " login error: " +:+ exn_msg e).

(** The state with a new last log line. *)
Definition add_log (l : level) (msg : string) (s : state) : state :=
  State (set_logs (logs (w s) ++ [(l, msg)]) (w s)) (b s).

(** The options [setup_driver] builds. *)
Definition options_for (cfg : gmap string value) : chrome_options :=
  ChromeOptions
    ((if truthy (get cfg "headless" (VBool false))
      then ["--headless"; "--no-sandbox"; "--disable-dev-shm-usage"; "--disable-gpu"]
      else []) ++ ["--disable-blink-features=AutomationControlled"])
    [("excludeSwitches", VList [VStr "enable-automation"]);
     ("useAutomationExtension", VBool false)].

(** The state once the session [h] is created. *)
Definition created (h : nat) (o : chrome_options) (s : state) : state :=
  State (set_sessions (S h) (w (sent h (CChrome o) s))) (b s).

(** The session is created, and configured, without error. *)
Definition setup_succeeds (s : state) : Prop :=
  forall i, (i < 3)%nat -> exists page, answer s i = Shows page.

Definition login_start_line (st : site) : level * string :=
  (INFO, "Starte " +:+ site_name st +:+ "-Login...").

(** ** Teardown and the run of the bot *)

(** The state in which [stop] sends its first command. *)
Definition stopping (s : state) : state :=
  State (w (add_log INFO "Stopping bot..." s)) (set_is_running false (b s)).

(** The commands [stop] sends. *)
Definition quit_commands (s : state) : list (nat * call) :=
  match teams_driver (b s), chatgpt_driver (b s) with
  | Some h1, Some h2 =>
      match answer s 0 with
      | Shows _ => [(h1, CQuit); (h2, CQuit)]
      | Breaks _ _ => [(h1, CQuit)]
      end
  | Some h1, None => [(h1, CQuit)]
  | None, Some h2 => [(h2, CQuit)]
  | None, None => []
  end.

(** The [try] block of a login method. *)
Definition login_body (st : site) (fuel : nat) : M bool :=
  logger_info ("Starte " +:+ site_name st +:+ "-Login...") ;;
  driver ← TeamsBot.setup_driver;
  upd_b (set_driver st (Some driver)) ;;
  steps st fuel driver ;;
  last_wait st driver.

(** The state of a login whose session is created and assigned to its
    field: the login's first line is logged, the three commands of
    [setup_driver] are sent. *)
Definition session_ready (st : site) (s : state) : state :=
  let h := sessions (w s) in
  let s1 :=
    sent h (CImplicitlyWait 10)
      (sent h (CSetPageLoadTimeout 30)
         (created h (options_for (config (b s))) (add_log INFO (login_start_line st).2 s))) in
  State (w s1) (set_driver st (Some h) (b s1)).

(** The rest of the login's [try] block. *)
Definition after_setup (st : site) (fuel : nat) (driver : nat) : M bool :=
  steps st fuel driver ;; last_wait st driver.

(** A step after the construction of the session raises [e], an
    [Exception], and leaves the state [s3]. *)
Definition later_step_fails (st : site) (fuel : nat) (s : state) (e : exn) (s3 : state) : Prop :=
  after_setup st fuel (sessions (w s)) (session_ready st s) = (Exc e, s3)
  /\ catches HException (exn_cls e) = true.

Definition starting_line : level * string := (INFO, "Starting Teams-ChatGPT Bot...").

Definition failed_line (st : site) : level * string :=
  (ERROR, "Failed to login to " +:+ site_name st).

(** [start] calls the login of [st] in state [s0]: the Teams login comes
    first, the ChatGPT login after a Teams login that returned [True]. *)
Definition reaches_login (st : site) (fuel : nat) (s s0 : state) : Prop :=
  match st with
  | Teams => s0 = add_log INFO starting_line.2 s
  | ChatGPT => login Teams fuel (add_log INFO starting_line.2 s) = (Val true, s0)
  end.

(** The Teams session's quit, if there is one to send, returns. *)
Definition teams_quit_returns (s : state) : Prop :=
  match teams_driver (b s) with
  | Some _ => exists page, answer s 0 = Shows page
  | None => True
  end.

(** [stop] gets as far as the quit of the session of [st]. *)
Definition quit_reached (st : site) (s : state) : Prop :=
  match st with
  | Teams => True
  | ChatGPT => teams_quit_returns s
  end.

Definition not_on_bot {X} (f : state -> X) : Prop :=
  forall s x, f (State (w s) x) = f s.

Definition handlers_installed (s : state) : Prop :=
  sigint (w s) = SigHandler /\ sigterm (w s) = SigHandler.

(** [check_interval] is a number [asyncio.sleep] accepts. *)
Definition interval_is_number (cfg : gmap string value) : Prop :=
  match get cfg "check_interval" (VInt 10) with
  | VInt _ | VFloat _ | VBool _ => True
  | _ => False
  end.

(** What a sleep leaves alone. *)
Definition idle_frame (s : state) :=
  (fs (w s), trace (w s), sigint (w s), sigterm (w s), is_running (b s), config (b s),
   teams_driver (b s), chatgpt_driver (b s)).

(** ** Concrete environments *)

Definition input (id : string) : element :=
  Element "input" [("id", id)] [] "" true true.

(** A page with every element either login looks for, markers included. *)
Definition full_page : list element :=
  [ input "i0116"; input "i0118";
    Element "button" [("id", "idSIButton9"); ("type", "submit")] [] "Log in" true true;
    Element "div" [("data-tid", "app-bar-chat")] [] "" true true;
    input "username"; input "password";
    Element "textarea" [("placeholder", "Message ChatGPT")] [] "" true true ].

(** The same page without the two post-login markers. *)
Definition login_page : list element :=
  [ input "i0116"; input "i0118";
    Element "button" [("id", "idSIButton9"); ("type", "submit")] [] "Log in" true true;
    input "username"; input "password" ].

(** A machine with no file, no signal on its way and default signal
    dispositions, whose browser answers by [e]. *)
Definition machine (e : nat -> reaction) : world :=
  World ∅ ∅ ∅ ∅ 4242 0 [] SigDefault SigDefault [] [] e [] 0.

Definition no_bot : bot := Bot ∅ None None false ∅ ∅ false 0 0 VNull VNull.

Definition complete_config : gmap string value :=
  list_to_map
    [("teams_email", VStr "bot@example.org"); ("teams_password", VStr "t-secret");
     ("chatgpt_email", VStr "bot@example.org"); ("chatgpt_password", VStr "c-secret");
     ("headless", VBool true)].

(** Two fields are missing: one absent, one empty. *)
Definition incomplete_config : gmap string value :=
  list_to_map
    [("teams_email", VStr "bot@example.org"); ("teams_password", VStr "");
     ("chatgpt_email", VStr "bot@example.org")].

Definition with_config (cfg : gmap string value) (e : nat -> reaction) : state :=
  State (set_fs {[ CONFIG_FILE := Json cfg ]} (machine e)) no_bot.

(** The bot as [TeamsBot(config)] builds it on a machine. *)
Definition constructed (cfg : gmap string value) (e : nat -> reaction) : state :=
  (TeamsBot.init cfg (State (machine e) no_bot)).2.

(** The record [BotStats()] builds on a machine without statistics file. *)
Definition fresh_stats : state :=
  (BotStats.init (State (machine (fun _ => Shows full_page)) no_bot)).2.

(** Both logins get as far as their last wait, and no marker appears. *)
Definition stuck : state := constructed complete_config (fun _ => Shows login_page).

(** No browser can be started. *)
Definition no_browser : state :=
  constructed complete_config (fun _ => Breaks EWebDriver "session not created").

(** Both sessions are open. *)
Definition both_open (e : nat -> reaction) : state :=
  State (machine e) (set_chatgpt_driver (Some 1%nat) (set_teams_driver (Some 0%nat) no_bot)).

(** The Teams login succeeds; the ChatGPT login finds no "Log in" button
    (the 28th command); the quit of the Teams session (the 29th) raises. *)
Definition teams_quit_fails (n : nat) : reaction :=
  if (n =? 27)%nat then Shows []
  else if (n =? 28)%nat then Breaks EWebDriver "invalid session id"
  else Shows full_page.

(** The bot constructed on that machine. *)
Definition half_open : state := constructed complete_config teams_quit_fails.

(** A complete configuration on disk, pages that let both logins through,
    and a SIGTERM five seconds after the start. *)
Definition signalled : state :=
  State (set_inbox [(5000000, SIGTERM)]
           (w (with_config complete_config (fun _ => Shows full_page)))) no_bot.

(** Pages for the CAPTCHA detector. *)
Definition recaptcha_page : list element :=
  [ input "i0116";
    Element "iframe" [("src", "https://www.google.com/recaptcha/api2/anchor")] [] "" true true ].
Definition hcaptcha_page : list element :=
  [ Element "iframe" [("title", "widget"); ("src", "https://newassets.hcaptcha.com/captcha")]
      [] "" true true ].
Definition recaptcha_div_page : list element :=
  [ Element "div" [] ["form-row"; "g-recaptcha"] "" true true ].

(** A machine whose PID file holds [content], with one live process. *)
Definition with_pid_file (content : string) (pid : Z) (cl : list string) : state :=
  State (World {[ PID_FILE := Text content ]} ∅ ∅ {[ pid := Process (inr cl) ]}
               4243 0 [] SigDefault SigDefault [] [] (fun _ => Shows []) [] 0)
        no_bot.

(** The bot is constructed and running, and a SIGTERM is on its way. *)
Definition idling : state :=
  let s := constructed complete_config (fun _ => Shows full_page) in
  State (set_inbox [(5000000, SIGTERM)] (w s)) (set_is_running true (b s)).

(** ** The statistics record *)

(** The keys [BotStats.__init__] gives the record. *)
Definition stat_keys : list string :=
  ["start_time"; "messages_processed"; "responses_sent"; "errors"; "last_activity"; "uptime"].

(** The record [BotStats.__init__] builds at clock reading [now], before
    it loads the file. *)
Definition initial_stats (now : Z) : gmap string value :=
  list_to_map
    [("start_time", VTime now);
     ("messages_processed", VInt 0);
     ("responses_sent", VInt 0);
     ("errors", VInt 0);
     ("last_activity", VNull);
     ("uptime", VInt 0)].

(** The value is not a number: [v + 1] is a [TypeError]. *)
Definition not_a_number (v : value) : Prop :=
  match v with
  | VInt _ | VBool _ | VFloat _ => False
  | _ => True
  end.

(** The value is no time in ISO form. *)
Definition not_a_time (o : option value) : Prop :=
  match o with
  | Some (VTime _) => False
  | _ => True
  end.

(** ** Text without white space *)

(** No character of the string is white space. *)
Fixpoint solid (s : string) : Prop :=
  match s with
  | EmptyString => True
  | String c s' => is_space c = false /\ solid s'
  end.

(** ** Interrupts *)

(** From a state with both handlers installed, [m] keeps them installed,
    raises nothing but an [Exception] (no [KeyboardInterrupt]), and is not
    killed: when it does not come back, a loop is still going. *)
Definition calm {A} (m : M A) : Prop :=
  forall s, handlers_installed s ->
    handlers_installed (m s).2
    /\ match (m s).1 with
       | Val _ => True
       | Exc e => catches HException (exn_cls e) = true
       | Halt h => h = OutOfFuel
       end.


(** ** The start of the bot *)

(** The state in which [start] enters its loop, after the ChatGPT login
    left [s]. *)
Definition started (s : state) : state :=
  State (w (add_log INFO "Bot successfully started and ready!" s)) (set_is_running true (b s)).

(** What [asyncio.sleep] raises on a delay that is no number. *)
Definition interval_error : exn :=
  Exn TypeError "'<=' not supported between instances of this type and 'int'".

(** A complete configuration whose [check_interval] is a string. *)
Definition string_interval_config : gmap string value :=
  <["check_interval" := VStr "10"]> complete_config.

(** ** The network *)

(** The state after a connection attempt. *)
Definition probed (net : network) (s : state) : state :=
  State (set_clock (clock (w s) + Z.min 5000000 (Z.max 0 (net (clock (w s))).2)) (w s)) (b s).

(** The network is down whenever it is tried. *)
Definition network_down : network := fun _ => (false, 5000000).

(** The network is up and answers in 20 ms. *)
Definition network_up : network := fun _ => (true, 20000).

(** ** A configuration that cannot be loaded *)



(** * Properties *)

(** ** Running the monad *)

Lemma bind_run {A B} (m : M A) (f : A -> M B) (s : state) :
  (m ≫= f) s =
  match m s with
  | (Val a, s') => f a s'
  | (Exc e, s') => (Exc e, s')
  | (Halt h, s') => (Halt h, s')
  end.
Proof. reflexivity. Qed.

Lemma ret_run {A} (a : A) (s : state) : @mret M M_ret A a s = (Val a, s).
Proof. reflexivity. Qed.

Lemma os_path_exists_true (p : string) (c : fcontent) (s : state) :
  fs (w s) !! p = Some c -> os_path_exists p s = (Val true, s).
Proof.
  intros H. unfold os_path_exists, gets. rewrite H.
  rewrite bool_decide_eq_true_2; eauto.
Qed.

Lemma os_path_exists_false (p : string) (s : state) :
  fs (w s) !! p = None -> os_path_exists p s = (Val false, s).
Proof.
  intros H. unfold os_path_exists, gets. rewrite H.
  rewrite bool_decide_eq_false_2; [reflexivity | ].
  intros [x Hx]. discriminate.
Qed.

Lemma open_read_ok (p : string) (c : fcontent) (s : state) :
  fs (w s) !! p = Some c -> p ∉ unreadable (w s) -> open_read p s = (Val c, s).
Proof.
  intros H Hr. unfold open_read. rewrite bind_run. unfold gets, id. simpl. rewrite H.
  rewrite bool_decide_eq_false_2; done.
Qed.

Lemma open_read_denied (p : string) (c : fcontent) (s : state) :
  fs (w s) !! p = Some c -> p ∈ unreadable (w s) ->
  open_read p s = (Exc (permission_denied p), s).
Proof.
  intros H Hr. unfold open_read. rewrite bind_run. unfold gets, id. simpl. rewrite H.
  rewrite bool_decide_eq_true_2; done.
Qed.

Lemma open_write_ok (p : string) (c : fcontent) (s : state) :
  p ∉ unwritable (w s) ->
  open_write p c s = (Val tt, State (set_fs (<[p := c]> (fs (w s))) (w s)) (b s)).
Proof.
  intros Hw. unfold open_write. rewrite bind_run. unfold gets, id. simpl.
  rewrite bool_decide_eq_false_2; done.
Qed.

Lemma open_write_denied (p : string) (c : fcontent) (s : state) :
  p ∈ unwritable (w s) -> open_write p c s = (Exc (permission_denied p), s).
Proof.
  intros Hw. unfold open_write. rewrite bind_run. unfold gets, id. simpl.
  rewrite bool_decide_eq_true_2; done.
Qed.

(** ** Startup with an incomplete configuration *)

Lemma is_empty_string (s : string) : is_empty (VStr s) <-> s = "".
Proof.
  unfold is_empty. simpl. rewrite negb_false_iff. apply String.eqb_eq.
Qed.

Lemma truthy_get_false (cfg : gmap string value) (f : string) :
  truthy_get cfg f = false <-> empty_or_absent cfg f.
Proof.
  unfold truthy_get, empty_or_absent, is_empty. destruct (cfg !! f) as [v|]; split.
  - intros H. right. eauto.
  - intros [H | (v' & Hv & H)]; [discriminate | congruence].
  - intros _. now left.
  - reflexivity.
Qed.

Lemma missing_fields_spec (cfg : gmap string value) (f : string) :
  In f (missing_fields cfg) <-> In f credential_fields /\ empty_or_absent cfg f.
Proof.
  unfold missing_fields. rewrite filter_In, negb_true_iff, truthy_get_false. reflexivity.
Qed.

Lemma nonempty_In {A} (l : list A) (x : A) : In x l -> nonempty l = true.
Proof. destruct l; [intros [] | reflexivity]. Qed.

(** C5.  For a configuration file (a readable JSON object) in which at
    least one of the four credential fields is empty or absent, [main]
    prints one message whose list holds exactly the credential fields that
    are empty or absent, and returns; the state is otherwise unchanged: no
    browser command is sent, nothing is logged and no file is written, so no
    login is attempted. *)
Theorem main_lists_missing_fields (fuel : nat) (s : state) (cfg : gmap string value) :
  fs (w s) !! CONFIG_FILE = Some (Json cfg) ->
  CONFIG_FILE ∉ unreadable (w s) ->
  (exists f, In f credential_fields /\ empty_or_absent cfg f) ->
  main fuel s =
    (Val tt,
     State (set_stdout (stdout (w s) ++ [missing_message (missing_fields cfg)]) (w s)) (b s))
  /\ (forall f, In f (missing_fields cfg) <->
                In f credential_fields /\ empty_or_absent cfg f)
  /\ trace (w (main fuel s).2) = trace (w s)
  /\ logs (w (main fuel s).2) = logs (w s)
  /\ fs (w (main fuel s).2) = fs (w s).
Proof.
  intros Hfile Hread (f & Hf & Hmiss).
  assert (Hrun : main fuel s =
    (Val tt, State (set_stdout (stdout (w s) ++ [missing_message (missing_fields cfg)]) (w s))
                   (b s))).
  { unfold main, load_config. rewrite !bind_run.
    rewrite (os_path_exists_true _ _ _ Hfile). rewrite bind_run.
    rewrite (open_read_ok _ _ _ Hfile Hread). simpl.
    rewrite (nonempty_In _ f) by (apply missing_fields_spec; auto).
    reflexivity. }
  split; [exact Hrun | ]. split; [apply missing_fields_spec | ].
  rewrite Hrun. simpl. auto.
Qed.

(** ** Startup without a configuration file *)

Lemma load_config_creates (s : state) :
  fs (w s) !! CONFIG_FILE = None ->
  CONFIG_FILE ∉ unwritable (w s) ->
  load_config s =
    (Val default_config,
     State (set_stdout (stdout (w s) ++ [created_message])
              (set_fs (<[CONFIG_FILE := Json default_config]> (fs (w s))) (w s)))
           (b s)).
Proof.
  intros Hnone Hw. unfold load_config. rewrite bind_run.
  rewrite (os_path_exists_false _ _ Hnone). rewrite bind_run.
  rewrite (open_write_ok _ _ _ Hw). reflexivity.
Qed.

Lemma missing_fields_default : missing_fields default_config = credential_fields.
Proof. reflexivity. Qed.

(** C6.  When the configuration file does not exist (and can be created),
    [load_config] writes it with the default values: empty credentials,
    [bot_trigger] "@bot", [check_interval] 10, [headless] false,
    [max_retries] 3, [retry_delay] 30, and nothing else; [main] then prints
    the two messages and returns: no browser command is sent, nothing is
    logged, and the configuration file is the only file written. *)
Theorem main_creates_default_config (fuel : nat) (s : state) :
  fs (w s) !! CONFIG_FILE = None ->
  CONFIG_FILE ∉ unwritable (w s) ->
  (load_config s).1 = Val default_config
  /\ fs (w (load_config s).2) = <[CONFIG_FILE := Json default_config]> (fs (w s))
  /\ default_config =
       {[ "teams_email" := VStr ""; "teams_password" := VStr "";
          "chatgpt_email" := VStr ""; "chatgpt_password" := VStr "";
          "bot_trigger" := VStr "@bot"; "check_interval" := VInt 10;
          "headless" := VBool false; "max_retries" := VInt 3;
          "retry_delay" := VInt 30 ]}
  /\ main fuel s =
       (Val tt,
        State (set_stdout
                 (stdout (w s) ++ [created_message; missing_message credential_fields])
                 (set_fs (<[CONFIG_FILE := Json default_config]> (fs (w s))) (w s)))
              (b s))
  /\ trace (w (main fuel s).2) = trace (w s)
  /\ logs (w (main fuel s).2) = logs (w s).
Proof.
  intros Hnone Hw.
  pose proof (load_config_creates s Hnone Hw) as Hload.
  assert (Hrun : main fuel s =
       (Val tt,
        State (set_stdout
                 (stdout (w s) ++ [created_message; missing_message credential_fields])
                 (set_fs (<[CONFIG_FILE := Json default_config]> (fs (w s))) (w s)))
              (b s))).
  { unfold main. rewrite bind_run, Hload. rewrite missing_fields_default. simpl.
    unfold print, upd_w. simpl. rewrite <- app_assoc. reflexivity. }
  rewrite Hload, Hrun. simpl. repeat split; reflexivity.
Qed.

(** ** CAPTCHA detection *)

Lemma send_run (h : nat) (c : call) (s : state) :
  send h c s = (Val (answer s 0), sent h c s).
Proof. unfold send, answer. rewrite Nat.add_0_r. reflexivity. Qed.

Lemma answer_sent (h : nat) (c : call) (s : state) (i : nat) :
  answer (sent h c s) i = answer s (S i).
Proof.
  unfold answer, sent. simpl. rewrite length_app. simpl.
  f_equal. lia.
Qed.

Lemma find_elements_run (h : nat) (l : locator) (s : state) :
  find_elements h l s =
  match answer s 0 with
  | Shows page => (Val (select l page), sent h (CFindElements l) s)
  | Breaks c msg => (Exc (browser_exn c msg), sent h (CFindElements l) s)
  end.
Proof.
  unfold find_elements. rewrite bind_run, send_run. destruct (answer s 0); reflexivity.
Qed.

Lemma browser_exn_caught (c : browser_error) (msg : string) :
  catches HException (exn_cls (browser_exn c msg)) = true.
Proof. destruct c; reflexivity. Qed.

Lemma nonempty_select (l : locator) (page : list element) :
  nonempty (select l page) = true <-> exists e, In e page /\ matches l e = true.
Proof.
  unfold select. split.
  - destruct (List.filter (matches l) page) as [|e r] eqn:E; [discriminate | ].
    intros _. exists e. apply filter_In. rewrite E. now left.
  - intros (e & Hin & Hm). apply (nonempty_In _ e). apply filter_In. auto.
Qed.

Lemma nonempty_false {A} (l : list A) : nonempty l = false <-> l = [].
Proof. destruct l; simpl; split; congruence. Qed.

Lemma frame_matches (sub : string) (e : element) :
  matches (CssTagAttrSub "iframe" "src" sub) e = true <->
  tag e = "iframe" /\ exists src, attr "src" (attrs e) = Some src /\ contains sub src = true.
Proof.
  cbn [matches]. rewrite andb_true_iff, String.eqb_eq. unfold attr_contains.
  destruct (attr "src" (attrs e)) as [x|]; split.
  - intros [Ht Hc]. eauto.
  - intros [Ht (src & Hs & Hc)]. split; congruence.
  - intros [_ H]. discriminate.
  - intros [_ (src & Hs & _)]. discriminate.
Qed.

Lemma div_matches (e : element) :
  matches TeamsBot.recaptcha_div e = true <-> tag e = "div" /\ In "g-recaptcha" (classes e).
Proof.
  unfold TeamsBot.recaptcha_div. cbn [matches].
  rewrite andb_true_iff, String.eqb_eq, existsb_exists.
  split; intros [Ht Hc]; split; auto.
  - destruct Hc as (x & Hin & Heq). apply String.eqb_eq in Heq. now subst.
  - exists "g-recaptcha". split; [assumption | reflexivity].
Qed.

Lemma recaptcha_frame_select (page : list element) :
  nonempty (select TeamsBot.recaptcha_frame page) = true <-> recaptcha_frame_in page.
Proof.
  rewrite nonempty_select. unfold recaptcha_frame_in, TeamsBot.recaptcha_frame.
  split.
  - intros (e & Hin & Hm). apply frame_matches in Hm as (Ht & src & Hs & Hc). eauto 8.
  - intros (e & src & Hin & Ht & Hs & Hc). exists e. split; [assumption | ].
    apply frame_matches. eauto.
Qed.

Lemma hcaptcha_frame_select (page : list element) :
  nonempty (select TeamsBot.hcaptcha_frame page) = true <-> hcaptcha_frame_in page.
Proof.
  rewrite nonempty_select. unfold hcaptcha_frame_in, TeamsBot.hcaptcha_frame.
  split.
  - intros (e & Hin & Hm). apply frame_matches in Hm as (Ht & src & Hs & Hc). eauto 8.
  - intros (e & src & Hin & Ht & Hs & Hc). exists e. split; [assumption | ].
    apply frame_matches. eauto.
Qed.

Lemma recaptcha_div_select (page : list element) :
  nonempty (select TeamsBot.recaptcha_div page) = true <-> recaptcha_div_in page.
Proof.
  rewrite nonempty_select. unfold recaptcha_div_in.
  split.
  - intros (e & Hin & Hm). apply div_matches in Hm. eauto.
  - intros (e & Hin & Hm). exists e. split; [assumption | ]. now apply div_matches.
Qed.

Lemma detect_captcha_run (driver : nat) (s : state) :
  TeamsBot.detect_captcha driver s =
  (Val (detect_outcome s).1, detected driver (detect_outcome s) s).
Proof.
  unfold TeamsBot.detect_captcha, try_except, detect_outcome.
  rewrite bind_run, find_elements_run.
  destruct (answer s 0) as [p|c0 m0] eqn:E0.
  2:{ cbn [select_clause exn_cls]. rewrite browser_exn_caught. reflexivity. }
  destruct (nonempty (select TeamsBot.recaptcha_frame p)) eqn:N1.
  { reflexivity. }
  rewrite !bind_run, find_elements_run, answer_sent.
  destruct (answer s 1) as [q|c1 m1] eqn:E1.
  2:{ cbn [select_clause exn_cls]. rewrite browser_exn_caught.
      unfold detected, sent. simpl. rewrite <- app_assoc. reflexivity. }
  destruct (nonempty (select TeamsBot.hcaptcha_frame q)) eqn:N2.
  { unfold detected, sent. simpl. rewrite <- !app_assoc. reflexivity. }
  rewrite !bind_run, find_elements_run, !answer_sent.
  destruct (answer s 2) as [r|c2 m2] eqn:E2.
  2:{ cbn [select_clause exn_cls]. rewrite browser_exn_caught.
      unfold detected, sent. simpl. rewrite <- !app_assoc. reflexivity. }
  destruct (nonempty (select TeamsBot.recaptcha_div r)) eqn:N3;
    unfold detected, sent; simpl; rewrite <- !app_assoc; reflexivity.
Qed.

(** C2.  [detect_captcha] always returns a boolean, never an exception.
    On a page that answers the three queries, the boolean is true exactly
    when one of the three marker patterns is on the page; when a query
    raises, it is false.  Its only effects are the queries it sends to the
    session and, on a positive answer, one warning line in the log. *)
Theorem detect_captcha_total (driver : nat) (s : state) :
  exists (c : bool) (n : nat),
    TeamsBot.detect_captcha driver s = (Val c, detected driver (c, n) s)
    /\ (forall page, (forall i, (i < 3)%nat -> answer s i = Shows page) ->
                     (c = true <-> marker_present page))
    /\ (inspection_fails s -> c = false)
    /\ logs (w (detected driver (c, n) s)) =
         (logs (w s) ++ (if c then [(WARNING, captcha_warning)] else []))%list
    /\ trace (w (detected driver (c, n) s)) =
         (trace (w s) ++ take n (captcha_queries driver))%list
    /\ detected driver (c, n) s =
         State (set_logs (logs (w (detected driver (c, n) s)))
                  (set_trace (trace (w (detected driver (c, n) s))) (w s))) (b s).
Proof.
  exists (detect_outcome s).1, (detect_outcome s).2.
  rewrite <- surjective_pairing. split; [apply detect_captcha_run | ].
  split; [ | split; [ | split; [ | split]]].
  - intros page Hpage. unfold detect_outcome, marker_present.
    rewrite (Hpage 0%nat), (Hpage 1%nat), (Hpage 2%nat) by lia.
    rewrite <- recaptcha_frame_select, <- hcaptcha_frame_select, <- recaptcha_div_select.
    destruct (nonempty (select TeamsBot.recaptcha_frame page));
      destruct (nonempty (select TeamsBot.hcaptcha_frame page));
      destruct (nonempty (select TeamsBot.recaptcha_div page)); simpl; intuition congruence.
  - unfold inspection_fails, detect_outcome.
    intros [(c & m & H0) | [(p & c & m & H0 & Hp & H1) | (p & q & c & m & H0 & Hp & H1 & Hq & H2)]].
    + rewrite H0. reflexivity.
    + rewrite H0, Hp, H1. reflexivity.
    + rewrite H0, Hp, H1, Hq, H2. reflexivity.
  - unfold detected. destruct (detect_outcome s) as [[] k]; simpl;
      [reflexivity | now rewrite app_nil_r].
  - unfold detected. destruct (detect_outcome s) as [[] k]; reflexivity.
  - unfold detected. destruct (detect_outcome s) as [[] k]; destruct s as [[] ?]; reflexivity.
Qed.

(** ** Detection of a running instance *)

Lemma int_of_string_error (x : string) (e : exn) :
  int_of_string x = inl e -> exn_cls e = ValueError.
Proof.
  unfold int_of_string.
  match goal with
  | |- match ?r with Some _ => _ | None => _ end = _ -> _ => destruct r
  end; intros H; inversion H; reflexivity.
Qed.

Lemma lift_inr_run {A} (a : A) (s : state) : lift (inr a) s = (Val a, s).
Proof. reflexivity. Qed.

Lemma lift_inl_run {A} (e : exn) (s : state) : lift (A := A) (inl e) s = (Exc e, s).
Proof. reflexivity. Qed.

Lemma psutil_Process_run (pid : Z) (s : state) :
  psutil_Process pid s =
  if pid <? 0 then (Exc (Exn ValueError "pid must be a positive integer"), s)
  else match procs (w s) !! pid with
       | Some p => (Val p, s)
       | None => (Exc (Exn NoSuchProcess "process PID not found"), s)
       end.
Proof.
  unfold psutil_Process. destruct (pid <? 0); [reflexivity | ].
  rewrite bind_run. unfold gets, id. simpl. destruct (procs (w s) !! pid); reflexivity.
Qed.

(** C9.  [is_already_running] always returns a boolean, never an
    exception, and the boolean is true exactly when the PID file exists
    and is readable, holds an integer, a live process has that PID, and
    that process's command line contains the marker; in every other case
    (no file, unreadable or unparsable content, no such process, a
    command line without the marker or one that cannot be read) it is
    false.  No file is touched. *)
Theorem is_already_running_spec (s : state) :
  exists r : bool,
    (ProcessManager.is_already_running s).1 = Val r
    /\ (r = true <-> pid_file_names_bot s)
    /\ fs (w (ProcessManager.is_already_running s).2) = fs (w s)
    /\ b (ProcessManager.is_already_running s).2 = b s.
Proof.
  unfold ProcessManager.is_already_running, try_except, pid_file_names_bot.
  rewrite bind_run.
  destruct (fs (w s) !! PID_FILE) as [c|] eqn:Hfile.
  2:{ rewrite (os_path_exists_false _ _ Hfile). exists false. simpl.
      repeat split; try reflexivity; try discriminate.
      intros (c & pid & p & cl & H & _). discriminate. }
  rewrite (os_path_exists_true _ _ _ Hfile). rewrite bind_run.
  destruct (decide (PID_FILE ∈ unreadable (w s))) as [Hr|Hr].
  { rewrite (open_read_denied _ _ _ Hfile Hr). exists false. simpl.
    repeat split; try reflexivity; try discriminate.
    intros (c' & pid & p & cl & _ & H & _). contradiction. }
  rewrite (open_read_ok _ _ _ Hfile Hr). rewrite bind_run.
  destruct (int_of_string (strip (file_text c))) as [e|pid] eqn:Hint.
  { rewrite lift_inl_run. cbn [select_clause].
    rewrite (int_of_string_error _ _ Hint). exists false. simpl.
    repeat split; try reflexivity; try discriminate.
    intros (c' & pid & p & cl & Hc & _ & H & _).
    assert (c' = c) by congruence. subst c'. congruence. }
  rewrite lift_inr_run, bind_run, psutil_Process_run.
  destruct (pid <? 0) eqn:Hneg.
  { exists false. simpl. repeat split; try reflexivity; try discriminate.
    intros (c' & pid' & p & cl & Hc & _ & H & _ & Hpos & _).
    assert (c' = c) by congruence. subst c'.
    assert (pid' = pid) by congruence. subst pid'.
    apply Z.ltb_lt in Hneg. lia. }
  destruct (procs (w s) !! pid) as [p|] eqn:Hproc.
  2:{ exists false. simpl. repeat split; try reflexivity; try discriminate.
      intros (c' & pid' & p & cl & Hc & _ & H & Hp & _).
      assert (c' = c) by congruence. subst c'.
      assert (pid' = pid) by congruence. subst pid'. congruence. }
  rewrite bind_run.
  destruct (cmdline p) as [err|cl] eqn:Hcl.
  { exists false.
    assert (Hno : forall (c' : fcontent) (pid' : Z) (p' : process) (cl' : list string),
               Some c = Some c' -> inr pid = inr pid' (A := exn) ->
               procs (w s) !! pid' = Some p' -> cmdline p' = inr cl' -> False).
    { intros c' pid' p' cl' Hc Hi Hp' Hcl'. inversion Hi. subst pid'. congruence. }
    destruct err; simpl; (repeat split; try reflexivity; try discriminate);
      intros (c' & pid' & p' & cl' & Hc & _ & H & Hp & _ & Hcl' & _);
      exfalso; inversion Hc; subst c'; rewrite Hint in H; eauto. }
  exists (contains bot_marker (String.concat " " cl)). simpl.
  repeat split; try reflexivity.
  - intros Hm. exists c, pid, p, cl. apply Z.ltb_ge in Hneg. auto 10.
  - intros (c' & pid' & p' & cl' & Hc & _ & H & Hp & _ & Hcl' & Hm).
    assert (c' = c) by congruence. subst c'.
    assert (pid' = pid) by congruence. subst pid'.
    assert (p' = p) by congruence. subst p'.
    assert (cl' = cl) by congruence. subst cl'. exact Hm.
Qed.

(** ** Statistics *)

(** Unfolding of the monad's plumbing, leaving library calls folded. *)
Ltac msimpl :=
  cbv beta iota delta [mbind M_bind mret M_ret gets upd_w upd_b raise halted lift
                       datetime_now id fst snd].

Lemma save_stats_ok (s : state) (t0 : Z) :
  stats (b s) !! "start_time" = Some (VTime t0) ->
  STATS_FILE ∉ unwritable (w s) ->
  BotStats.save_stats s =
    let d := <["uptime" := VFloat (clock (w s) - t0)]> (stats (b s)) in
    (Val tt, State (set_fs (<[STATS_FILE := Json d]> (fs (w s))) (w s)) (set_stats d (b s))).
Proof.
  intros Hst Hw. unfold BotStats.save_stats, try_except, getitem. msimpl.
  cbn [w b]. rewrite Hst. unfold fromisoformat. msimpl.
  rewrite open_write_ok by exact Hw. reflexivity.
Qed.

Lemma save_stats_denied (s : state) (t0 : Z) :
  stats (b s) !! "start_time" = Some (VTime t0) ->
  STATS_FILE ∈ unwritable (w s) ->
  BotStats.save_stats s =
    let d := <["uptime" := VFloat (clock (w s) - t0)]> (stats (b s)) in
    (Val tt,
     State (set_logs (logs (w s) ++
                      [(WARNING, "Could not save stats: " +:+ exn_msg (permission_denied STATS_FILE))])
              (w s))
           (set_stats d (b s))).
Proof.
  intros Hst Hw. unfold BotStats.save_stats, try_except, getitem. msimpl.
  cbn [w b]. rewrite Hst. unfold fromisoformat. msimpl.
  rewrite open_write_denied by exact Hw. reflexivity.
Qed.

Lemma increment_steps (s : state) (key : string) (n : Z) :
  counter_value (stats (b s)) key = Some n ->
  BotStats.increment key s =
    BotStats.save_stats
      (State (w s)
         (set_stats (<["last_activity" := VTime (clock (w s))]>
                       (<[key := VInt (n + 1)]> (stats (b s)))) (b s))).
Proof.
  intros Hc. unfold BotStats.increment.
  assert (Hv : py_add_one (get (stats (b s)) key (VInt 0)) = inr (VInt (n + 1))).
  { unfold counter_value in Hc. unfold get.
    destruct (stats (b s) !! key) as [[]|]; inversion Hc; reflexivity. }
  msimpl. rewrite Hv. reflexivity.
Qed.

Lemma not_reserved (k : string) :
  ~ In k reserved_keys -> k <> "start_time" /\ k <> "last_activity" /\ k <> "uptime".
Proof. unfold reserved_keys. simpl. intuition congruence. Qed.

Lemma incremented_start_time (d : gmap string value) (key : string) (n now t0 : Z) :
  ~ In key reserved_keys ->
  d !! "start_time" = Some (VTime t0) ->
  incremented d key n now t0 !! "start_time" = Some (VTime t0).
Proof.
  intros Hk Hst. apply not_reserved in Hk as (H1 & H2 & H3). unfold incremented.
  rewrite !lookup_insert_ne by congruence. exact Hst.
Qed.

Lemma incremented_last_activity (d : gmap string value) (key : string) (n now t0 : Z) :
  incremented d key n now t0 !! "last_activity" = Some (VTime now).
Proof.
  unfold incremented. rewrite lookup_insert_ne by discriminate.
  apply lookup_insert_eq.
Qed.

Lemma incremented_counter (d : gmap string value) (key k : string) (n now t0 : Z) :
  ~ In k reserved_keys ->
  counter_value (incremented d key n now t0) k =
    if decide (k = key) then Some (n + 1) else counter_value d k.
Proof.
  intros Hk. apply not_reserved in Hk as (H1 & H2 & H3).
  unfold incremented, counter_value.
  rewrite !lookup_insert_ne by congruence.
  destruct (decide (k = key)) as [->|Hne].
  - now rewrite lookup_insert_eq.
  - now rewrite lookup_insert_ne by congruence.
Qed.

(** One call that persists. *)
Lemma increment_run (s : state) (key : string) (n t0 : Z) :
  ~ In key reserved_keys ->
  counter_value (stats (b s)) key = Some n ->
  stats (b s) !! "start_time" = Some (VTime t0) ->
  STATS_FILE ∉ unwritable (w s) ->
  BotStats.increment key s =
    let d := incremented (stats (b s)) key n (clock (w s)) t0 in
    (Val tt, State (set_fs (<[STATS_FILE := Json d]> (fs (w s))) (w s)) (set_stats d (b s))).
Proof.
  intros Hk Hc Hst Hw. rewrite (increment_steps s key n Hc).
  apply not_reserved in Hk as (H1 & H2 & H3).
  rewrite (save_stats_ok _ t0).
  - destruct s as [x [ ]]. reflexivity.
  - simpl. rewrite !lookup_insert_ne by congruence. exact Hst.
  - exact Hw.
Qed.

(** One call whose write is refused: the record is updated all the same,
    the file is not, and a warning is logged. *)
Lemma increment_write_refused (s : state) (key : string) (n t0 : Z) :
  ~ In key reserved_keys ->
  counter_value (stats (b s)) key = Some n ->
  stats (b s) !! "start_time" = Some (VTime t0) ->
  STATS_FILE ∈ unwritable (w s) ->
  BotStats.increment key s =
    let d := incremented (stats (b s)) key n (clock (w s)) t0 in
    (Val tt,
     State (set_logs (logs (w s) ++
                      [(WARNING, "Could not save stats: " +:+ exn_msg (permission_denied STATS_FILE))])
              (w s))
           (set_stats d (b s))).
Proof.
  intros Hk Hc Hst Hw. rewrite (increment_steps s key n Hc).
  apply not_reserved in Hk as (H1 & H2 & H3).
  rewrite (save_stats_denied _ t0).
  - destruct s as [x [ ]]. reflexivity.
  - simpl. rewrite !lookup_insert_ne by congruence. exact Hst.
  - exact Hw.
Qed.

(** C7.  Two calls of [increment], on counter keys [key] and [key'], with
    time passing in between, on a record with a valid start time and a
    writable statistics file.  Each call returns, raises its counter by one
    (so strictly), leaves every other counter as it was (so no counter ever
    decreases), sets [last_activity] to the clock reading of the call (so
    the second is newer than the first), and leaves on disk the full
    record it leaves in memory. *)
Theorem increment_monotone_and_persisted
    (s : state) (key key' : string) (n n' t0 dt : Z) :
  ~ In key reserved_keys ->
  ~ In key' reserved_keys ->
  counter_value (stats (b s)) key = Some n ->
  counter_value (stats (b s)) key' = Some n' ->
  stats (b s) !! "start_time" = Some (VTime t0) ->
  STATS_FILE ∉ unwritable (w s) ->
  0 < dt ->
  exists (s1 s2 : state) (m t1 t2 : Z),
    BotStats.increment key s = (Val tt, s1)
    /\ BotStats.increment key' (elapse dt s1) = (Val tt, s2)
    /\ counter_value (stats (b s1)) key = Some (n + 1) /\ n < n + 1
    /\ counter_value (stats (b s1)) key' = Some m
    /\ counter_value (stats (b s2)) key' = Some (m + 1) /\ m < m + 1
    /\ (forall k c, ~ In k reserved_keys -> counter_value (stats (b s)) k = Some c ->
          exists c1 c2, counter_value (stats (b s1)) k = Some c1
                        /\ counter_value (stats (b s2)) k = Some c2
                        /\ c <= c1 <= c2)
    /\ stats (b s1) !! "last_activity" = Some (VTime t1)
    /\ stats (b s2) !! "last_activity" = Some (VTime t2)
    /\ t1 = clock (w s) /\ t2 = clock (w s) + dt /\ t1 < t2
    /\ fs (w s1) !! STATS_FILE = Some (Json (stats (b s1)))
    /\ fs (w s2) !! STATS_FILE = Some (Json (stats (b s2))).
Proof.
  intros Hk Hk' Hc Hc' Hst Hw Hdt.
  pose proof (increment_run s key n t0 Hk Hc Hst Hw) as H1. cbv zeta in H1.
  set (d1 := incremented (stats (b s)) key n (clock (w s)) t0) in *.
  set (s1 := State (set_fs (<[STATS_FILE := Json d1]> (fs (w s))) (w s)) (set_stats d1 (b s))) in *.
  assert (Hs1 : stats (b s1) = d1) by (destruct s as [x []]; reflexivity).
  assert (Hm : counter_value d1 key' = Some (if decide (key' = key) then n + 1 else n')).
  { unfold d1. rewrite incremented_counter by assumption.
    destruct (decide (key' = key)); [reflexivity | assumption]. }
  set (m := if decide (key' = key) then n + 1 else n') in *.
  assert (Hst1 : stats (b (elapse dt s1)) !! "start_time" = Some (VTime t0)).
  { change (stats (b s1) !! "start_time" = Some (VTime t0)). rewrite Hs1.
    now apply incremented_start_time. }
  assert (Hc1 : counter_value (stats (b (elapse dt s1))) key' = Some m).
  { change (counter_value (stats (b s1)) key' = Some m). now rewrite Hs1. }
  assert (Hw1 : STATS_FILE ∉ unwritable (w (elapse dt s1))).
  { destruct s as [[] []]. exact Hw. }
  pose proof (increment_run (elapse dt s1) key' m t0 Hk' Hc1 Hst1 Hw1) as H2. cbv zeta in H2.
  assert (Hclk : clock (w (elapse dt s1)) = clock (w s) + dt)
    by (destruct s as [[] []]; reflexivity).
  assert (Hs1' : stats (b (elapse dt s1)) = d1) by exact Hs1.
  rewrite Hclk, Hs1' in H2.
  set (d2 := incremented d1 key' m (clock (w s) + dt) t0) in *.
  eexists s1, _, m, (clock (w s)), (clock (w s) + dt).
  split; [exact H1 | ]. split; [exact H2 | ].
  cbn [w b stats set_stats fs set_fs]. rewrite Hs1.
  split. { unfold d1. rewrite incremented_counter by assumption.
           now rewrite decide_True. }
  split; [lia | ]. split; [exact Hm | ].
  split. { unfold d2. rewrite incremented_counter by assumption.
           now rewrite decide_True. }
  split; [lia | ].
  split.
  { intros k c Hkr Hkc. unfold d2, d1. rewrite !incremented_counter by assumption.
    rewrite Hkc. unfold m.
    destruct (decide (k = key)) as [Heq|Hne]; destruct (decide (k = key')) as [Heq'|Hne'].
    - subst key key'. rewrite decide_True by reflexivity. assert (c = n) by congruence.
      exists (n + 1), (n + 1 + 1). repeat split; lia.
    - subst key. assert (c = n) by congruence. exists (n + 1), (n + 1). repeat split; lia.
    - subst key'. rewrite decide_False by congruence. assert (c = n') by congruence.
      exists c, (n' + 1). repeat split; lia.
    - exists c, c. repeat split; lia. }
  split; [apply incremented_last_activity | ].
  split; [apply incremented_last_activity | ].
  split; [reflexivity | ]. split; [reflexivity | ]. split; [lia | ].
  split; apply lookup_insert_eq.
Qed.

(** ** What a computation leaves alone *)

Section Keeps.
Context {X : Type} (f : state -> X).

Lemma keeps_ret {A} (a : A) : keeps f (mret a : M A).
Proof. intros s. reflexivity. Qed.

Lemma keeps_raise {A} (e : exn) : keeps f (raise e : M A).
Proof. intros s. reflexivity. Qed.

Lemma keeps_halted {A} (h : halt) : keeps f (halted h : M A).
Proof. intros s. reflexivity. Qed.

Lemma keeps_gets {A} (g : state -> A) : keeps f (gets g).
Proof. intros s. reflexivity. Qed.

Lemma keeps_lift {A} (r : exn + A) : keeps f (lift r).
Proof. destruct r; intros s; reflexivity. Qed.

Lemma keeps_bind {A B} (m : M A) (k : A -> M B) :
  keeps f m -> (forall a, keeps f (k a)) -> keeps f (m ≫= k).
Proof.
  intros Hm Hk s. rewrite bind_run. specialize (Hm s).
  destruct (m s) as [[a|e|h] s']; simpl in *; try assumption.
  rewrite Hk. assumption.
Qed.

Lemma keeps_select {A} (cs : list (handler * (exn -> M A))) (e : exn) (k : M A) :
  Forall (fun c => forall e, keeps f (c.2 e)) cs ->
  select_clause cs e = Some k -> keeps f k.
Proof.
  induction 1 as [|[h c] cs Hc Hcs IH]; simpl; [discriminate | ].
  destruct (catches h (exn_cls e)); [ | assumption].
  intros H. inversion H. apply Hc.
Qed.

Lemma keeps_try_except {A} (m : M A) (cs : list (handler * (exn -> M A))) :
  keeps f m -> Forall (fun c => forall e, keeps f (c.2 e)) cs ->
  keeps f (try_except m cs).
Proof.
  intros Hm Hcs s. unfold try_except. specialize (Hm s).
  destruct (m s) as [[a|e|h] s']; simpl in *; try assumption.
  destruct (select_clause cs e) as [k|] eqn:E; [ | assumption].
  rewrite (keeps_select cs e k Hcs E). assumption.
Qed.

Lemma keeps_try_finally {A} (m : M A) (fin : M unit) :
  keeps f m -> keeps f fin -> keeps f (try_finally m fin).
Proof.
  intros Hm Hfin s. unfold try_finally. specialize (Hm s).
  destruct (m s) as [[a|e|h] s']; simpl in *; try assumption;
    specialize (Hfin s'); destruct (fin s') as [[u|e'|h'] s'']; simpl in *; congruence.
Qed.

Lemma keeps_if {A} (c : bool) (m1 m2 : M A) :
  keeps f m1 -> keeps f m2 -> keeps f (if c then m1 else m2).
Proof. destruct c; auto. Qed.
End Keeps.

Section Frames.
Context {X : Type} (f : state -> X).
Hypothesis Hlogs : not_on_logs f.
Hypothesis Htrace : not_on_trace f.
Hypothesis Hsessions : not_on_sessions f.
Hypothesis Htime : not_on_time f.
Hypothesis Hpm : not_on_pm_running f.

Lemma keeps_log (l : level) (msg : string) : keeps f (log l msg).
Proof. intros s. apply Hlogs. Qed.

Lemma keeps_send (h : nat) (c : call) : keeps f (send h c).
Proof. intros s. rewrite send_run. apply Htrace. Qed.

Lemma keeps_command (h : nat) (c : call) : keeps f (command h c).
Proof.
  apply keeps_bind; [apply keeps_send | ].
  intros [|]; [apply keeps_ret | intros; apply keeps_raise].
Qed.

Lemma keeps_find_elements (h : nat) (l : locator) : keeps f (find_elements h l).
Proof.
  apply keeps_bind; [apply keeps_send | ].
  intros [|]; [apply keeps_ret | intros; apply keeps_raise].
Qed.

Lemma keeps_find_element (h : nat) (l : locator) : keeps f (find_element h l).
Proof.
  apply keeps_bind; [apply keeps_send | ].
  intros [page|]; [ | intros; apply keeps_raise].
  destruct (select l page); [apply keeps_raise | apply keeps_ret].
Qed.

Lemma keeps_until_presence (h : nat) (t : Z) (l : locator) :
  keeps f (until_presence h t l).
Proof.
  apply keeps_bind; [apply keeps_send | ].
  intros [page|[] msg]; try apply keeps_raise.
  destruct (select l page); [apply keeps_raise | apply keeps_ret].
Qed.

Lemma keeps_until_clickable (h : nat) (t : Z) (l : locator) :
  keeps f (until_clickable h t l).
Proof.
  apply keeps_bind; [apply keeps_send | ].
  intros [page|[] msg]; try apply keeps_raise.
  destruct (select l page) as [|e r]; [apply keeps_raise | ].
  destruct (displayed e && enabled e); [apply keeps_ret | apply keeps_raise].
Qed.

Lemma keeps_send_keys (h : nat) (e : element) (v : value) : keeps f (send_keys h e v).
Proof. destruct v; try apply keeps_command. apply keeps_raise. Qed.

Lemma keeps_webdriver_Chrome (o : chrome_options) : keeps f (webdriver_Chrome o).
Proof.
  apply keeps_bind; [apply keeps_gets | intros h].
  apply keeps_bind; [apply keeps_command | intros _].
  apply keeps_bind; [ | intros; apply keeps_ret].
  intros s. apply Hsessions.
Qed.

Lemma keeps_signal_handler (sg : signum) : keeps f (signal_handler sg).
Proof.
  apply keeps_bind; [apply keeps_log | intros _]. intros s. apply Hpm.
Qed.

Lemma keeps_deliver (sg : signum) : keeps f (deliver sg).
Proof.
  apply keeps_bind; [apply keeps_gets | intros s].
  destruct sg; [destruct (sigint (w s)) | destruct (sigterm (w s))];
    first [apply keeps_signal_handler | apply keeps_raise | apply keeps_halted].
Qed.

Lemma keeps_deliver_all (l : list signum) : keeps f (deliver_all l).
Proof.
  induction l as [|sg l IH]; [apply keeps_ret | ].
  simpl. apply keeps_bind; [apply keeps_deliver | intros; apply IH].
Qed.

Lemma keeps_sleep (us : Z) : keeps f (sleep us).
Proof.
  apply keeps_bind; [apply keeps_gets | intros s0].
  apply keeps_bind; [ | intros; apply keeps_deliver_all].
  intros s. apply Htime.
Qed.

Lemma keeps_asyncio_sleep (v : value) : keeps f (asyncio_sleep v).
Proof. destruct v; first [apply keeps_sleep | apply keeps_raise]. Qed.

Lemma keeps_detect_captcha (h : nat) : keeps f (TeamsBot.detect_captcha h).
Proof.
  apply keeps_try_except.
  - apply keeps_bind; [apply keeps_find_elements | intros l1].
    apply keeps_bind.
    + apply keeps_if; [apply keeps_ret | ].
      apply keeps_bind; [apply keeps_find_elements | intros l2].
      apply keeps_if; [apply keeps_ret | ].
      apply keeps_bind; [apply keeps_find_elements | intros; apply keeps_ret].
    + intros []; [ | apply keeps_ret].
      apply keeps_bind; [apply keeps_log | intros; apply keeps_ret].
  - constructor; [intros e; apply keeps_ret | constructor].
Qed.

Lemma keeps_captcha_wait (fuel : nat) (h : nat) : keeps f (TeamsBot.captcha_wait fuel h).
Proof.
  induction fuel as [|fuel IH]; [apply keeps_halted | ].
  simpl. apply keeps_bind; [apply keeps_detect_captcha | intros c].
  apply keeps_if; [ | apply keeps_ret].
  apply keeps_bind; [apply keeps_sleep | intros; apply IH].
Qed.

Lemma keeps_setup_driver : keeps f TeamsBot.setup_driver.
Proof.
  apply keeps_bind; [apply keeps_gets | intros cfg].
  apply keeps_bind; [apply keeps_webdriver_Chrome | intros h].
  apply keeps_bind; [apply keeps_command | intros _].
  apply keeps_bind; [apply keeps_command | intros _; apply keeps_ret].
Qed.

Ltac keeps_step :=
  first
    [ apply keeps_ret | apply keeps_raise | apply keeps_gets | apply keeps_lift
    | apply keeps_log | apply keeps_command | apply keeps_send_keys
    | apply keeps_find_element | apply keeps_until_presence
    | apply keeps_until_clickable | apply keeps_detect_captcha
    | apply keeps_captcha_wait | apply keeps_setup_driver
    | apply keeps_if
    | apply keeps_bind; [ | intros ? ] ].

Lemma keeps_teams_steps (fuel h : nat) : keeps f (TeamsBot.teams_steps fuel h).
Proof.
  unfold TeamsBot.teams_steps. repeat keeps_step.
  apply keeps_try_except; [repeat keeps_step | ].
  constructor; [intros e; apply keeps_ret | constructor].
Qed.

Lemma keeps_chatgpt_steps (fuel h : nat) : keeps f (TeamsBot.chatgpt_steps fuel h).
Proof. unfold TeamsBot.chatgpt_steps. repeat keeps_step. Qed.
End Frames.

(** The fields of the objects are untouched by what the environment does. *)
Lemma bot_field_frames {X} (g : bot -> X) :
  not_on_logs (fun s => g (b s)) /\ not_on_trace (fun s => g (b s))
  /\ not_on_sessions (fun s => g (b s)) /\ not_on_time (fun s => g (b s)).
Proof. repeat split; intros s; reflexivity. Qed.

(** ** Login: the last wait times out *)

Lemma bind_assoc {A B C} (m : M A) (k : A -> M B) (k' : B -> M C) (s : state) :
  ((m ≫= k) ≫= k') s = (m ≫= fun a => k a ≫= k') s.
Proof. rewrite !bind_run. destruct (m s) as [[a|e|h] s']; reflexivity. Qed.

Lemma bind_ext {A B} (m : M A) (k k' : A -> M B) (s : state) :
  (forall a s', k a s' = k' a s') -> (m ≫= k) s = (m ≫= k') s.
Proof. intros H. rewrite !bind_run. destruct (m s) as [[a|e|h] s']; auto. Qed.

Lemma try_except_ext {A} (m m' : M A) (cs : list (handler * (exn -> M A))) (s : state) :
  m s = m' s -> try_except m cs s = try_except m' cs s.
Proof. intros H. unfold try_except. rewrite H. reflexivity. Qed.

Lemma login_split (st : site) (fuel : nat) (s : state) :
  login st fuel s =
  try_except (before_last_wait st fuel ≫= last_wait st) (login_handler st) s.
Proof.
  destruct st;
    [ change (login Teams fuel s) with
        (try_except
           (logger_info "Starte Teams-Login..." ;;
            driver ← TeamsBot.setup_driver;
            upd_b (set_teams_driver (Some driver)) ;;
            TeamsBot.teams_steps fuel driver ;;
            last_wait Teams driver) (login_handler Teams) s)
    | change (login ChatGPT fuel s) with
        (try_except
           (logger_info "Starte ChatGPT-Login..." ;;
            driver ← TeamsBot.setup_driver;
            upd_b (set_chatgpt_driver (Some driver)) ;;
            TeamsBot.chatgpt_steps fuel driver ;;
            last_wait ChatGPT driver) (login_handler ChatGPT) s) ];
    apply try_except_ext; unfold before_last_wait; symmetry;
    rewrite bind_assoc; apply bind_ext; intros _ s1;
    rewrite bind_assoc; apply bind_ext; intros driver s2;
    rewrite bind_assoc; apply bind_ext; intros _ s3;
    rewrite bind_assoc; apply bind_ext; intros _ s4; reflexivity.
Qed.

(** C3.  A login (to Teams or to ChatGPT) that reaches its last wait, and
    whose wait ends on a page without the post-login marker, returns
    [False]: no exception leaves it.  The last line it logs is the login
    error with the message of the [TimeoutException] the wait raised. *)
Theorem login_marker_timeout
    (st : site) (fuel : nat) (s s1 : state) (driver : nat) (page : list element) :
  before_last_wait st fuel s = (Val driver, s1) ->
  answer s1 0 = Shows page ->
  select (marker st) page = [] ->
  login st fuel s =
    (Val false,
     State (set_logs (logs (w s1) ++ [login_error st timeout_exn])
              (w (sent driver (CUntilPresence 30 (marker st)) s1)))
           (b s1))
  /\ until_presence driver 30 (marker st) s1 =
       (Exc timeout_exn, sent driver (CUntilPresence 30 (marker st)) s1).
Proof.
  intros Hpre Hans Hsel.
  assert (Hwait : until_presence driver 30 (marker st) s1 =
                  (Exc timeout_exn, sent driver (CUntilPresence 30 (marker st)) s1)).
  { unfold until_presence. rewrite bind_run, send_run, Hans, Hsel. reflexivity. }
  split; [ | exact Hwait].
  rewrite login_split. unfold try_except. rewrite bind_run, Hpre.
  unfold last_wait. rewrite bind_run, Hwait.
  destruct st; reflexivity.
Qed.

(** ** Construction of a browser session *)

Lemma log_run (l : level) (msg : string) (s : state) :
  log l msg s = (Val tt, add_log l msg s).
Proof. reflexivity. Qed.

Lemma answer_created (h : nat) (o : chrome_options) (s : state) (i : nat) :
  answer (created h o s) i = answer s (S i).
Proof. apply (answer_sent h (CChrome o) s i). Qed.

Lemma command_run (h : nat) (c : call) (s : state) :
  command h c s =
  match answer s 0 with
  | Shows _ => (Val tt, sent h c s)
  | Breaks e msg => (Exc (browser_exn e msg), sent h c s)
  end.
Proof.
  unfold command. rewrite bind_run, send_run. destruct (answer s 0); reflexivity.
Qed.

Lemma webdriver_Chrome_run (o : chrome_options) (s : state) :
  webdriver_Chrome o s =
  match answer s 0 with
  | Shows _ => (Val (sessions (w s)), created (sessions (w s)) o s)
  | Breaks e msg => (Exc (browser_exn e msg), sent (sessions (w s)) (CChrome o) s)
  end.
Proof.
  unfold webdriver_Chrome. rewrite bind_run. unfold gets at 1.
  rewrite bind_run, command_run. destruct (answer s 0); reflexivity.
Qed.

Lemma setup_driver_run (s : state) :
  TeamsBot.setup_driver s =
  let h := sessions (w s) in
  let o := options_for (config (b s)) in
  match answer s 0 with
  | Breaks e msg => (Exc (browser_exn e msg), sent h (CChrome o) s)
  | Shows _ =>
      let s1 := sent h (CSetPageLoadTimeout 30) (created h o s) in
      match answer s 1 with
      | Breaks e msg => (Exc (browser_exn e msg), s1)
      | Shows _ =>
          let s2 := sent h (CImplicitlyWait 10) s1 in
          match answer s 2 with
          | Breaks e msg => (Exc (browser_exn e msg), s2)
          | Shows _ => (Val h, s2)
          end
      end
  end.
Proof.
  unfold TeamsBot.setup_driver. cbv zeta. rewrite bind_run. unfold gets at 1.
  fold (options_for (config (b s))).
  rewrite bind_run, webdriver_Chrome_run.
  destruct (answer s 0) as [p0|e0 m0] eqn:E0; [ | reflexivity].
  rewrite bind_run, command_run, answer_created.
  destruct (answer s 1) as [p1|e1 m1] eqn:E1; [ | reflexivity].
  rewrite bind_run, command_run, answer_sent, answer_created.
  destruct (answer s 2) as [p2|e2 m2] eqn:E2; reflexivity.
Qed.

Lemma setup_succeeds_run (s : state) :
  setup_succeeds s ->
  TeamsBot.setup_driver s =
    (Val (sessions (w s)),
     sent (sessions (w s)) (CImplicitlyWait 10)
       (sent (sessions (w s)) (CSetPageLoadTimeout 30)
          (created (sessions (w s)) (options_for (config (b s))) s))).
Proof.
  intros H. rewrite setup_driver_run. cbv zeta.
  destruct (H 0%nat) as [p0 ->]; [lia | ].
  destruct (H 1%nat) as [p1 ->]; [lia | ].
  destruct (H 2%nat) as [p2 ->]; [lia | ]. reflexivity.
Qed.

Lemma setup_driver_raises (s s' : state) (e : exn) :
  TeamsBot.setup_driver s = (Exc e, s') -> exists c msg, e = browser_exn c msg.
Proof.
  rewrite setup_driver_run. cbv zeta.
  destruct (answer s 0); [ | intros H; inversion H; eauto].
  destruct (answer s 1); [ | intros H; inversion H; eauto].
  destruct (answer s 2); intros H; inversion H; eauto.
Qed.

(** Logging before the construction changes nothing to its outcome. *)
Lemma setup_driver_logged (s : state) (l : list (level * string)) :
  TeamsBot.setup_driver (State (set_logs l (w s)) (b s)) =
  ((TeamsBot.setup_driver s).1,
   State (set_logs l (w (TeamsBot.setup_driver s).2)) (b (TeamsBot.setup_driver s).2)).
Proof.
  rewrite !setup_driver_run. cbv zeta.
  change (answer (State (set_logs l (w s)) (b s))) with (answer s).
  destruct (answer s 0); [ | reflexivity].
  destruct (answer s 1); [ | reflexivity].
  destruct (answer s 2); reflexivity.
Qed.

Lemma login_setup_failure (st : site) (fuel : nat) (s s' : state) (e : exn) :
  TeamsBot.setup_driver s = (Exc e, s') ->
  login st fuel s =
    (Val false,
     State (set_logs (logs (w s) ++ [login_start_line st; login_error st e]) (w s'))
           (b s')).
Proof.
  intros Hsetup.
  destruct (setup_driver_raises _ _ _ Hsetup) as (c & msg & ->).
  rewrite login_split. unfold try_except, before_last_wait.
  rewrite bind_assoc, bind_run. unfold logger_info. rewrite log_run.
  rewrite bind_assoc, bind_run. unfold add_log.
  rewrite setup_driver_logged, Hsetup. cbn [fst snd select_clause login_handler].
  rewrite browser_exn_caught.
  destruct st; unfold logger_error; rewrite bind_run, log_run; unfold add_log;
    cbn [w b logs set_logs]; rewrite <- app_assoc; reflexivity.
Qed.

(** C4, as the code has it.  A failure to construct the browser session
    leaves [setup_driver] as an exception (nothing is retried or handled
    there), and reaches the login method that called it; there the
    method's own handler catches it: the login logs its error line with
    the exception's message and returns [False], its driver field is not
    assigned, and no exception reaches the caller of the login.  [start]
    in turn logs that the Teams login failed and returns normally. *)
Theorem setup_failure_handled_by_login
    (st : site) (fuel : nat) (s s' : state) (e : exn) :
  TeamsBot.setup_driver s = (Exc e, s') ->
  login st fuel s =
    (Val false,
     State (set_logs (logs (w s) ++ [login_start_line st; login_error st e]) (w s'))
           (b s'))
  /\ b s' = b s
  /\ exists s'', TeamsBot.start fuel s = (Val tt, s'')
       /\ logs (w s'') =
            (logs (w s) ++ [(INFO, "Starting Teams-ChatGPT Bot...");
                            login_start_line Teams; login_error Teams e;
                            (ERROR, "Failed to login to Teams")])%list.
Proof.
  intros Hsetup. split; [now apply login_setup_failure | ]. split.
  - assert (Hk : keeps (fun s => b s) TeamsBot.setup_driver)
      by (apply keeps_setup_driver; intros ? ?; reflexivity).
    specialize (Hk s). rewrite Hsetup in Hk. exact Hk.
  - pose proof (setup_driver_logged s
                  (logs (w s) ++ [(INFO, "Starting Teams-ChatGPT Bot...")])) as Hl.
    rewrite Hsetup in Hl. cbn [fst snd] in Hl.
    pose proof (login_setup_failure Teams fuel _ _ _ Hl) as Hlogin.
    eexists. split.
    + unfold TeamsBot.start. rewrite bind_run. unfold logger_info at 1.
      rewrite log_run. unfold add_log. rewrite bind_run.
      change (TeamsBot.login_to_teams fuel) with (login Teams fuel).
      rewrite Hlogin. cbn [negb]. unfold logger_error. rewrite log_run. reflexivity.
    + cbn [add_log w b logs set_logs]. rewrite <- !app_assoc. reflexivity.
Qed.

(** ** Teardown *)

Lemma answer_stopping (s : state) (i : nat) : answer (stopping s) i = answer s i.
Proof. reflexivity. Qed.

Lemma stop_run (s : state) (h1 h2 : nat) :
  teams_driver (b s) = Some h1 ->
  chatgpt_driver (b s) = Some h2 ->
  TeamsBot.stop s =
  match answer s 0 with
  | Breaks c msg => (Exc (browser_exn c msg), sent h1 CQuit (stopping s))
  | Shows _ =>
      match answer s 1 with
      | Breaks c msg => (Exc (browser_exn c msg), sent h2 CQuit (sent h1 CQuit (stopping s)))
      | Shows _ =>
          (Val tt, add_log INFO "Bot stopped" (sent h2 CQuit (sent h1 CQuit (stopping s))))
      end
  end.
Proof.
  intros H1 H2. unfold TeamsBot.stop.
  rewrite bind_run. unfold logger_info at 1. rewrite log_run.
  rewrite bind_run. unfold upd_b at 1.
  rewrite bind_run. unfold gets at 1. cbn [fst snd].
  change (State (w (add_log INFO "Stopping bot..." s))
            (set_is_running false (b (add_log INFO "Stopping bot..." s))))
    with (stopping s).
  change (teams_driver (b (stopping s))) with (teams_driver (b s)).
  rewrite H1, bind_run, command_run, answer_stopping.
  destruct (answer s 0) as [p0|c0 m0]; [ | reflexivity].
  rewrite bind_run. unfold gets at 1. cbn [fst snd].
  change (chatgpt_driver (b (sent h1 CQuit (stopping s)))) with (chatgpt_driver (b s)).
  rewrite H2, bind_run, command_run, answer_sent, answer_stopping.
  destruct (answer s 1) as [p1|c1 m1]; reflexivity.
Qed.

Lemma trace_sent (h : nat) (c : call) (s : state) :
  trace (w (sent h c s)) = (trace (w s) ++ [(h, c)])%list.
Proof. reflexivity. Qed.

(** C8, as the code has it.  With both sessions open, [stop] quits the
    Teams session and then the ChatGPT session, one after the other and
    unguarded.  If the first quit returns, the second is sent.  If the
    first quit raises, the exception leaves [stop] at once: the only
    command sent is the first quit, the second session is never asked to
    quit, and "Bot stopped" is not logged. *)
Theorem stop_quits_in_sequence (s : state) (h1 h2 : nat) :
  teams_driver (b s) = Some h1 ->
  chatgpt_driver (b s) = Some h2 ->
  (forall page, answer s 0 = Shows page ->
     trace (w (TeamsBot.stop s).2) = (trace (w s) ++ [(h1, CQuit); (h2, CQuit)])%list)
  /\ (forall c msg, answer s 0 = Breaks c msg ->
        TeamsBot.stop s = (Exc (browser_exn c msg), sent h1 CQuit (stopping s))
        /\ trace (w (TeamsBot.stop s).2) = (trace (w s) ++ [(h1, CQuit)])%list
        /\ logs (w (TeamsBot.stop s).2) = (logs (w s) ++ [(INFO, "Stopping bot...")])%list).
Proof.
  intros H1 H2. rewrite (stop_run s h1 h2 H1 H2). split.
  - intros page ->. destruct (answer s 1); cbn [snd add_log w]; rewrite ?trace_sent;
      cbn [trace set_logs]; rewrite ?trace_sent; rewrite <- app_assoc; reflexivity.
  - intros c msg ->. repeat split.
Qed.

Lemma stop_trace (s : state) :
  trace (w (TeamsBot.stop s).2) = (trace (w s) ++ quit_commands s)%list.
Proof.
  unfold quit_commands.
  destruct (teams_driver (b s)) as [h1|] eqn:H1; destruct (chatgpt_driver (b s)) as [h2|] eqn:H2.
  - rewrite (stop_run s h1 h2 H1 H2).
    destruct (answer s 0); [destruct (answer s 1) | ]; cbn [snd add_log w];
      rewrite ?trace_sent; cbn [trace set_logs]; rewrite ?trace_sent;
      rewrite <- ?app_assoc; reflexivity.
  - unfold TeamsBot.stop.
    rewrite bind_run. unfold logger_info at 1. rewrite log_run.
    rewrite bind_run. unfold upd_b at 1.
    rewrite bind_run. unfold gets at 1. cbn [fst snd].
    change (State (w (add_log INFO "Stopping bot..." s))
              (set_is_running false (b (add_log INFO "Stopping bot..." s))))
      with (stopping s).
    change (teams_driver (b (stopping s))) with (teams_driver (b s)).
    rewrite H1, bind_run, command_run.
    destruct (answer (stopping s) 0); [ | reflexivity].
    rewrite bind_run. unfold gets at 1. cbn [fst snd].
    change (chatgpt_driver (b (sent h1 CQuit (stopping s)))) with (chatgpt_driver (b s)).
    rewrite H2. reflexivity.
  - unfold TeamsBot.stop.
    rewrite bind_run. unfold logger_info at 1. rewrite log_run.
    rewrite bind_run. unfold upd_b at 1.
    rewrite bind_run. unfold gets at 1. cbn [fst snd].
    change (State (w (add_log INFO "Stopping bot..." s))
              (set_is_running false (b (add_log INFO "Stopping bot..." s))))
      with (stopping s).
    change (teams_driver (b (stopping s))) with (teams_driver (b s)).
    rewrite H1, bind_run, ret_run, bind_run. unfold gets at 1. cbn [fst snd].
    change (chatgpt_driver (b (stopping s))) with (chatgpt_driver (b s)).
    rewrite H2, bind_run, command_run.
    destruct (answer (stopping s) 0); reflexivity.
  - unfold TeamsBot.stop.
    rewrite bind_run. unfold logger_info at 1. rewrite log_run.
    rewrite bind_run. unfold upd_b at 1.
    rewrite bind_run. unfold gets at 1. cbn [fst snd].
    change (State (w (add_log INFO "Stopping bot..." s))
              (set_is_running false (b (add_log INFO "Stopping bot..." s))))
      with (stopping s).
    change (teams_driver (b (stopping s))) with (teams_driver (b s)).
    rewrite H1, bind_run, ret_run, bind_run. unfold gets at 1. cbn [fst snd].
    change (chatgpt_driver (b (stopping s))) with (chatgpt_driver (b s)).
    rewrite H2. cbn. now rewrite app_nil_r.
Qed.

(** ** A login that fails after its session was created *)

Lemma login_unfold (st : site) (fuel : nat) :
  login st fuel = try_except (login_body st fuel) (login_handler st).
Proof. destruct st; reflexivity. Qed.

Lemma driver_of_frames (st : site) :
  not_on_logs (fun s => driver_of st (b s)) /\ not_on_trace (fun s => driver_of st (b s))
  /\ not_on_sessions (fun s => driver_of st (b s)) /\ not_on_time (fun s => driver_of st (b s))
  /\ not_on_pm_running (fun s => driver_of st (b s)).
Proof. repeat split; intros s ?; destruct st; reflexivity. Qed.

Lemma keeps_driver_after_setup (st st' : site) (fuel h : nat) :
  keeps (fun s => driver_of st (b s)) (steps st' fuel h ;; last_wait st' h).
Proof.
  destruct (driver_of_frames st) as (Hl & Ht & Hs & Hti & Hpm).
  apply keeps_bind.
  - destruct st'; [apply keeps_teams_steps | apply keeps_chatgpt_steps]; assumption.
  - intros _. unfold last_wait.
    apply keeps_bind; [now apply keeps_until_presence | intros _].
    apply keeps_bind; [now apply keeps_log | intros _; apply keeps_ret].
Qed.

Lemma login_after_setup (st : site) (fuel : nat) (s : state) :
  setup_succeeds s ->
  login st fuel s =
    try_except (after_setup st fuel (sessions (w s))) (login_handler st) (session_ready st s).
Proof.
  intros Hsetup. rewrite login_unfold. unfold try_except, login_body.
  rewrite bind_run. unfold logger_info at 1. rewrite log_run.
  rewrite bind_run.
  rewrite (setup_succeeds_run (add_log INFO ("Starte " +:+ site_name st +:+ "-Login...") s) Hsetup).
  rewrite bind_run. unfold upd_b at 1. reflexivity.
Qed.

Lemma login_later_failure (st : site) (fuel : nat) (s : state) (e : exn) (s3 : state) :
  setup_succeeds s ->
  later_step_fails st fuel s e s3 ->
  login st fuel s = (Val false, add_log ERROR (login_error st e).2 s3)
  /\ driver_of st (b s3) = Some (sessions (w s)).
Proof.
  intros Hsetup [Hfail Hexc]. split.
  - rewrite (login_after_setup st fuel s Hsetup). unfold try_except. rewrite Hfail.
    cbn [select_clause login_handler]. rewrite Hexc. reflexivity.
  - pose proof (keeps_driver_after_setup st st fuel (sessions (w s)) (session_ready st s)) as Hk.
    fold (after_setup st fuel (sessions (w s))) in Hk. rewrite Hfail in Hk.
    cbn [snd] in Hk. rewrite Hk. destruct st; reflexivity.
Qed.

Lemma start_login_failed (st : site) (fuel : nat) (s s0 s' : state) :
  reaches_login st fuel s s0 ->
  login st fuel s0 = (Val false, s') ->
  TeamsBot.start fuel s = (Val tt, add_log ERROR (failed_line st).2 s').
Proof.
  intros Hreach Hlogin. unfold TeamsBot.start.
  rewrite bind_run. unfold logger_info at 1. rewrite log_run. rewrite bind_run.
  change (TeamsBot.login_to_teams fuel) with (login Teams fuel).
  destruct st; cbn [reaches_login] in Hreach.
  - subst s0. cbn [snd starting_line] in Hlogin. rewrite Hlogin. reflexivity.
  - cbn [snd starting_line] in Hreach. rewrite Hreach. cbn [negb].
    rewrite bind_run.
    change (TeamsBot.login_to_chatgpt fuel) with (login ChatGPT fuel).
    rewrite Hlogin. reflexivity.
Qed.

Lemma run_bot_after_start (fuel : nat) (s s3 : state) :
  TeamsBot.start fuel s = (Val tt, s3) ->
  (run_bot fuel s).2 = (TeamsBot.stop s3).2.
Proof.
  intros Hstart. unfold run_bot, try_finally, try_except. rewrite Hstart.
  destruct (TeamsBot.stop s3) as [[u|e|h] s4]; reflexivity.
Qed.

Lemma quit_commands_reached (st : site) (s : state) (h : nat) :
  driver_of st (b s) = Some h -> quit_reached st s -> In (h, CQuit) (quit_commands s).
Proof.
  unfold quit_commands, quit_reached, teams_quit_returns. destruct st; cbn [driver_of].
  - intros -> _. destruct (chatgpt_driver (b s)); [destruct (answer s 0) | ]; now left.
  - intros ->. destruct (teams_driver (b s)).
    + intros [page ->]. right. now left.
    + intros _. now left.
Qed.

(** C10, as the code has it.  In a login whose [setup_driver] succeeds
    and in which a later step fails, the handler logs the error and the
    method returns [False]; its driver field still holds the session it
    created.  [start] then logs the failure and returns, and the [finally]
    block of [main] runs [stop] in that state.  [stop] sends the quit for
    the Teams session first; the quit for the ChatGPT session follows only
    when the Teams quit returned. *)
Theorem failed_login_keeps_driver
    (st : site) (fuel : nat) (s s0 s3 : state) (e : exn) :
  reaches_login st fuel s s0 ->
  setup_succeeds s0 ->
  later_step_fails st fuel s0 e s3 ->
  exists s' : state,
    login st fuel s0 = (Val false, s')
    /\ s' = add_log ERROR (login_error st e).2 s3
    /\ driver_of st (b s') = Some (sessions (w s0))
    /\ (run_bot fuel s).2 = (TeamsBot.stop (add_log ERROR (failed_line st).2 s')).2
    /\ trace (w (run_bot fuel s).2) =
         (trace (w s') ++ quit_commands (add_log ERROR (failed_line st).2 s'))%list
    /\ (quit_reached st s' ->
          In (sessions (w s0), CQuit) (quit_commands (add_log ERROR (failed_line st).2 s'))).
Proof.
  intros Hreach Hsetup Hfail.
  destruct (login_later_failure st fuel s0 e s3 Hsetup Hfail) as [Hlogin Hdrv].
  pose proof (start_login_failed st fuel s s0 _ Hreach Hlogin) as Hstart.
  pose proof (run_bot_after_start fuel s _ Hstart) as Hrun.
  eexists. split; [exact Hlogin | ]. split; [reflexivity | ].
  split; [exact Hdrv | ]. split; [exact Hrun | ]. split.
  - rewrite Hrun, stop_trace. reflexivity.
  - intros Hq. apply (quit_commands_reached st); [exact Hdrv | ].
    destruct st; exact Hq.
Qed.

(** ** What the run of the bot never touches *)

Section WorldFrames.
Context {X : Type} (f : state -> X).
Hypothesis Hlogs : not_on_logs f.
Hypothesis Htrace : not_on_trace f.
Hypothesis Hsessions : not_on_sessions f.
Hypothesis Htime : not_on_time f.
Hypothesis Hbot : not_on_bot f.

Lemma not_on_bot_pm : not_on_pm_running f.
Proof. intros s r. apply Hbot. Qed.

Lemma keeps_upd_b (g : bot -> bot) : keeps f (upd_b g).
Proof. intros s. apply Hbot. Qed.

Lemma keeps_login (st : site) (fuel : nat) : keeps f (login st fuel).
Proof.
  pose proof not_on_bot_pm as Hpm.
  rewrite login_unfold. apply keeps_try_except.
  - unfold login_body.
    apply keeps_bind; [now apply keeps_log | intros _].
    apply keeps_bind; [now apply keeps_setup_driver | intros h].
    apply keeps_bind; [apply keeps_upd_b | intros _].
    apply keeps_bind.
    + destruct st; [apply keeps_teams_steps | apply keeps_chatgpt_steps]; assumption.
    + intros _. unfold last_wait.
      apply keeps_bind; [now apply keeps_until_presence | intros _].
      apply keeps_bind; [now apply keeps_log | intros _; apply keeps_ret].
  - constructor; [ | constructor]. intros e.
    apply keeps_bind; [now apply keeps_log | intros _; apply keeps_ret].
Qed.

Lemma keeps_idle_loop (fuel : nat) : keeps f (TeamsBot.idle_loop fuel).
Proof.
  pose proof not_on_bot_pm as Hpm.
  induction fuel as [|fuel IH]; [apply keeps_halted | ].
  simpl. apply keeps_bind; [apply keeps_gets | intros r].
  apply keeps_if; [ | apply keeps_ret].
  apply keeps_bind; [apply keeps_gets | intros cfg].
  apply keeps_bind; [now apply keeps_asyncio_sleep | intros _; apply IH].
Qed.

Lemma keeps_start (fuel : nat) : keeps f (TeamsBot.start fuel).
Proof.
  unfold TeamsBot.start.
  apply keeps_bind; [now apply keeps_log | intros _].
  apply keeps_bind; [apply (keeps_login Teams) | intros t].
  apply keeps_if; [now apply keeps_log | ].
  apply keeps_bind; [apply (keeps_login ChatGPT) | intros c].
  apply keeps_if; [now apply keeps_log | ].
  apply keeps_bind; [now apply keeps_log | intros _].
  apply keeps_bind; [apply keeps_upd_b | intros _; apply keeps_idle_loop].
Qed.

Lemma keeps_stop : keeps f TeamsBot.stop.
Proof.
  pose proof not_on_bot_pm as Hpm.
  unfold TeamsBot.stop.
  apply keeps_bind; [now apply keeps_log | intros _].
  apply keeps_bind; [apply keeps_upd_b | intros _].
  apply keeps_bind; [apply keeps_gets | intros td].
  apply keeps_bind; [destruct td; [now apply keeps_command | apply keeps_ret] | intros _].
  apply keeps_bind; [apply keeps_gets | intros cd].
  apply keeps_bind; [destruct cd; [now apply keeps_command | apply keeps_ret] | intros _].
  now apply keeps_log.
Qed.

Lemma keeps_run_bot (fuel : nat) : keeps f (run_bot fuel).
Proof.
  unfold run_bot. apply keeps_try_finally; [ | apply keeps_stop].
  apply keeps_try_except; [apply keeps_start | ].
  constructor; [intros e; now apply keeps_log | ].
  constructor; [intros e; now apply keeps_log | constructor].
Qed.
End WorldFrames.

(** [run_bot], whatever happens in it, leaves every file as it is: the PID
    file [ProcessManager.write_pid] wrote is never removed. *)
Lemma run_bot_keeps_files (fuel : nat) (s : state) :
  fs (w (run_bot fuel s).2) = fs (w s).
Proof.
  apply (keeps_run_bot (fun s => fs (w s))); intros ? ?; try intros ?; reflexivity.
Qed.

(** ** The idle loop and the signals *)

Lemma deliver_handled (sg : signum) (s : state) :
  handlers_installed s ->
  deliver sg s =
    (Val tt,
     State (w (add_log INFO ("Received signal " +:+ pretty (signal_number sg)
                             +:+ ", shutting down...") s))
           (set_pm_running false (b s))).
Proof.
  intros [Hi Ht]. unfold deliver. rewrite bind_run. unfold gets, id. cbn [fst snd].
  destruct sg; rewrite ?Hi, ?Ht; reflexivity.
Qed.

Lemma deliver_all_handled (l : list signum) (s : state) :
  handlers_installed s ->
  exists s', deliver_all l s = (Val tt, s')
    /\ idle_frame s' = idle_frame s
    /\ clock (w s') = clock (w s) /\ inbox (w s') = inbox (w s)
    /\ pm_running (b s') = (if nonempty l then false else pm_running (b s)).
Proof.
  revert s. induction l as [|sg l IH]; intros s Hh.
  - exists s. repeat split.
  - simpl. rewrite bind_run, (deliver_handled sg s Hh).
    match goal with |- context [deliver_all l ?s1] =>
      destruct (IH s1) as (s' & Hrun & Hf & Hc & Hi & Hp); [exact Hh | ]
    end.
    exists s'. split; [exact Hrun | ]. rewrite Hf, Hc, Hi, Hp.
    repeat split. destruct l; reflexivity.
Qed.

Lemma sleep_handled (us : Z) (s : state) :
  handlers_installed s ->
  exists s', sleep us s = (Val tt, s')
    /\ idle_frame s' = idle_frame s
    /\ clock (w s') = clock (w s) + Z.max 0 us
    /\ inbox (w s') = filter (fun p => ¬ (p.1 <= clock (w s) + Z.max 0 us)) (inbox (w s))
    /\ (pm_running (b s) = false -> pm_running (b s') = false)
    /\ (forall t sg, In (t, sg) (inbox (w s)) -> t <= clock (w s) + Z.max 0 us ->
                     pm_running (b s') = false).
Proof.
  intros Hh. unfold sleep. rewrite bind_run. unfold gets, id. cbn [fst snd].
  rewrite bind_run. unfold upd_w at 1.
  match goal with |- context [deliver_all ?l ?s1] =>
    destruct (deliver_all_handled l s1) as (s' & Hrun & Hf & Hc & Hi & Hp); [exact Hh | ];
    rewrite Hrun
  end.
  exists s'. split; [reflexivity | ].
  rewrite Hf, Hc, Hi, Hp. cbn [w b clock inbox set_inbox set_clock].
  repeat split.
  - intros Hfalse. now destruct (nonempty _).
  - intros t sg Hin Hle.
    rewrite (nonempty_In _ sg); [reflexivity | ].
    apply in_map_iff. exists (t, sg). split; [reflexivity | ].
    apply list_elem_of_In, list_elem_of_filter. split; [exact Hle | ].
    now apply list_elem_of_In.
Qed.

Lemma asyncio_sleep_handled (v : value) (s : state) :
  handlers_installed s ->
  match v with VInt _ | VFloat _ | VBool _ => True | _ => False end ->
  exists (s' : state) (us : Z), asyncio_sleep v s = (Val tt, s')
    /\ idle_frame s' = idle_frame s
    /\ clock (w s') = clock (w s) + Z.max 0 us
    /\ inbox (w s') = filter (fun p => ¬ (p.1 <= clock (w s) + Z.max 0 us)) (inbox (w s))
    /\ (pm_running (b s) = false -> pm_running (b s') = false)
    /\ (forall t sg, In (t, sg) (inbox (w s)) -> t <= clock (w s) + Z.max 0 us ->
                     pm_running (b s') = false).
Proof.
  intros Hh Hv. destruct v; try contradiction; simpl;
    match goal with |- context [sleep ?us s] =>
      destruct (sleep_handled us s Hh) as (s' & H); exists s', us; exact H
    end.
Qed.

(** C1, what the code does.  Once the handlers are installed and the idle
    loop runs, no signal ends it: for every amount of fuel the loop is still
    going when the fuel runs out.  A signal that arrives while the loop
    sleeps runs the handler, which sets [process_manager.running] to
    [False]; the loop reads [is_running], which stays [True].  No file is
    removed, so the PID file stays, and no command is sent, so no session
    is asked to quit. *)
Theorem idle_loop_ignores_signals (fuel : nat) (s : state) :
  handlers_installed s ->
  is_running (b s) = true ->
  interval_is_number (config (b s)) ->
  exists s', TeamsBot.idle_loop fuel s = (Halt OutOfFuel, s')
    /\ is_running (b s') = true
    /\ fs (w s') = fs (w s)
    /\ trace (w s') = trace (w s)
    /\ clock (w s) <= clock (w s')
    /\ (pm_running (b s) = false -> pm_running (b s') = false)
    /\ (forall t sg, In (t, sg) (inbox (w s)) -> clock (w s) < t <= clock (w s') ->
                     pm_running (b s') = false).
Proof.
  revert s. induction fuel as [|fuel IH]; intros s Hh Hrun Hint.
  - exists s. simpl. repeat split; try lia; auto.
  - simpl. rewrite bind_run. unfold gets at 1. cbn [fst snd]. rewrite Hrun.
    rewrite bind_run. unfold gets at 1. cbn [fst snd]. rewrite bind_run.
    destruct (asyncio_sleep_handled (get (config (b s)) "check_interval" (VInt 10)) s Hh Hint)
      as (s1 & us & Hsleep & Hf & Hc & Hi & Hp & Hd).
    rewrite Hsleep. unfold idle_frame in Hf. inversion Hf as [[Hfs Htr Hsi Hst Hir Hcfg Htd Hcd]].
    assert (Hh1 : handlers_installed s1) by (destruct Hh; split; congruence).
    assert (Hr1 : is_running (b s1) = true) by congruence.
    assert (Hi1 : interval_is_number (config (b s1))) by (rewrite Hcfg; exact Hint).
    destruct (IH s1 Hh1 Hr1 Hi1) as (s' & Hloop & Hr' & Hfs' & Htr' & Hc' & Hp' & Hd').
    exists s'. split; [exact Hloop | ]. split; [exact Hr' | ].
    split; [congruence | ]. split; [congruence | ]. split; [lia | ].
    split; [auto | ].
    intros t sg Hin [Hlo Hhi].
    destruct (Z_le_gt_dec t (clock (w s) + Z.max 0 us)) as [Hle|Hgt].
    + apply Hp'. eapply Hd; eauto.
    + apply (Hd' t sg); [ | lia].
      rewrite Hi. apply list_elem_of_In, list_elem_of_filter. split; [simpl; lia | ].
      now apply list_elem_of_In.
Qed.

(** ** The statements on concrete runs *)

(** A configuration with the Teams password empty and the ChatGPT password
    absent: both are listed, in that order. *)
Lemma main_lists_missing_fields_witness :
  main 0 (with_config incomplete_config (fun _ => Shows full_page)) =
    (Val tt,
     State (set_stdout
              ["Bitte folgende Felder in bot_config.json ausfüllen: teams_password, chatgpt_password"]
              (w (with_config incomplete_config (fun _ => Shows full_page))))
           no_bot).
Proof.
  destruct (main_lists_missing_fields 0
              (with_config incomplete_config (fun _ => Shows full_page)) incomplete_config)
    as (Hrun & _).
  - reflexivity.
  - vm_compute. set_solver.
  - exists "teams_password". split; [simpl; auto | ].
    right. exists (VStr ""). split; reflexivity.
  - exact Hrun.
Defined.

(** A machine without configuration file. *)
Lemma main_creates_default_config_witness :
  main 0 (State (machine (fun _ => Shows full_page)) no_bot) =
    (Val tt,
     State (set_stdout [created_message; missing_message credential_fields]
              (set_fs {[ CONFIG_FILE := Json default_config ]}
                 (machine (fun _ => Shows full_page))))
           no_bot).
Proof.
  destruct (main_creates_default_config 0 (State (machine (fun _ => Shows full_page)) no_bot))
    as (_ & _ & _ & Hrun & _).
  - reflexivity.
  - vm_compute. set_solver.
  - exact Hrun.
Defined.

(** Two increments of [errors], two seconds apart, on a fresh record. *)
Lemma increment_monotone_and_persisted_witness :
  exists s1 s2 : state,
    BotStats.increment "errors" fresh_stats = (Val tt, s1)
    /\ BotStats.increment "errors" (elapse 2000000 s1) = (Val tt, s2)
    /\ counter_value (stats (b s1)) "errors" = Some 1
    /\ counter_value (stats (b s2)) "errors" = Some 2
    /\ stats (b s1) !! "last_activity" = Some (VTime 0)
    /\ stats (b s2) !! "last_activity" = Some (VTime 2000000)
    /\ fs (w s2) !! STATS_FILE = Some (Json (stats (b s2))).
Proof.
  destruct (increment_monotone_and_persisted fresh_stats "errors" "errors" 0 0 0 2000000)
    as (s1 & s2 & m & t1 & t2 & H1 & H2 & Hc1 & _ & Hm & Hc2 & _ & _ & Hl1 & Hl2
        & Ht1 & Ht2 & _ & _ & Hf2).
  - simpl. intuition discriminate.
  - simpl. intuition discriminate.
  - reflexivity.
  - reflexivity.
  - reflexivity.
  - vm_compute. set_solver.
  - lia.
  - exists s1, s2. rewrite Hm in Hc1. inversion Hc1. subst m t1 t2.
    rewrite Hm. repeat split; assumption.
Defined.

(** Either login on pages that never show the post-login marker. *)
Lemma login_marker_timeout_witness :
  (login Teams 1 stuck).1 = Val false
  /\ last (logs (w (login Teams 1 stuck).2)) =
       Some (ERROR, "Teams login error: Message: ")
  /\ (login ChatGPT 1 stuck).1 = Val false
  /\ last (logs (w (login ChatGPT 1 stuck).2)) =
       Some (ERROR, "ChatGPT login error: Message: ").
Proof.
  destruct (login_marker_timeout Teams 1 stuck (before_last_wait Teams 1 stuck).2
              0%nat login_page) as [Ht _]; [vm_compute; reflexivity .. | ].
  destruct (login_marker_timeout ChatGPT 1 stuck (before_last_wait ChatGPT 1 stuck).2
              0%nat login_page) as [Hc _]; [vm_compute; reflexivity .. | ].
  rewrite Ht, Hc. repeat split; vm_compute; reflexivity.
Defined.

(** Either login when no browser can be started. *)
Lemma setup_failure_handled_by_login_witness :
  (login Teams 0 no_browser).1 = Val false
  /\ (login ChatGPT 0 no_browser).1 = Val false
  /\ teams_driver (b (login Teams 0 no_browser).2) = None.
Proof.
  destruct (setup_failure_handled_by_login Teams 0 no_browser
              (TeamsBot.setup_driver no_browser).2
              (browser_exn EWebDriver "session not created")) as (Ht & _);
    [vm_compute; reflexivity | ].
  destruct (setup_failure_handled_by_login ChatGPT 0 no_browser
              (TeamsBot.setup_driver no_browser).2
              (browser_exn EWebDriver "session not created")) as (Hc & _);
    [vm_compute; reflexivity | ].
  rewrite Ht, Hc. repeat split.
Defined.

(** C4, the claim as stated fails: the construction raises, and the
    exception does not reach the caller of the login.  The login returns
    [False], [start] returns normally, and so does the [try] statement of
    [main]. *)
Lemma setup_failure_does_not_propagate :
  (TeamsBot.setup_driver no_browser).1 = Exc (browser_exn EWebDriver "session not created")
  /\ (TeamsBot.login_to_teams 0 no_browser).1 = Val false
  /\ (TeamsBot.start 0 no_browser).1 = Val tt
  /\ (run_bot 0 no_browser).1 = Val tt.
Proof. repeat split; vm_compute; reflexivity. Qed.

(** Both sessions open: the first quit returns, or is refused. *)
Lemma stop_quits_in_sequence_witness :
  trace (w (TeamsBot.stop (both_open (fun _ => Shows []))).2) = [(0%nat, CQuit); (1%nat, CQuit)]
  /\ trace (w (TeamsBot.stop (both_open (fun _ => Breaks EConnection "refused"))).2) =
       [(0%nat, CQuit)].
Proof.
  split.
  - destruct (stop_quits_in_sequence (both_open (fun _ => Shows [])) 0 1) as [H _];
      [reflexivity .. | ].
    exact (H [] eq_refl).
  - destruct (stop_quits_in_sequence (both_open (fun _ => Breaks EConnection "refused")) 0 1)
      as [_ H]; [reflexivity .. | ].
    destruct (H EConnection "refused" eq_refl) as (_ & Htrace & _). exact Htrace.
Defined.

(** C8, the claim as stated fails: the quit of the first session raises,
    [stop] ends with that exception, and the second session is never asked
    to quit. *)
Lemma stop_first_failure_skips_second :
  teams_driver (b (both_open (fun _ => Breaks EWebDriver "chrome not reachable"))) = Some 0%nat
  /\ chatgpt_driver (b (both_open (fun _ => Breaks EWebDriver "chrome not reachable"))) = Some 1%nat
  /\ (TeamsBot.stop (both_open (fun _ => Breaks EWebDriver "chrome not reachable"))).1 =
       Exc (browser_exn EWebDriver "chrome not reachable")
  /\ ~ In (1%nat, CQuit)
          (trace (w (TeamsBot.stop (both_open (fun _ => Breaks EWebDriver "chrome not reachable"))).2)).
Proof.
  repeat split; try reflexivity.
  vm_compute. intros [H | []]. discriminate.
Qed.

(** On pages without the marker, the last wait of the Teams login raises. *)
Lemma stuck_teams_wait_raises :
  exists s3 : state,
    later_step_fails Teams 1 (add_log INFO starting_line.2 stuck) timeout_exn s3.
Proof. eexists. split; vm_compute; reflexivity. Qed.

(** After that failed Teams login, the field holds session 0 and [main]'s
    [finally] sends its quit. *)
Lemma failed_login_keeps_driver_witness :
  exists s' : state,
    login Teams 1 (add_log INFO starting_line.2 stuck) = (Val false, s')
    /\ teams_driver (b s') = Some 0%nat
    /\ In (0%nat, CQuit) (trace (w (run_bot 1 stuck).2)).
Proof.
  destruct stuck_teams_wait_raises as [s3 Hfail].
  destruct (failed_login_keeps_driver Teams 1 stuck (add_log INFO starting_line.2 stuck)
              s3 timeout_exn) as (s' & Hlogin & _ & Hdrv & _ & Htrace & Hquit).
  - reflexivity.
  - intros i Hi. exists login_page. reflexivity.
  - exact Hfail.
  - exists s'. split; [exact Hlogin | ]. split; [exact Hdrv | ].
    rewrite Htrace. apply in_or_app. right. apply Hquit. exact I.
Defined.

(** C10, the claim as stated fails for the ChatGPT login: the login fails
    after its session (number 1) was created, the field keeps the session,
    [main]'s [finally] runs [stop], but the quit of the Teams session raises
    and the ChatGPT session is never asked to quit. *)
Lemma chatgpt_session_left_open :
  exists s0 s' : state,
    login Teams 1 (add_log INFO starting_line.2 half_open) = (Val true, s0)
    /\ setup_succeeds s0
    /\ login ChatGPT 1 s0 = (Val false, s')
    /\ chatgpt_driver (b s') = Some 1%nat
    /\ (run_bot 1 half_open).1 = Exc (browser_exn EWebDriver "invalid session id")
    /\ In (0%nat, CQuit) (trace (w (run_bot 1 half_open).2))
    /\ ~ In (1%nat, CQuit) (trace (w (run_bot 1 half_open).2)).
Proof.
  exists (login Teams 1 (add_log INFO starting_line.2 half_open)).2.
  exists (login ChatGPT 1 (login Teams 1 (add_log INFO starting_line.2 half_open)).2).2.
  split; [vm_compute; reflexivity | ].
  split.
  { intros i Hi. exists full_page.
    destruct i as [|[|[|i]]]; [vm_compute; reflexivity .. | lia]. }
  split; [vm_compute; reflexivity | ].
  split; [vm_compute; reflexivity | ].
  split; [vm_compute; reflexivity | ].
  split.
  - vm_compute. do 28 right. now left.
  - vm_compute. intros H.
    repeat (destruct H as [H|H]; [discriminate H | ]). exact H.
Qed.

(** Three sleeps of the idle loop with a SIGTERM five seconds in. *)
Lemma idle_loop_ignores_signals_witness :
  exists s' : state,
    TeamsBot.idle_loop 3 idling = (Halt OutOfFuel, s')
    /\ is_running (b s') = true
    /\ pm_running (b s') = false
    /\ fs (w s') = fs (w idling)
    /\ trace (w s') = trace (w idling).
Proof.
  destruct (idle_loop_ignores_signals 3 idling) as (s' & Hrun & Hr & Hfs & Htr & _ & _ & Hsig).
  - split; reflexivity.
  - reflexivity.
  - exact I.
  - exists s'. split; [exact Hrun | ]. split; [exact Hr | ].
    split; [ | split; [exact Hfs | exact Htr ] ].
    apply (Hsig 5000000 SIGTERM); [now left | ].
    apply (f_equal snd) in Hrun. cbn [snd] in Hrun. subst s'.
    vm_compute. split; [reflexivity | discriminate].
Defined.

(** The whole of [main] on a complete configuration, with a SIGTERM five
    seconds in: both logins succeed, the handler runs, and three sleeps
    later the loop is still going; the PID file is there and no session was
    asked to quit. *)
Example main_runs_on_after_sigterm :
  (main 3 signalled).1 = Halt OutOfFuel
  /\ In (INFO, "Received signal 15, shutting down...") (logs (w (main 3 signalled).2))
  /\ clock (w (main 3 signalled).2) = 30000000
  /\ is_running (b (main 3 signalled).2) = true
  /\ pm_running (b (main 3 signalled).2) = false
  /\ fs (w (main 3 signalled).2) !! PID_FILE = Some (Text "4242")
  /\ Forall (fun c => c.2 <> CQuit) (trace (w (main 3 signalled).2)).
Proof.
  split; [vm_compute; reflexivity | ].
  split; [vm_compute; do 6 right; now left | ].
  split; [vm_compute; reflexivity | ].
  split; [vm_compute; reflexivity | ].
  split; [vm_compute; reflexivity | ].
  split; [vm_compute; reflexivity | ].
  vm_compute. repeat constructor; discriminate.
Qed.

(** The detector on pages with each marker, on a page with none, and on a
    session that no longer answers: the result, and the queries sent. *)
Example detect_captcha_on_pages :
  let run page := TeamsBot.detect_captcha 0 (State (machine (fun _ => Shows page)) no_bot) in
  ((run recaptcha_page).1, length (trace (w (run recaptcha_page).2))) = (Val true, 1%nat)
  /\ ((run hcaptcha_page).1, length (trace (w (run hcaptcha_page).2))) = (Val true, 2%nat)
  /\ ((run recaptcha_div_page).1, length (trace (w (run recaptcha_div_page).2)))
       = (Val true, 3%nat)
  /\ ((run login_page).1, logs (w (run login_page).2)) = (Val false, [])
  /\ (TeamsBot.detect_captcha 0
         (State (machine (fun _ => Breaks EWebDriver "no such window")) no_bot)).1 = Val false.
Proof. repeat split; vm_compute; reflexivity. Qed.

(** The PID file of a running bot, of a dead process, of another program,
    and one that holds no number. *)
Example is_already_running_on_pid_files :
  (ProcessManager.is_already_running
     (with_pid_file "4242" 4242 ["python3"; "teams_chatgpt_bot_captcha.py"])).1 = Val true
  /\ (ProcessManager.is_already_running
        (with_pid_file " 4242 " 4242 ["python3"; "teams_chatgpt_bot_captcha.py"])).1 = Val true
  /\ (ProcessManager.is_already_running
        (with_pid_file "4242" 17 ["python3"; "teams_chatgpt_bot_captcha.py"])).1 = Val false
  /\ (ProcessManager.is_already_running
        (with_pid_file "4242" 4242 ["vim"; "notes.txt"])).1 = Val false
  /\ (ProcessManager.is_already_running
        (with_pid_file "pid" 4242 ["python3"; "teams_chatgpt_bot_captcha.py"])).1 = Val false
  /\ logs (w (ProcessManager.is_already_running
                (with_pid_file "pid" 4242 ["python3"; "teams_chatgpt_bot_captcha.py"])).2) =
       [(WARNING,
         "Could not check if already running: invalid literal for int() with base 10: 'pid'")].
Proof. repeat split; vm_compute; reflexivity. Qed.

(** * Further properties *)

(** ** Numbers written and read back *)

Lemma rev_app_rev_app (s t u : string) :
  String.rev_app (String.rev_app s t) u = String.rev_app t (s +:+ u).
Proof.
  revert t u. induction s as [|a s IH]; intros t u; [reflexivity | ].
  simpl. rewrite IH. reflexivity.
Qed.

Lemma string_app_empty_r (s : string) : s +:+ "" = s.
Proof.
  induction s as [|a s IH]; [reflexivity | ].
  change (String a (s +:+ "") = String a s). now f_equal.
Qed.

Lemma rev_rev (s : string) : String.rev (String.rev s) = s.
Proof. unfold String.rev. rewrite rev_app_rev_app. simpl. apply string_app_empty_r. Qed.

Lemma solid_rev_app (s t : string) :
  solid s -> solid t -> solid (String.rev_app s t).
Proof.
  revert t. induction s as [|a s IH]; intros t Hs Ht; [exact Ht | ].
  simpl in *. destruct Hs as [Ha Hs]. apply IH; [exact Hs | ]. simpl. auto.
Qed.

Lemma lstrip_solid (s : string) : solid s -> lstrip s = s.
Proof. destruct s as [|a s]; [reflexivity | ]. simpl. intros [-> _]. reflexivity. Qed.

Lemma strip_solid (s : string) : solid s -> strip s = s.
Proof.
  intros Hs. unfold strip. rewrite (lstrip_solid s Hs).
  rewrite lstrip_solid; [apply rev_rev | ].
  apply solid_rev_app; [exact Hs | exact I].
Qed.

Lemma pretty_N_char_digit (d : N) :
  (d < 10)%N ->
  digit (pretty_N_char d) = Some (Z.of_N d) /\ is_space (pretty_N_char d) = false.
Proof.
  intros Hd.
  assert (d = 0 \/ d = 1 \/ d = 2 \/ d = 3 \/ d = 4 \/ d = 5 \/ d = 6 \/ d = 7
          \/ d = 8 \/ d = 9)%N as H by lia.
  repeat (destruct H as [-> | H]; [split; reflexivity | ]). subst d. split; reflexivity.
Qed.

Lemma pretty_N_go_solid (x : N) (s : string) : solid s -> solid (pretty_N_go x s).
Proof.
  revert s. induction (N.lt_wf_0 x) as [x _ IH]. intros s Hs.
  destruct (decide (x = 0)%N) as [-> | Hx]; [now rewrite pretty_N_go_0 | ].
  rewrite pretty_N_go_step by lia. apply IH.
  - apply N.div_lt; lia.
  - simpl. split; [ | exact Hs]. apply pretty_N_char_digit. apply N.mod_lt. lia.
Qed.

Lemma parse_pretty_N_go (x : N) (s : string) (after_digit : bool) :
  (0 < x)%N ->
  parse_digits 0 after_digit (pretty_N_go x s) = parse_digits (Z.of_N x) true s.
Proof.
  revert s after_digit. induction (N.lt_wf_0 x) as [x _ IH]. intros s fl Hx.
  rewrite pretty_N_go_step by exact Hx.
  assert (Hd : (x `mod` 10 < 10)%N) by (apply N.mod_lt; lia).
  destruct (pretty_N_char_digit _ Hd) as [Hdig _].
  assert (Hval : 10 * Z.of_N (x `div` 10) + Z.of_N (x `mod` 10) = Z.of_N x).
  { rewrite (N.div_mod x 10) at 3 by lia. lia. }
  destruct (decide (x `div` 10 = 0)%N) as [Hq | Hq].
  - rewrite Hq, pretty_N_go_0. simpl. rewrite Hdig. f_equal.
    rewrite Hq in Hval. lia.
  - rewrite IH; [ | apply N.div_lt; lia | lia].
    simpl. rewrite Hdig. f_equal. exact Hval.
Qed.

Lemma pretty_N_go_head (x : N) (s : string) :
  (0 < x)%N -> exists c r d, pretty_N_go x s = String c r /\ digit c = Some d.
Proof.
  revert s. induction (N.lt_wf_0 x) as [x _ IH]. intros s Hx.
  rewrite pretty_N_go_step by exact Hx.
  destruct (decide (x `div` 10 = 0)%N) as [Hq | Hq].
  - rewrite Hq, pretty_N_go_0. eexists _, _, _. split; [reflexivity | ].
    apply pretty_N_char_digit. apply N.mod_lt. lia.
  - apply IH; [apply N.div_lt; lia | now apply N.neq_0_lt_0].
Qed.

Lemma int_of_string_unsigned (c : ascii) (r : string) (d n : Z) :
  digit c = Some d ->
  strip (String c r) = String c r ->
  parse_digits 0 false (String c r) = Some n ->
  int_of_string (String c r) = inr n.
Proof.
  intros Hd Hstrip Hparse. unfold int_of_string. rewrite Hstrip.
  destruct c as [[] [] [] [] [] [] [] []];
    try (vm_compute in Hd; discriminate Hd);
    cbv beta iota zeta; rewrite Hparse; reflexivity.
Qed.

(** [int(str(z).strip())] is [z]. *)
Lemma int_of_string_pretty (z : Z) : int_of_string (strip (pretty z)) = inr z.
Proof.
  destruct z as [|p|p].
  - reflexivity.
  - change (pretty (Z.pos p)) with (pretty (N.pos p)). unfold pretty, pretty_N.
    destruct (decide (N.pos p = 0%N)) as [H|_]; [discriminate H | ].
    assert (Hsolid : solid (pretty_N_go (N.pos p) "")) by (apply pretty_N_go_solid; exact I).
    rewrite (strip_solid _ Hsolid).
    destruct (pretty_N_go_head (N.pos p) "") as (c & r & d & Heq & Hd); [lia | ].
    pose proof (parse_pretty_N_go (N.pos p) "" false) as Hparse.
    rewrite Heq in *. apply (int_of_string_unsigned c r d); [exact Hd | | ].
    + now apply strip_solid.
    + rewrite Hparse by lia. reflexivity.
  - change (pretty (Z.neg p)) with ("-" +:+ pretty (N.pos p)). unfold pretty, pretty_N.
    destruct (decide (N.pos p = 0%N)) as [H|_]; [discriminate H | ].
    assert (Hsolid : solid ("-" +:+ pretty_N_go (N.pos p) "")).
    { split; [reflexivity | ]. apply pretty_N_go_solid. exact I. }
    rewrite (strip_solid _ Hsolid). unfold int_of_string.
    rewrite (strip_solid _ Hsolid).
    change ("-" +:+ pretty_N_go (N.pos p) "") with (String "-" (pretty_N_go (N.pos p) "")).
    cbv beta iota zeta.
    rewrite (parse_pretty_N_go (N.pos p) "" false) by lia. reflexivity.
Qed.

(** ** The PID file, written and read back *)

Lemma write_pid_ok (s : state) :
  PID_FILE ∉ unwritable (w s) ->
  ProcessManager.write_pid s =
    (Val tt, State (set_fs (<[PID_FILE := Text (pretty (os_pid (w s)))]> (fs (w s))) (w s)) (b s)).
Proof.
  intros Hw. unfold ProcessManager.write_pid, try_except.
  rewrite bind_run. unfold gets at 1. cbn [fst snd].
  rewrite (open_write_ok _ _ _ Hw). reflexivity.
Qed.

Lemma write_pid_denied (s : state) :
  PID_FILE ∈ unwritable (w s) ->
  ProcessManager.write_pid s =
    (Val tt, add_log WARNING ("Could not write PID file: " +:+ exn_msg (permission_denied PID_FILE)) s).
Proof.
  intros Hw. unfold ProcessManager.write_pid, try_except.
  rewrite bind_run. unfold gets at 1. cbn [fst snd].
  rewrite (open_write_denied _ _ _ Hw). reflexivity.
Qed.

(** X1.  The PID that [write_pid] writes is the PID [is_already_running]
    reads back: once the file is written, and while the writing process is
    alive, [is_already_running] answers whether the command line of that
    very process contains the marker. *)
Theorem written_pid_is_recognised (s : state) (p : process) (cl : list string) :
  PID_FILE ∉ unwritable (w s) ->
  PID_FILE ∉ unreadable (w s) ->
  0 <= os_pid (w s) ->
  procs (w s) !! os_pid (w s) = Some p ->
  cmdline p = inr cl ->
  exists s' : state,
    ProcessManager.write_pid s = (Val tt, s')
    /\ fs (w s') !! PID_FILE = Some (Text (pretty (os_pid (w s))))
    /\ ProcessManager.is_already_running s' =
         (Val (contains bot_marker (String.concat " " cl)), s').
Proof.
  intros Hw Hr Hpos Hproc Hcl. eexists. split; [apply (write_pid_ok s Hw) | ].
  set (s' := State _ _).
  assert (Hfile : fs (w s') !! PID_FILE = Some (Text (pretty (os_pid (w s)))))
    by apply lookup_insert_eq.
  split; [exact Hfile | ].
  unfold ProcessManager.is_already_running, try_except.
  rewrite bind_run, (os_path_exists_true _ _ _ Hfile).
  rewrite bind_run, (open_read_ok _ _ _ Hfile Hr).
  rewrite bind_run. cbn [file_text]. rewrite int_of_string_pretty, lift_inr_run.
  rewrite bind_run, psutil_Process_run.
  destruct (Z.ltb_spec (os_pid (w s)) 0) as [Hneg | _]; [lia | ].
  change (procs (w s')) with (procs (w s)). rewrite Hproc.
  rewrite bind_run, Hcl. reflexivity.
Qed.

(** X2.  [cleanup_pid] never raises.  It removes the PID file when there
    is one and removal is permitted, touching no other file; when removal
    is refused the file stays and a warning is logged; without a PID file
    it does nothing. *)
Theorem cleanup_pid_removes_file (s : state) :
  exists s' : state,
    ProcessManager.cleanup_pid s = (Val tt, s')
    /\ b s' = b s
    /\ (forall p, p <> PID_FILE -> fs (w s') !! p = fs (w s) !! p)
    /\ (fs (w s) !! PID_FILE = None -> s' = s)
    /\ (PID_FILE ∉ unwritable (w s) ->
          fs (w s') = delete PID_FILE (fs (w s)) /\ logs (w s') = logs (w s))
    /\ (PID_FILE ∈ unwritable (w s) -> is_Some (fs (w s) !! PID_FILE) ->
          fs (w s') = fs (w s)
          /\ logs (w s') =
               (logs (w s) ++
                [(WARNING, "Could not remove PID file: " +:+ exn_msg (permission_denied PID_FILE))])%list).
Proof.
  unfold ProcessManager.cleanup_pid, try_except. rewrite bind_run.
  destruct (fs (w s) !! PID_FILE) as [c|] eqn:Hfile.
  - rewrite (os_path_exists_true _ _ _ Hfile).
    unfold os_remove. rewrite bind_run. unfold gets at 1, id. cbn [fst snd]. rewrite Hfile.
    destruct (decide (PID_FILE ∈ unwritable (w s))) as [Hw | Hw].
    + rewrite bool_decide_eq_true_2 by exact Hw. eexists. split; [reflexivity | ].
      cbn. repeat split; intros; try discriminate; try contradiction; auto.
    + rewrite bool_decide_eq_false_2 by exact Hw. eexists. split; [reflexivity | ].
      cbn. repeat split; intros; try discriminate; try contradiction; auto.
      now apply lookup_delete_ne.
  - rewrite (os_path_exists_false _ _ Hfile). exists s. split; [reflexivity | ].
    repeat split; intros; auto.
    all: try (symmetry; now apply delete_id).
    all: match goal with H : is_Some None |- _ => destruct H as [x Hx]; discriminate Hx end.
Qed.

(** X3.  On a machine without PID file, writing the PID file and cleaning
    it up again leaves the files as they were. *)
Theorem write_then_cleanup_restores_files (s : state) :
  fs (w s) !! PID_FILE = None ->
  PID_FILE ∉ unwritable (w s) ->
  (ProcessManager.write_pid ;; ProcessManager.cleanup_pid) s = (Val tt, s).
Proof.
  intros Hnone Hw. rewrite bind_run, (write_pid_ok s Hw).
  unfold ProcessManager.cleanup_pid, try_except. rewrite bind_run.
  erewrite os_path_exists_true by apply lookup_insert_eq.
  unfold os_remove. rewrite bind_run. unfold gets at 1, id. cbn [fst snd w fs set_fs].
  rewrite lookup_insert_eq.
  change (unwritable (set_fs _ (w s))) with (unwritable (w s)).
  rewrite bool_decide_eq_false_2 by exact Hw.
  unfold upd_w. cbn [w b fs set_fs]. rewrite (delete_insert_id _ _ _ Hnone).
  destruct s as [[] ?]. reflexivity.
Qed.

(** ** The statistics file *)


Lemma load_stats_loaded (s : state) (d : gmap string value) :
  fs (w s) !! STATS_FILE = Some (Json d) ->
  STATS_FILE ∉ unreadable (w s) ->
  BotStats.load_stats s = (Val tt, State (w s) (set_stats (d ∪ stats (b s)) (b s))).
Proof.
  intros H Hr. unfold BotStats.load_stats, try_except.
  rewrite bind_run, (os_path_exists_true _ _ _ H).
  rewrite bind_run, (open_read_ok _ _ _ H Hr). reflexivity.
Qed.


Lemma initial_stats_lookup (now : Z) (k : string) :
  ~ In k stat_keys -> initial_stats now !! k = None.
Proof.
  intros Hk. unfold initial_stats. cbn [list_to_map foldr fst snd uncurry].
  unfold stat_keys in Hk. cbn [In] in Hk.
  rewrite !lookup_insert_ne by (intros E; subst k; tauto). apply lookup_empty.
Qed.

Lemma init_run (s : state) :
  BotStats.init s =
    BotStats.load_stats (State (w s) (set_stats (initial_stats (clock (w s))) (b s))).
Proof. reflexivity. Qed.

(** X5.  A record that [increment] has persisted survives a restart:
    [BotStats()] constructed later on the same files holds exactly the
    record that was written, counters and timestamps included.  Its
    [start_time] is the one of the earlier run, not the time of the
    restart. *)
Theorem stats_survive_restart (s : state) (key : string) (n t0 dt : Z) :
  ~ In key reserved_keys ->
  counter_value (stats (b s)) key = Some n ->
  stats (b s) !! "start_time" = Some (VTime t0) ->
  (forall k, In k stat_keys -> is_Some (stats (b s) !! k)) ->
  STATS_FILE ∉ unwritable (w s) ->
  STATS_FILE ∉ unreadable (w s) ->
  exists s1 s2 : state,
    BotStats.increment key s = (Val tt, s1)
    /\ BotStats.init (elapse dt s1) = (Val tt, s2)
    /\ stats (b s2) = stats (b s1)
    /\ stats (b s2) !! "start_time" = Some (VTime t0)
    /\ counter_value (stats (b s2)) key = Some (n + 1).
Proof.
  intros Hk Hc Hst Hkeys Hw Hr.
  pose proof (increment_run s key n t0 Hk Hc Hst Hw) as H1. cbv zeta in H1.
  set (d1 := incremented (stats (b s)) key n (clock (w s)) t0) in *.
  eexists _, _. split; [exact H1 | ].
  rewrite init_run.
  match goal with |- context [BotStats.load_stats ?x] => set (s1' := x) end.
  assert (Hfile : fs (w s1') !! STATS_FILE = Some (Json d1)) by apply lookup_insert_eq.
  rewrite (load_stats_loaded s1' d1 Hfile Hr).
  assert (Hunion : d1 ∪ stats (b s1') = d1).
  { apply map_eq. intros k. rewrite lookup_union.
    destruct (d1 !! k) as [v|] eqn:Hd1; [now destruct (stats (b s1') !! k) | ].
    cbn [s1' b stats set_stats]. rewrite initial_stats_lookup; [reflexivity | ].
    intros Hin. destruct (Hkeys k Hin) as [v Hv].
    unfold d1, incremented in Hd1.
    destruct (decide (k = "uptime")) as [-> | H1'];
      [rewrite lookup_insert_eq in Hd1; discriminate | ].
    rewrite lookup_insert_ne in Hd1 by congruence.
    destruct (decide (k = "last_activity")) as [-> | H2'];
      [rewrite lookup_insert_eq in Hd1; discriminate | ].
    rewrite lookup_insert_ne in Hd1 by congruence.
    destruct (decide (k = key)) as [-> | H3'];
      [rewrite lookup_insert_eq in Hd1; discriminate | ].
    rewrite lookup_insert_ne in Hd1 by congruence. congruence. }
  rewrite Hunion. split; [reflexivity | ].
  cbn [b stats set_stats]. split; [reflexivity | ]. split.
  - now apply incremented_start_time.
  - unfold d1. rewrite incremented_counter by exact Hk. now rewrite decide_True.
Qed.

(** X6.  [increment] on a key whose value is not a number (a string, a
    timestamp, [None], a list, an object) raises a [TypeError] before it
    changes anything: the record, the files and the log are as before. *)
Theorem increment_rejects_non_number (s : state) (key : string) (v : value) :
  stats (b s) !! key = Some v ->
  not_a_number v ->
  BotStats.increment key s = (Exc (Exn TypeError "unsupported operand type(s) for +"), s).
Proof.
  intros Hv Hnot. unfold BotStats.increment. rewrite bind_run. unfold gets at 1.
  cbn [fst snd]. unfold get. rewrite Hv.
  destruct v; try contradiction; reflexivity.
Qed.

(** X7.  Without a [start_time] in ISO form in the record, [save_stats]
    writes nothing: it returns normally, the record and every file are as
    before, and one warning is logged. *)
Theorem save_stats_needs_start_time (s : state) :
  not_a_time (stats (b s) !! "start_time") ->
  exists msg : string,
    BotStats.save_stats s = (Val tt, add_log WARNING ("Could not save stats: " +:+ msg) s).
Proof.
  intros Hnot. unfold BotStats.save_stats, try_except, getitem. msimpl. cbn [w b].
  destruct (stats (b s) !! "start_time") as [v|]; [ | eexists; reflexivity].
  destruct v; try contradiction; eexists; reflexivity.
Qed.

(** ** Construction of the bot *)

Lemma load_stats_returns (s : state) :
  exists (l : list (level * string)) (d : gmap string value),
    BotStats.load_stats s = (Val tt, State (set_logs l (w s)) (set_stats d (b s))).
Proof.
  unfold BotStats.load_stats, try_except. rewrite bind_run.
  destruct (fs (w s) !! STATS_FILE) as [c|] eqn:Hfile.
  - rewrite (os_path_exists_true _ _ _ Hfile). rewrite bind_run.
    destruct (decide (STATS_FILE ∈ unreadable (w s))) as [Hr | Hr].
    + rewrite (open_read_denied _ _ _ Hfile Hr).
      eexists _, (stats (b s)). destruct s as [? []]. reflexivity.
    + rewrite (open_read_ok _ _ _ Hfile Hr). destruct c as [d | t].
      * exists (logs (w s)), (d ∪ stats (b s)). destruct s as [[] ?]. reflexivity.
      * eexists _, (stats (b s)). destruct s as [? []]. reflexivity.
  - rewrite (os_path_exists_false _ _ Hfile).
    exists (logs (w s)), (stats (b s)). destruct s as [[] []]. reflexivity.
Qed.

Lemma write_pid_returns (s : state) :
  exists (l : list (level * string)),
    ProcessManager.write_pid s =
      (Val tt,
       State (set_logs l
                (set_fs (if bool_decide (PID_FILE ∈ unwritable (w s)) then fs (w s)
                         else <[PID_FILE := Text (pretty (os_pid (w s)))]> (fs (w s)))
                   (w s)))
             (b s)).
Proof.
  destruct (decide (PID_FILE ∈ unwritable (w s))) as [Hw | Hw].
  - rewrite (write_pid_denied s Hw), bool_decide_eq_true_2 by exact Hw.
    eexists. destruct s as [[] ?]. reflexivity.
  - rewrite (write_pid_ok s Hw), bool_decide_eq_false_2 by exact Hw.
    exists (logs (w s)). destruct s as [[] ?]. reflexivity.
Qed.

(** X8.  [TeamsBot(config)] never raises, whatever the state of the
    statistics file and of the PID file.  The bot it builds holds the
    configuration, has no session, is not running, has both signal
    handlers installed, and takes [max_retries] and [retry_delay] from the
    configuration, 3 and 30 when they are absent.  No browser command is
    sent.  The only file written is the PID file, which holds the
    process's PID when writing is permitted. *)
Theorem bot_construction (cfg : gmap string value) (s : state) :
  exists s' : state,
    TeamsBot.init cfg s = (Val tt, s')
    /\ config (b s') = cfg
    /\ teams_driver (b s') = None /\ chatgpt_driver (b s') = None
    /\ is_running (b s') = false /\ pm_running (b s') = true
    /\ handlers_installed s'
    /\ max_retries (b s') = get cfg "max_retries" (VInt 3)
    /\ retry_delay (b s') = get cfg "retry_delay" (VInt 30)
    /\ trace (w s') = trace (w s) /\ sessions (w s') = sessions (w s)
    /\ (forall p, p <> PID_FILE -> fs (w s') !! p = fs (w s) !! p)
    /\ (PID_FILE ∉ unwritable (w s) ->
          fs (w s') !! PID_FILE = Some (Text (pretty (os_pid (w s))))).
Proof.
  unfold TeamsBot.init, ProcessManager.init, ProcessManager.setup_signal_handlers.
  msimpl. rewrite init_run.
  match goal with |- context [BotStats.load_stats ?x] =>
    destruct (load_stats_returns x) as (l1 & d1 & ->) end.
  cbn [w b].
  match goal with |- context [ProcessManager.write_pid ?x] =>
    destruct (write_pid_returns x) as (l2 & ->) end.
  eexists. split; [reflexivity | ].
  cbn [w b config teams_driver chatgpt_driver is_running pm_running max_retries retry_delay
       trace sessions fs unwritable os_pid sigint sigterm set_fs set_logs set_stats
       set_pm_running set_sigint set_sigterm handlers_installed].
  repeat split; try reflexivity.
  - intros p Hp. destruct (bool_decide _); [reflexivity | ].
    now apply lookup_insert_ne.
  - intros Hw. rewrite bool_decide_eq_false_2 by exact Hw. apply lookup_insert_eq.
Qed.

(** ** No interrupt once the handlers are installed *)

Lemma calm_ret {A} (a : A) : calm (mret a : M A).
Proof. intros s H. split; [exact H | exact I]. Qed.

Lemma calm_raise {A} (e : exn) :
  catches HException (exn_cls e) = true -> calm (raise e : M A).
Proof. intros He s H. split; [exact H | exact He]. Qed.

Lemma calm_out_of_fuel {A} : calm (halted OutOfFuel : M A).
Proof. intros s H. split; [exact H | reflexivity]. Qed.

Lemma calm_gets {A} (g : state -> A) : calm (gets g).
Proof. intros s H. split; [exact H | exact I]. Qed.

Lemma calm_bind {A B} (m : M A) (k : A -> M B) :
  calm m -> (forall a, calm (k a)) -> calm (m ≫= k).
Proof.
  intros Hm Hk s H. rewrite bind_run. specialize (Hm s H).
  destruct (m s) as [[a|e|h] s']; cbn [fst snd] in *; try assumption.
  apply Hk. apply Hm.
Qed.

Lemma calm_if {A} (c : bool) (m1 m2 : M A) : calm m1 -> calm m2 -> calm (if c then m1 else m2).
Proof. destruct c; auto. Qed.

Lemma calm_select {A} (cs : list (handler * (exn -> M A))) (e : exn) (k : M A) :
  Forall (fun c => forall e, calm (c.2 e)) cs ->
  select_clause cs e = Some k -> calm k.
Proof.
  induction 1 as [|[h c] cs Hc Hcs IH]; simpl; [discriminate | ].
  destruct (catches h (exn_cls e)); [ | assumption].
  intros H. inversion H. apply Hc.
Qed.

Lemma calm_try_except {A} (m : M A) (cs : list (handler * (exn -> M A))) :
  calm m -> Forall (fun c => forall e, calm (c.2 e)) cs -> calm (try_except m cs).
Proof.
  intros Hm Hcs s H. unfold try_except. specialize (Hm s H).
  destruct (m s) as [[a|e|h] s']; cbn [fst snd] in *; try assumption.
  destruct (select_clause cs e) as [k|] eqn:E; [ | assumption].
  apply (calm_select cs e k Hcs E). apply Hm.
Qed.


Lemma calm_upd_w (f : world -> world) :
  (forall x, sigint (f x) = sigint x /\ sigterm (f x) = sigterm x) -> calm (upd_w f).
Proof.
  intros Hf s [Hi Ht]. split; [ | exact I].
  destruct (Hf (w s)) as [Hi' Ht']. split; cbn [upd_w snd w]; congruence.
Qed.

Lemma calm_upd_b (g : bot -> bot) : calm (upd_b g).
Proof. intros s H. split; [exact H | exact I]. Qed.

Lemma calm_log (l : level) (msg : string) : calm (log l msg).
Proof. apply calm_upd_w. intros x. split; reflexivity. Qed.

Lemma calm_send (h : nat) (c : call) : calm (send h c).
Proof.
  apply calm_bind; [apply calm_gets | intros s0].
  apply calm_bind; [ | intros _; apply calm_ret].
  apply calm_upd_w. intros x. split; reflexivity.
Qed.

Lemma calm_command (h : nat) (c : call) : calm (command h c).
Proof.
  apply calm_bind; [apply calm_send | ].
  intros [|]; [apply calm_ret | apply calm_raise, browser_exn_caught].
Qed.

Lemma calm_find_elements (h : nat) (l : locator) : calm (find_elements h l).
Proof.
  apply calm_bind; [apply calm_send | ].
  intros [|]; [apply calm_ret | apply calm_raise, browser_exn_caught].
Qed.

Lemma calm_find_element (h : nat) (l : locator) : calm (find_element h l).
Proof.
  apply calm_bind; [apply calm_send | ].
  intros [page|]; [ | apply calm_raise, browser_exn_caught].
  destruct (select l page); [now apply calm_raise | apply calm_ret].
Qed.

Lemma calm_until_presence (h : nat) (t : Z) (l : locator) : calm (until_presence h t l).
Proof.
  apply calm_bind; [apply calm_send | ].
  intros [page|[] msg]; try (now apply calm_raise).
  destruct (select l page); [now apply calm_raise | apply calm_ret].
Qed.

Lemma calm_until_clickable (h : nat) (t : Z) (l : locator) : calm (until_clickable h t l).
Proof.
  apply calm_bind; [apply calm_send | ].
  intros [page|[] msg]; try (now apply calm_raise).
  destruct (select l page) as [|e r]; [now apply calm_raise | ].
  destruct (displayed e && enabled e); [apply calm_ret | now apply calm_raise].
Qed.

Lemma calm_send_keys (h : nat) (e : element) (v : value) : calm (send_keys h e v).
Proof. destruct v; try apply calm_command. now apply calm_raise. Qed.

Lemma calm_getitem (d : gmap string value) (k : string) : calm (lift (getitem d k)).
Proof. unfold getitem. destruct (d !! k); [apply calm_ret | now apply calm_raise]. Qed.

Lemma calm_webdriver_Chrome (o : chrome_options) : calm (webdriver_Chrome o).
Proof.
  apply calm_bind; [apply calm_gets | intros h].
  apply calm_bind; [apply calm_command | intros _].
  apply calm_bind; [ | intros; apply calm_ret].
  apply calm_upd_w. intros x. split; reflexivity.
Qed.

Lemma calm_sleep (us : Z) : calm (sleep us).
Proof.
  intros s H. destruct (sleep_handled us s H) as (s' & Hrun & Hf & _).
  rewrite Hrun. split; [ | exact I]. cbn [snd].
  unfold idle_frame in Hf. inversion Hf as [[Hfs Htr Hsi Hst Hir Hcfg Htd Hcd]].
  destruct H. split; congruence.
Qed.


Lemma calm_detect_captcha (h : nat) : calm (TeamsBot.detect_captcha h).
Proof.
  apply calm_try_except.
  - apply calm_bind; [apply calm_find_elements | intros l1].
    apply calm_bind.
    + apply calm_if; [apply calm_ret | ].
      apply calm_bind; [apply calm_find_elements | intros l2].
      apply calm_if; [apply calm_ret | ].
      apply calm_bind; [apply calm_find_elements | intros; apply calm_ret].
    + intros []; [ | apply calm_ret].
      apply calm_bind; [apply calm_log | intros; apply calm_ret].
  - constructor; [intros e; apply calm_ret | constructor].
Qed.

Lemma calm_captcha_wait (fuel : nat) (h : nat) : calm (TeamsBot.captcha_wait fuel h).
Proof.
  induction fuel as [|fuel IH]; [apply calm_out_of_fuel | ].
  simpl. apply calm_bind; [apply calm_detect_captcha | intros c].
  apply calm_if; [ | apply calm_ret].
  apply calm_bind; [apply calm_sleep | intros; apply IH].
Qed.

Lemma calm_setup_driver : calm TeamsBot.setup_driver.
Proof.
  apply calm_bind; [apply calm_gets | intros cfg].
  apply calm_bind; [apply calm_webdriver_Chrome | intros h].
  apply calm_bind; [apply calm_command | intros _].
  apply calm_bind; [apply calm_command | intros _; apply calm_ret].
Qed.

Ltac calm_step :=
  first
    [ apply calm_ret | apply calm_gets | apply calm_getitem
    | apply calm_log | apply calm_command | apply calm_send_keys
    | apply calm_find_element | apply calm_until_presence
    | apply calm_until_clickable | apply calm_detect_captcha
    | apply calm_captcha_wait | apply calm_setup_driver | apply calm_upd_b
    | apply calm_if
    | apply calm_bind; [ | intros ? ] ].

Lemma calm_teams_steps (fuel h : nat) : calm (TeamsBot.teams_steps fuel h).
Proof.
  unfold TeamsBot.teams_steps. repeat calm_step.
  apply calm_try_except; [repeat calm_step | ].
  constructor; [intros e; apply calm_ret | constructor].
Qed.

Lemma calm_chatgpt_steps (fuel h : nat) : calm (TeamsBot.chatgpt_steps fuel h).
Proof. unfold TeamsBot.chatgpt_steps. repeat calm_step. Qed.

Lemma calm_login_body (st : site) (fuel : nat) : calm (login_body st fuel).
Proof.
  unfold login_body, last_wait. repeat calm_step.
  destruct st; [apply calm_teams_steps | apply calm_chatgpt_steps].
Qed.




(** X9.  Once the signal handlers are installed, a login method never
    raises and the process is not killed in it: whatever the browser
    answers and whatever signal arrives, the method returns a boolean (or
    its CAPTCHA wait is still polling when the fuel runs out), and the
    handlers are still installed afterwards. *)
Theorem login_never_raises (st : site) (fuel : nat) (s : state) :
  handlers_installed s ->
  exists s' : state,
    handlers_installed s'
    /\ ((exists r : bool, login st fuel s = (Val r, s'))
        \/ login st fuel s = (Halt OutOfFuel, s')).
Proof.
  intros H. rewrite login_unfold. unfold try_except.
  destruct (calm_login_body st fuel s H) as [Hh Hr].
  destruct (login_body st fuel s) as [[r|e|h] s1]; cbn [fst snd] in *.
  - exists s1. split; [exact Hh | left; exists r; reflexivity].
  - cbn [select_clause login_handler]. rewrite Hr.
    eexists. split; [ | left; exists false; reflexivity]. exact Hh.
  - subst h. exists s1. split; [exact Hh | right; reflexivity].
Qed.







(** ** A check interval that is no number *)

Lemma start_logged_in (fuel : nat) (s s1 s2 : state) :
  reaches_login ChatGPT fuel s s1 ->
  login ChatGPT fuel s1 = (Val true, s2) ->
  TeamsBot.start fuel s = TeamsBot.idle_loop fuel (started s2).
Proof.
  intros Hteams Hchatgpt. unfold TeamsBot.start.
  rewrite bind_run. unfold logger_info at 1. rewrite log_run. rewrite bind_run.
  change (TeamsBot.login_to_teams fuel) with (login Teams fuel).
  cbn [reaches_login snd starting_line] in Hteams. rewrite Hteams. cbn [negb].
  rewrite bind_run.
  change (TeamsBot.login_to_chatgpt fuel) with (login ChatGPT fuel).
  rewrite Hchatgpt. reflexivity.
Qed.

Lemma asyncio_sleep_not_number (v : value) (s : state) :
  ~ match v with VInt _ | VFloat _ | VBool _ => True | _ => False end ->
  asyncio_sleep v s = (Exc interval_error, s).
Proof. intros H. destruct v; try reflexivity; exfalso; apply H; exact I. Qed.

(** X11.  With a [check_interval] that is no number (a string, say), the
    bot logs in to both sites and then crashes at the first sleep of its
    loop: [asyncio.sleep] raises a [TypeError], which [main] reports as
    "Bot crashed: ..." before it runs the teardown, in which both sessions
    are still held. *)
Theorem bad_check_interval_crashes (fuel : nat) (s s1 s2 : state) :
  reaches_login ChatGPT (S fuel) s s1 ->
  login ChatGPT (S fuel) s1 = (Val true, s2) ->
  ~ interval_is_number (config (b s2)) ->
  TeamsBot.start (S fuel) s = (Exc interval_error, started s2)
  /\ run_bot (S fuel) s =
       TeamsBot.stop (add_log ERROR ("Bot crashed: " +:+ exn_msg interval_error) (started s2)).
Proof.
  intros Hteams Hchatgpt Hbad.
  assert (Hstart : TeamsBot.start (S fuel) s = (Exc interval_error, started s2)).
  { rewrite (start_logged_in _ _ _ _ Hteams Hchatgpt).
    cbn [TeamsBot.idle_loop]. rewrite bind_run. unfold gets at 1.
    cbn [started b is_running set_is_running].
    rewrite bind_run. unfold gets at 1. rewrite bind_run.
    rewrite asyncio_sleep_not_number; [reflexivity | ].
    destruct s2 as [? []]. exact Hbad. }
  split; [exact Hstart | ].
  unfold run_bot, try_finally, try_except. rewrite Hstart.
  cbn [select_clause exn_cls interval_error catches].
  unfold logger_error. rewrite log_run.
  destruct (TeamsBot.stop _) as [[[]|e|h] s4]; reflexivity.
Qed.

Lemma string_interval_logins :
  exists s1 s2 : state,
    reaches_login ChatGPT 1 (constructed string_interval_config (fun _ => Shows full_page)) s1
    /\ login ChatGPT 1 s1 = (Val true, s2)
    /\ config (b s2) = string_interval_config
    /\ teams_driver (b s2) = Some 0%nat /\ chatgpt_driver (b s2) = Some 1%nat.
Proof.
  eexists. eexists. split; [vm_compute; reflexivity | ].
  split; [vm_compute; reflexivity | ].
  repeat split; vm_compute; reflexivity.
Qed.

(** The bot constructed with [check_interval] set to a string, on pages
    that let both logins through. *)
Lemma bad_check_interval_crashes_witness :
  (TeamsBot.start 1 (constructed string_interval_config (fun _ => Shows full_page))).1 =
    Exc interval_error.
Proof.
  destruct string_interval_logins as (s1 & s2 & Ht & Hc & Hcfg & _).
  destruct (bad_check_interval_crashes 0 _ s1 s2 Ht Hc) as [Hstart _].
  - rewrite Hcfg. intros H. exact H.
  - rewrite Hstart. reflexivity.
Defined.

(** ** The wait for a CAPTCHA to be solved *)

Lemma sleep_keeps_env (us : Z) (s : state) : env (w (sleep us s).2) = env (w s).
Proof.
  apply (keeps_sleep (fun s => env (w s))); intros ? ?; try intros ?; reflexivity.
Qed.

(** X12.  The wait for a CAPTCHA has no upper bound: as long as the page
    shows a reCAPTCHA frame, each round of the loop sends one query, logs
    the warning and sleeps five seconds, and the loop goes on.  After [n]
    such answers the loop is where it began, [5 n] seconds later and [n]
    queries further; with fuel for [n] rounds only it is still polling. *)
Theorem captcha_wait_keeps_polling (n fuel driver : nat) (s : state) :
  handlers_installed s ->
  (forall i, (i < n)%nat ->
     exists page, answer s i = Shows page /\ select TeamsBot.recaptcha_frame page <> []) ->
  exists s' : state,
    TeamsBot.captcha_wait (n + fuel) driver s = TeamsBot.captcha_wait fuel driver s'
    /\ clock (w s') = clock (w s) + 5000000 * Z.of_nat n
    /\ trace (w s') =
         (trace (w s) ++ repeat (driver, CFindElements TeamsBot.recaptcha_frame) n)%list
    /\ env (w s') = env (w s)
    /\ handlers_installed s'.
Proof.
  revert s. induction n as [|n IH]; intros s Hh Hpos.
  - exists s. split; [reflexivity | ].
    rewrite Z.mul_0_r, Z.add_0_r, app_nil_r. repeat split; apply Hh.
  - destruct (Hpos 0%nat) as (p & Hp & Hsel); [lia | ].
    assert (Hout : detect_outcome s = (true, 1%nat)).
    { unfold detect_outcome. rewrite Hp.
      destruct (select TeamsBot.recaptcha_frame p); [contradiction | reflexivity]. }
    change (S n + fuel)%nat with (S (n + fuel)). cbn [TeamsBot.captcha_wait].
    rewrite bind_run, detect_captcha_run, Hout. cbn [fst]. rewrite bind_run.
    set (s1 := detected driver (true, 1%nat) s).
    assert (H1 : handlers_installed s1) by exact Hh.
    destruct (sleep_handled (5 * 1000000) s1 H1) as (s2 & Hsleep & Hf & Hc & _ & Hpm & _).
    pose proof (sleep_keeps_env (5 * 1000000) s1) as He.
    unfold time_sleep. rewrite Hsleep in He |- *. cbn [snd] in He.
    unfold idle_frame in Hf. inversion Hf as [[Hfs Htr Hsi Hst Hir Hcfg Htd Hcd]].
    destruct (IH s2) as (s' & Hrun & Hclock & Htrace & Henv & Hh').
    + destruct Hh. split; congruence.
    + intros i Hi. destruct (Hpos (S i)) as (q & Hq & Hs); [lia | ].
      exists q. split; [ | exact Hs]. rewrite <- Hq. unfold answer.
      rewrite He, Htr, length_app. cbn [length]. change (env (w s1)) with (env (w s)).
      f_equal. lia.
    + exists s'. split; [exact Hrun | ].
      split; [rewrite Hclock, Hc; change (clock (w s1)) with (clock (w s)); lia | ].
      split; [rewrite Htrace, Htr, <- app_assoc; reflexivity | ].
      split; [rewrite Henv, He; reflexivity | exact Hh'].
Qed.

Lemma recaptcha_page_found : select TeamsBot.recaptcha_frame recaptcha_page <> [].
Proof. vm_compute. discriminate. Qed.

(** A page that shows a reCAPTCHA frame for as long as it is asked: three
    rounds take fifteen seconds, and the loop is still polling. *)
Lemma captcha_wait_keeps_polling_witness :
  exists s' : state,
    TeamsBot.captcha_wait 3 0 (constructed complete_config (fun _ => Shows recaptcha_page)) =
      (Halt OutOfFuel, s')
    /\ clock (w s') = 15000000.
Proof.
  destruct (captcha_wait_keeps_polling 3 0 0
              (constructed complete_config (fun _ => Shows recaptcha_page)))
    as (s' & Hrun & Hclock & _).
  - split; reflexivity.
  - intros i _. exists recaptcha_page. split; [reflexivity | exact recaptcha_page_found].
  - exists s'. split; [exact Hrun | ]. rewrite Hclock. reflexivity.
Defined.

(** ** The wait for the network *)

Lemma is_connected_run (net : network) (s : state) :
  NetworkChecker.is_connected net s = (Val (net (clock (w s))).1, probed net s).
Proof.
  unfold NetworkChecker.is_connected, try_except_OSError, socket_create_connection, probed.
  msimpl. destruct (net (clock (w s))) as [[] took]; reflexivity.
Qed.

Lemma last_add_log (l : level) (msg : string) (s : state) :
  last (logs (w (add_log l msg s))) = Some (l, msg).
Proof. cbn [add_log w logs set_logs]. apply last_snoc. Qed.

Lemma poll_returns (net : network) (start_time timeout : Z) (fuel : nat) (s : state) :
  handlers_installed s ->
  (1 <= fuel)%nat ->
  timeout * 1000000 - (clock (w s) - start_time) <= 5000000 * (Z.of_nat fuel - 1) ->
  exists (r : bool) (s' : state),
    NetworkChecker.poll net fuel start_time timeout s = (Val r, s')
    /\ handlers_installed s'
    /\ clock (w s) <= clock (w s')
    /\ (r = true ->
          last (logs (w s')) = Some (INFO, "Network connection established")
          /\ exists t, clock (w s) <= t /\ t - start_time < timeout * 1000000
                       /\ (net t).1 = true)
    /\ (r = false ->
          last (logs (w s')) = Some (ERROR, "Network connection timeout")
          /\ timeout * 1000000 <= clock (w s') - start_time).
Proof.
  revert s. induction fuel as [|fuel IH]; intros s Hh Hfuel Hrem; [lia | ].
  cbn [NetworkChecker.poll]. rewrite bind_run. unfold datetime_now, gets at 1.
  destruct (decide (clock (w s) - start_time < timeout * 1000000)) as [Hlt | Hge].
  - rewrite bool_decide_eq_true_2 by exact Hlt.
    rewrite bind_run, is_connected_run.
    destruct (net (clock (w s))) as [ok took] eqn:Hnet. cbn [fst].
    destruct ok.
    + rewrite bind_run. unfold logger_info. rewrite log_run.
      exists true. eexists. split; [reflexivity | ].
      split; [exact Hh | ].
      split; [unfold probed; cbn [add_log w clock set_logs set_clock]; rewrite Hnet; cbn [snd]; lia | ].
      split; [ | discriminate]. intros _.
      split; [apply last_add_log | ].
      exists (clock (w s)). rewrite Hnet. repeat split; [lia | exact Hlt].
    + rewrite bind_run. unfold time_sleep.
      assert (Hp : handlers_installed (probed net s)) by exact Hh.
      destruct (sleep_handled (5 * 1000000) (probed net s) Hp)
        as (s2 & Hsleep & Hf & Hc & _).
      rewrite Hsleep.
      unfold idle_frame in Hf. inversion Hf as [[Hfs Htr Hsi Hst Hir Hcfg Htd Hcd]].
      assert (Hclock : clock (w s) + 5000000 <= clock (w s2)).
      { rewrite Hc. unfold probed. cbn [w clock set_clock]. lia. }
      destruct (IH s2) as (r & s' & Hrun & Hh' & Hmono & Htrue & Hfalse).
      * destruct Hh. split; congruence.
      * lia.
      * lia.
      * exists r, s'. split; [exact Hrun | ]. split; [exact Hh' | ].
        split; [lia | ]. split; [ | exact Hfalse].
        intros Hr. destruct (Htrue Hr) as (Hlog & t & Ht1 & Ht2 & Ht3).
        split; [exact Hlog | ]. exists t. repeat split; [lia | exact Ht2 | exact Ht3].
  - rewrite bool_decide_eq_false_2 by exact Hge.
    rewrite bind_run. unfold logger_error. rewrite log_run.
    exists false. eexists. split; [reflexivity | ].
    split; [exact Hh | ]. split; [cbn [add_log w clock set_logs]; lia | ].
    split; [discriminate | ]. intros _.
    split; [apply last_add_log | ]. cbn [add_log w clock set_logs]. lia.
Qed.

(** X13.  [wait_for_network] always comes back: the loop makes at most
    one connection attempt per five seconds of its timeout, so
    [timeout / 5 + 2] rounds are enough.  It returns [True] only after an
    attempt made before the deadline succeeded, and then its last log line
    is "Network connection established"; it returns [False] only once the
    timeout has passed, and then its last log line is "Network connection
    timeout".  A signal that arrives during a sleep runs the installed
    handler and does not end the wait. *)
Theorem wait_for_network_returns (net : network) (timeout : Z) (fuel : nat) (s : state) :
  handlers_installed s ->
  (Z.to_nat (timeout / 5) + 2 <= fuel)%nat ->
  exists (r : bool) (s' : state),
    NetworkChecker.wait_for_network net fuel timeout s = (Val r, s')
    /\ (r = true ->
          last (logs (w s')) = Some (INFO, "Network connection established")
          /\ exists t, clock (w s) <= t < clock (w s) + timeout * 1000000
                       /\ (net t).1 = true)
    /\ (r = false ->
          last (logs (w s')) = Some (ERROR, "Network connection timeout")
          /\ clock (w s) + timeout * 1000000 <= clock (w s')).
Proof.
  intros Hh Hfuel. unfold NetworkChecker.wait_for_network.
  rewrite bind_run. unfold logger_info at 1. rewrite log_run.
  rewrite bind_run. unfold datetime_now, gets at 1.
  set (s0 := add_log INFO "Waiting for network connection..." s).
  destruct (poll_returns net (clock (w s0)) timeout fuel s0)
    as (r & s' & Hrun & _ & _ & Htrue & Hfalse).
  - exact Hh.
  - lia.
  - assert (timeout < 5 * (timeout / 5 + 1))
      by (pose proof (Z.mul_succ_div_gt timeout 5); lia).
    destruct (Z_le_gt_dec 0 (timeout / 5)) as [Hpos | Hneg].
    + rewrite Nat2Z.inj_le, Nat2Z.inj_add, Z2Nat.id in Hfuel by exact Hpos. lia.
    + lia.
  - exists r, s'. split; [exact Hrun | ].
    change (clock (w s0)) with (clock (w s)) in *.
    split.
    + intros Hr. destruct (Htrue Hr) as (Hlog & t & Ht1 & Ht2 & Ht3).
      split; [exact Hlog | ]. exists t. split; [lia | exact Ht3].
    + intros Hr. destruct (Hfalse Hr) as (Hlog & Ht). split; [exact Hlog | lia].
Qed.

(** With the network down, a wait of twelve seconds makes three attempts
    and gives up. *)
Lemma wait_for_network_returns_witness :
  exists s' : state,
    NetworkChecker.wait_for_network network_down 4 12
      (constructed complete_config (fun _ => Shows full_page)) = (Val false, s')
    /\ 12000000 <= clock (w s').
Proof.
  destruct (wait_for_network_returns network_down 12 4
              (constructed complete_config (fun _ => Shows full_page)))
    as (r & s' & Hrun & Htrue & Hfalse).
  - split; reflexivity.
  - vm_compute. lia.
  - destruct r.
    + destruct (Htrue eq_refl) as (_ & t & _ & Ht). discriminate Ht.
    + exists s'. split; [exact Hrun | ]. destruct (Hfalse eq_refl) as [_ Hc]. exact Hc.
Defined.

(** X14.  A timeout of zero (or less) makes [wait_for_network] give up at
    once: it logs its two lines and returns [False] without a single
    connection attempt, whatever the state of the network; no time
    passes. *)
Theorem wait_for_network_without_time (net : network) (timeout : Z) (fuel : nat) (s : state) :
  timeout <= 0 ->
  NetworkChecker.wait_for_network net (S fuel) timeout s =
    (Val false,
     add_log ERROR "Network connection timeout"
       (add_log INFO "Waiting for network connection..." s)).
Proof.
  intros Ht. unfold NetworkChecker.wait_for_network.
  rewrite bind_run. unfold logger_info at 1. rewrite log_run.
  rewrite bind_run. unfold datetime_now, gets at 1.
  cbn [NetworkChecker.poll]. rewrite bind_run. unfold datetime_now, gets at 1.
  rewrite bool_decide_eq_false_2 by lia. reflexivity.
Qed.

(** The network is up, and is not asked. *)
Lemma wait_for_network_without_time_witness :
  (NetworkChecker.wait_for_network network_up 1 0 (State (machine (fun _ => Shows [])) no_bot)).1
    = Val false.
Proof.
  rewrite (wait_for_network_without_time network_up 0 0); [reflexivity | lia].
Defined.

(** ** Loading the configuration *)




(** X16.  What [load_config] returns once it returns again: a second call
    yields the same configuration and changes nothing.  In particular the
    defaults written when the file was missing are read back as they were
    written, and the notice is printed once. *)
Theorem load_config_twice (s s1 : state) (cfg : gmap string value) :
  CONFIG_FILE ∉ unreadable (w s) ->
  load_config s = (Val cfg, s1) ->
  load_config s1 = (Val cfg, s1).
Proof.
  intros Hr. unfold load_config at 1. rewrite bind_run.
  destruct (fs (w s) !! CONFIG_FILE) as [c|] eqn:Hfile.
  - rewrite (os_path_exists_true _ _ _ Hfile). rewrite bind_run.
    rewrite (open_read_ok _ _ _ Hfile Hr).
    destruct c as [d | t]; [ | discriminate].
    intros E. inversion E; subst. 
    unfold load_config. rewrite bind_run, (os_path_exists_true _ _ _ Hfile).
    rewrite bind_run, (open_read_ok _ _ _ Hfile Hr). reflexivity.
  - rewrite (os_path_exists_false _ _ Hfile). rewrite bind_run.
    destruct (decide (CONFIG_FILE ∈ unwritable (w s))) as [Hw | Hw].
    + rewrite (open_write_denied _ _ _ Hw). discriminate.
    + rewrite (open_write_ok _ _ _ Hw). rewrite bind_run. unfold print, upd_w at 1.
      rewrite ret_run. intros E. injection E as Hcfg Hs1.
      assert (Hnew : fs (w s1) !! CONFIG_FILE = Some (Json default_config))
        by (rewrite <- Hs1; cbn [w fs set_fs set_stdout]; apply lookup_insert_eq).
      assert (Hr1 : CONFIG_FILE ∉ unreadable (w s1)) by (rewrite <- Hs1; exact Hr).
      unfold load_config. rewrite bind_run, (os_path_exists_true _ _ _ Hnew).
      rewrite bind_run, (open_read_ok _ _ _ Hnew Hr1). rewrite <- Hcfg. reflexivity.
Qed.

(** A machine without configuration file: the defaults are created, then
    read back. *)
Lemma load_config_twice_witness :
  exists s1 : state,
    load_config (State (machine (fun _ => Shows full_page)) no_bot) = (Val default_config, s1)
    /\ load_config s1 = (Val default_config, s1).
Proof.
  exists (load_config (State (machine (fun _ => Shows full_page)) no_bot)).2.
  split; [vm_compute; reflexivity | ].
  apply (load_config_twice (State (machine (fun _ => Shows full_page)) no_bot));
    [vm_compute; set_solver | vm_compute; reflexivity].
Defined.

(** ** The further properties on concrete runs *)

(** A stale PID file, and the process table holding the writing process
    itself, started as the bot. *)
Lemma written_pid_is_recognised_witness :
  exists s' : state,
    ProcessManager.write_pid
      (with_pid_file "17" 4243 ["python3"; "teams_chatgpt_bot_captcha.py"]) = (Val tt, s')
    /\ fs (w s') !! PID_FILE = Some (Text "4243")
    /\ (ProcessManager.is_already_running s').1 = Val true.
Proof.
  destruct (written_pid_is_recognised
              (with_pid_file "17" 4243 ["python3"; "teams_chatgpt_bot_captcha.py"])
              (Process (inr ["python3"; "teams_chatgpt_bot_captcha.py"]))
              ["python3"; "teams_chatgpt_bot_captcha.py"])
    as (s' & Hwrite & Hfile & Hrun).
  - vm_compute. set_solver.
  - vm_compute. set_solver.
  - vm_compute. discriminate.
  - vm_compute. reflexivity.
  - reflexivity.
  - exists s'. split; [exact Hwrite | ]. split; [exact Hfile | ].
    rewrite Hrun. vm_compute. reflexivity.
Defined.

(** A machine without any file. *)
Lemma write_then_cleanup_restores_files_witness :
  (ProcessManager.write_pid ;; ProcessManager.cleanup_pid)
    (State (machine (fun _ => Shows [])) no_bot) =
  (Val tt, State (machine (fun _ => Shows [])) no_bot).
Proof.
  apply (write_then_cleanup_restores_files (State (machine (fun _ => Shows [])) no_bot)).
  - vm_compute. reflexivity.
  - vm_compute. set_solver.
Defined.

(** One error counted on a fresh record, and a restart three seconds
    later. *)
Lemma stats_survive_restart_witness :
  exists s1 s2 : state,
    BotStats.increment "errors" fresh_stats = (Val tt, s1)
    /\ BotStats.init (elapse 3000000 s1) = (Val tt, s2)
    /\ stats (b s2) !! "start_time" = Some (VTime 0)
    /\ counter_value (stats (b s2)) "errors" = Some 1.
Proof.
  destruct (stats_survive_restart fresh_stats "errors" 0 0 3000000)
    as (s1 & s2 & H1 & H2 & _ & Hstart & Hcount).
  - simpl. intuition discriminate.
  - reflexivity.
  - reflexivity.
  - intros k Hk. cbn [In stat_keys] in Hk.
    destruct Hk as [<- | [<- | [<- | [<- | [<- | [<- | []]]]]]]; eexists; vm_compute; reflexivity.
  - vm_compute. set_solver.
  - vm_compute. set_solver.
  - exists s1, s2. repeat split; assumption.
Defined.

(** [increment] of the record's [start_time], which is a timestamp. *)
Lemma increment_rejects_non_number_witness :
  BotStats.increment "start_time" fresh_stats =
    (Exc (Exn TypeError "unsupported operand type(s) for +"), fresh_stats).
Proof.
  apply (increment_rejects_non_number fresh_stats "start_time" (VTime 0)).
  - reflexivity.
  - exact I.
Defined.

(** A record without [start_time]. *)
Lemma save_stats_needs_start_time_witness :
  exists msg : string,
    BotStats.save_stats (State (machine (fun _ => Shows [])) no_bot) =
      (Val tt,
       add_log WARNING ("Could not save stats: " +:+ msg)
         (State (machine (fun _ => Shows [])) no_bot)).
Proof.
  apply (save_stats_needs_start_time (State (machine (fun _ => Shows [])) no_bot)).
  exact I.
Defined.

(** A login of the constructed bot when no browser can be started. *)
Lemma login_never_raises_witness :
  exists s' : state,
    handlers_installed s'
    /\ ((exists r : bool, login Teams 0 no_browser = (Val r, s'))
        \/ login Teams 0 no_browser = (Halt OutOfFuel, s')).
Proof.
  apply (login_never_raises Teams 0 no_browser). split; reflexivity.
Defined.
